(** * pb-assignment: the bill orchestrator loop and the store activities

    A shallow embedding of [bill/workflow.go] (the signal loop [BillWorkflow]),
    [bill/activities.go] (the three store activities), [bill/store.go] (the
    domain types and the older store functions), [bill/helpers.go] (the
    mappers and the join-based read), the handlers of both versions of
    [bill/api.go] that can be read without the workflow engine, and of the
    two tables of [migrations/1_init_billing.up.sql].

    Go's [int64] is a [Z] with the wrap-around written out, Go strings are
    [string], a pointer result with an [error] is a [Result], and the
    database the activities share is threaded through every call. *)

From Stdlib Require Import ZArith List String Bool Lia Permutation Sorted.
Import ListNotations.
Local Open Scope Z_scope.

(** ** Go's [int64] *)

Module Int64.

Definition min_int : Z := - 2 ^ 63.
Definition max_int : Z := 2 ^ 63 - 1.

Definition in_range (z : Z) : Prop := min_int <= z <= max_int.

(** Two's-complement reduction of a mathematical integer to 64 bits. *)
Definition wrap (z : Z) : Z := (z + 2 ^ 63) mod 2 ^ 64 - 2 ^ 63.

(** [a + b] on [int64]: Go wraps around on overflow. *)
Definition add (a b : Z) : Z := wrap (a + b).

End Int64.

(** ** Domain types ([store.go]) *)

(** [time.Time], an instant on the database clock. *)
Definition Time := Z.

(** [type Currency string] and [type BillStatus string]. *)
Definition Currency := string.
Definition BillStatus := string.

Definition CurrencyUSD : Currency := "USD"%string.
Definition CurrencyGEL : Currency := "GEL"%string.

Definition Currency_Valid (c : Currency) : bool :=
  String.eqb c CurrencyUSD || String.eqb c CurrencyGEL.

Definition StatusOpen : BillStatus := "OPEN"%string.
Definition StatusClosed : BillStatus := "CLOSED"%string.

Module Bill.
Record t := mk
  { ID : string;
    Status : BillStatus;
    Currency : Currency;
    TotalMinor : Z;
    CreatedAt : Time;
    ClosedAt : option Time }.
End Bill.

Module LineItem.
Record t := mk
  { ID : string;
    BillID : string;
    Description : string;
    AmountMinor : Z;
    CreatedAt : Time }.
End LineItem.

(** ** Workflow types ([workflow.go]) *)

Module BillWorkflowParams.
Record t := mk { BillID : string; Currency : string }.
End BillWorkflowParams.

Module AddLineItemSignal.
Record t := mk
  { LineItemID : string;
    AmountMinor : Z;
    Description : string;
    Currency : string }.
End AddLineItemSignal.

Module CloseBillSignal.
Record t := mk { }.
End CloseBillSignal.

Module LineItemState.
Record t := mk { ID : string; AmountMinor : Z; Description : string }.
End LineItemState.

Module BillResult.
Record t := mk
  { BillID : string;
    Currency : string;
    TotalMinor : Z;
    Items : list LineItemState.t }.
End BillResult.

(** ** The signal loop [BillWorkflow] *)

(** What one [sel.Select] dispatches: a signal received on [addCh] or on
    [closeCh].  The list of deliveries a run is given is the order in which
    the selector hands the signals to the two callbacks. *)
Inductive Delivery :=
| OnAddLineItem (sig : AddLineItemSignal.t)
| OnCloseBill (sig : CloseBillSignal.t).

(** [state := &BillResult{...}] at the top of [BillWorkflow]. *)
Definition initialState (params : BillWorkflowParams.t) : BillResult.t :=
  {| BillResult.BillID := BillWorkflowParams.BillID params;
     BillResult.Currency := BillWorkflowParams.Currency params;
     BillResult.TotalMinor := 0;
     BillResult.Items := [] |}.

(** The entry appended for a signal. *)
Definition lineItemStateOf (sig : AddLineItemSignal.t) : LineItemState.t :=
  {| LineItemState.ID := AddLineItemSignal.LineItemID sig;
     LineItemState.AmountMinor := AddLineItemSignal.AmountMinor sig;
     LineItemState.Description := AddLineItemSignal.Description sig |}.

(** The callback registered on [addCh]: it mutates [state] in place, here it
    returns the new state. *)
Definition receiveAddLineItem (state : BillResult.t) (sig : AddLineItemSignal.t)
  : BillResult.t :=
  if negb (String.eqb (AddLineItemSignal.Currency sig) (BillResult.Currency state))
  then state
  else
    {| BillResult.BillID := BillResult.BillID state;
       BillResult.Currency := BillResult.Currency state;
       BillResult.TotalMinor :=
         Int64.add (BillResult.TotalMinor state) (AddLineItemSignal.AmountMinor sig);
       BillResult.Items := BillResult.Items state ++ [lineItemStateOf sig] |}.

(** One pass through the body of the [for]: the state after the selected
    callback ran, and [shouldClose]. *)
Definition iteration (state : BillResult.t) (d : Delivery) : BillResult.t * bool :=
  match d with
  | OnAddLineItem sig => (receiveAddLineItem state sig, false)
  | OnCloseBill _ => (state, true)
  end.

(** A run of the workflow function either returns [(state, nil)] or is still
    blocked in [sel.Select], holding [state], when the deliveries end. *)
Inductive Run :=
| Returned (result : BillResult.t)
| Waiting (state : BillResult.t).

Fixpoint loop (state : BillResult.t) (inbox : list Delivery) : Run :=
  match inbox with
  | [] => Waiting state
  | d :: rest =>
      let (state', shouldClose) := iteration state d in
      if shouldClose then Returned state' else loop state' rest
  end.

Definition BillWorkflow (params : BillWorkflowParams.t) (inbox : list Delivery) : Run :=
  loop (initialState params) inbox.

(** The state at the head of every iteration the loop enters, followed by the
    state it returns when it leaves. *)
Fixpoint loopStates (state : BillResult.t) (inbox : list Delivery) : list BillResult.t :=
  state ::
  match inbox with
  | [] => []
  | d :: rest =>
      let (state', shouldClose) := iteration state d in
      if shouldClose then [state'] else loopStates state' rest
  end.

(** The sum of [AmountMinor] over a slice of items, accumulated in [int64]
    as [TotalMinor] is. *)
Definition sumAmountMinor (items : list LineItemState.t) : Z :=
  fold_left (fun acc it => Int64.add acc (LineItemState.AmountMinor it)) items 0.

(** The same sum over the integers. *)
Definition exactSum (items : list LineItemState.t) : Z :=
  fold_right (fun it acc => LineItemState.AmountMinor it + acc) 0 items.

Definition TotalMatchesItems (state : BillResult.t) : Prop :=
  BillResult.TotalMinor state = sumAmountMinor (BillResult.Items state).

(** The signals the loop applies out of a list of deliveries: those received
    before the first close whose currency is the bill's. *)
Fixpoint appliedSignals (currency : string) (inbox : list Delivery)
  : list AddLineItemSignal.t :=
  match inbox with
  | [] => []
  | OnAddLineItem sig :: rest =>
      if String.eqb (AddLineItemSignal.Currency sig) currency
      then sig :: appliedSignals currency rest
      else appliedSignals currency rest
  | OnCloseBill _ :: _ => []
  end.

(** The state a run holds, returned or not. *)
Definition stateOf (r : Run) : BillResult.t :=
  match r with
  | Returned result => result
  | Waiting state => state
  end.

(** ** Errors ([encore.dev/beta/errs]) *)

Module errs.

Inductive ErrCode := InvalidArgument | NotFound | FailedPrecondition | Internal.

(** [errs.B().Code(c).Msg(m).Err()] *)
Record Error := B { Code : ErrCode; Msg : string }.

End errs.

Inductive Result (A : Type) :=
| Ok (a : A)
| Err (e : errs.Error).
Arguments Ok {A} a.
Arguments Err {A} e.

(** ** The database ([migrations/1_init_billing.up.sql])

    A table is the list of its rows in insertion order.  The columns of
    [bills] and [bill_line_items] are the fields of [Bill.t] and
    [LineItem.t], which is how every [Scan] of the package reads them, so a
    row is kept as that record ([closed_at] is the one nullable column).
    A statement fails only on a constraint of the schema; a database that
    cannot be reached, which the activities report as [Internal], is not
    part of the model. *)

Record DB := mkDB
  { bills : list Bill.t;
    bill_line_items : list LineItem.t }.

(** The [CHECK] clauses of [bills]: [status IN ('OPEN', 'CLOSED')] and
    [currency IN ('USD', 'GEL')]. *)
Definition bills_check (b : Bill.t) : bool :=
  (String.eqb (Bill.Status b) "OPEN" || String.eqb (Bill.Status b) "CLOSED")
  && (String.eqb (Bill.Currency b) "USD" || String.eqb (Bill.Currency b) "GEL").

(** [bill_line_items] declares no [CHECK] clause: every column is only
    [NOT NULL], [amount_minor] included. *)
Definition bill_line_items_check (li : LineItem.t) : bool := true.

Definition has_bill_id (id : string) (b : Bill.t) : bool := String.eqb (Bill.ID b) id.
Definition has_line_item_id (id : string) (li : LineItem.t) : bool :=
  String.eqb (LineItem.ID li) id.

(** [SELECT ... FROM bills WHERE id = $1], read by [QueryRow(...).Scan]:
    the first row, or [ErrNoRows]. *)
Definition select_bill (db : DB) (id : string) : option Bill.t :=
  find (has_bill_id id) (bills db).

(** [SELECT ... FROM bill_line_items WHERE id = $1], likewise. *)
Definition select_line_item (db : DB) (id : string) : option LineItem.t :=
  find (has_line_item_id id) (bill_line_items db).

(** [INSERT INTO bills (id, status, currency, total_minor)
     VALUES ($1, $2, $3, 0) ON CONFLICT (id) DO NOTHING]:
    [created_at] defaults to [now()], [closed_at] to NULL.  [None] is the
    statement's error (a violated [CHECK]). *)
Definition insert_bill (now : Time) (db : DB) (id status currency : string)
  : option DB :=
  let row := Bill.mk id status currency 0 now None in
  if negb (bills_check row) then None
  else
    match select_bill db id with
    | Some _ => Some db
    | None => Some (mkDB (bills db ++ [row]) (bill_line_items db))
    end.

(** [INSERT INTO bill_line_items (id, bill_id, description, amount_minor)
     VALUES ($1, $2, $3, $4) ON CONFLICT (id) DO NOTHING].  [None] is the
    statement's error: a violated [CHECK] (there is none to violate) or, for
    a row that is really inserted, a [bill_id] that references no bill. *)
Definition insert_line_item (now : Time) (db : DB)
  (id bill_id description : string) (amount_minor : Z) : option DB :=
  let row := LineItem.mk id bill_id description amount_minor now in
  if negb (bill_line_items_check row) then None
  else
    match select_line_item db id with
    | Some _ => Some db
    | None =>
        if existsb (has_bill_id bill_id) (bills db)
        then Some (mkDB (bills db) (bill_line_items db ++ [row]))
        else None
    end.

(** The [SET] clause of both closing updates. *)
Definition set_closed (status : string) (total_minor : Z) (closed_at : Time)
  (b : Bill.t) : Bill.t :=
  Bill.mk (Bill.ID b) status (Bill.Currency b) total_minor (Bill.CreatedAt b)
    (Some closed_at).

(** [UPDATE bills SET ... WHERE <hit> RETURNING ...]: the table after the
    update and the rows it returns.  The new status is the constant
    ['CLOSED'] at both call sites and the currency is not touched, so the
    [CHECK] clauses are not re-examined here. *)
Definition update_bills (hit : Bill.t -> bool) (set : Bill.t -> Bill.t) (db : DB)
  : DB * list Bill.t :=
  (mkDB (map (fun b => if hit b then set b else b) (bills db)) (bill_line_items db),
   map set (filter hit (bills db))).

(** The [WHERE id = $1 AND status = 'OPEN'] of [CloseBillActivity]. *)
Definition is_open_bill (id : string) (b : Bill.t) : bool :=
  has_bill_id id b && String.eqb (Bill.Status b) "OPEN".

(** The number of [bill_line_items] rows stored under an id. *)
Definition countLineItems (db : DB) (id : string) : nat :=
  List.length (filter (has_line_item_id id) (bill_line_items db)).

(** The primary keys: no two rows of a table share an [id]. *)
Definition PrimaryKeys (db : DB) : Prop :=
  NoDup (map Bill.ID (bills db)) /\ NoDup (map LineItem.ID (bill_line_items db)).

(** ** The activities ([activities.go]) *)

Module CreateBillRowInput.
Record t := mk { BillID : string; Currency : Currency }.
End CreateBillRowInput.

Module AddLineItemInput.
Record t := mk
  { LineItemID : string;
    BillID : string;
    Description : string;
    AmountMinor : Z;
    Currency : Currency }.
End AddLineItemInput.

Module CloseBillInput.
Record t := mk { BillID : string; TotalMinor : Z }.
End CloseBillInput.

(** Every activity runs against the package-level [db]: it takes the
    database and the clock reading of its statements, and gives back the
    database it leaves with its Go result. *)

Definition CreateBillRowActivity (now : Time) (db : DB) (input : CreateBillRowInput.t)
  : DB * Result Bill.t :=
  if negb (Currency_Valid (CreateBillRowInput.Currency input))
  then (db, Err (errs.B errs.InvalidArgument "unsupported currency"))
  else
    match insert_bill now db (CreateBillRowInput.BillID input) StatusOpen
            (CreateBillRowInput.Currency input) with
    | None => (db, Err (errs.B errs.Internal "insert bill"))
    | Some db' =>
        match select_bill db' (CreateBillRowInput.BillID input) with
        | None => (db', Err (errs.B errs.NotFound "bill not found after insert"))
        | Some b => (db', Ok b)
        end
    end.

Definition AddLineItemActivity (now : Time) (db : DB) (input : AddLineItemInput.t)
  : DB * Result LineItem.t :=
  if AddLineItemInput.AmountMinor input <=? 0
  then (db, Err (errs.B errs.InvalidArgument "amount must be positive"))
  else
    match select_bill db (AddLineItemInput.BillID input) with
    | None => (db, Err (errs.B errs.NotFound "bill not found"))
    | Some row =>
        if negb (String.eqb (Bill.Status row) StatusOpen)
        then (db, Err (errs.B errs.FailedPrecondition "bill is closed"))
        else if negb (String.eqb (Bill.Currency row) (AddLineItemInput.Currency input))
        then (db, Err (errs.B errs.FailedPrecondition "currency mismatch"))
        else
          match insert_line_item now db (AddLineItemInput.LineItemID input)
                  (AddLineItemInput.BillID input) (AddLineItemInput.Description input)
                  (AddLineItemInput.AmountMinor input) with
          | None => (db, Err (errs.B errs.Internal "insert line item"))
          | Some db' =>
              match select_line_item db' (AddLineItemInput.LineItemID input) with
              | None => (db', Err (errs.B errs.Internal "read line item"))
              | Some li => (db', Ok li)
              end
          end
    end.

(** The row [AddLineItemActivity]'s [INSERT] proposes for an input. *)
Definition lineItemRowOf (now : Time) (input : AddLineItemInput.t) : LineItem.t :=
  LineItem.mk (AddLineItemInput.LineItemID input) (AddLineItemInput.BillID input)
    (AddLineItemInput.Description input) (AddLineItemInput.AmountMinor input) now.

Definition CloseBillActivity (now : Time) (db : DB) (input : CloseBillInput.t)
  : DB * Result Bill.t :=
  let (db', returning) :=
    update_bills (is_open_bill (CloseBillInput.BillID input))
      (set_closed StatusClosed (CloseBillInput.TotalMinor input) now) db in
  match returning with
  | [] => (db', Err (errs.B errs.FailedPrecondition "bill already closed or not found"))
  | b :: _ => (db', Ok b)
  end.

(** ** The older store functions ([store.go]) *)

Definition getBill (db : DB) (id : string) : Result Bill.t :=
  match select_bill db id with
  | None => Err (errs.B errs.NotFound "bill not found")
  | Some b => Ok b
  end.

(** [closeBill] guards on the status of the [*Bill] its caller read earlier;
    its [UPDATE] is keyed by [id] alone. *)
Definition closeBill (now : Time) (db : DB) (bill : Bill.t) (totalMinor : Z)
  : DB * Result Bill.t :=
  if negb (String.eqb (Bill.Status bill) StatusOpen)
  then (db, Err (errs.B errs.FailedPrecondition "bill already closed"))
  else
    let (db', returning) :=
      update_bills (has_bill_id (Bill.ID bill)) (set_closed StatusClosed totalMinor now) db in
    match returning with
    | [] => (db', Err (errs.B errs.Internal "update bill"))
    | b :: _ => (db', Ok b)
    end.

(** ** The insert-line-item step of the orchestrator

    The activity for a received signal, then, when the activity succeeded,
    the in-memory apply of [receiveAddLineItem]. *)

Definition addLineItemInputOf (state : BillResult.t) (sig : AddLineItemSignal.t)
  : AddLineItemInput.t :=
  AddLineItemInput.mk (AddLineItemSignal.LineItemID sig) (BillResult.BillID state)
    (AddLineItemSignal.Description sig) (AddLineItemSignal.AmountMinor sig)
    (AddLineItemSignal.Currency sig).

Definition insertLineItemStep (now : Time) (db : DB) (state : BillResult.t)
  (sig : AddLineItemSignal.t) : DB * BillResult.t :=
  match AddLineItemActivity now db (addLineItemInputOf state sig) with
  | (db', Ok _) => (db', receiveAddLineItem state sig)
  | (db', Err _) => (db', state)
  end.

(** ** [ORDER BY]

    The rows of a query in the order of a key: an insertion sort that
    leaves rows of equal key in table order (SQL leaves their order open;
    nothing proved below depends on it). *)

Fixpoint insert_row {A : Type} (leb : A -> A -> bool) (x : A) (rows : list A) : list A :=
  match rows with
  | [] => [x]
  | y :: rest => if leb x y then x :: rows else y :: insert_row leb x rest
  end.

Definition order_by {A : Type} (leb : A -> A -> bool) (rows : list A) : list A :=
  fold_right (insert_row leb) [] rows.

(** [ORDER BY created_at DESC] on [bills], [ORDER BY created_at ASC] on
    [bill_line_items]. *)
Definition bills_created_desc (a b : Bill.t) : bool :=
  Bill.CreatedAt b <=? Bill.CreatedAt a.
Definition line_items_created_asc (a b : LineItem.t) : bool :=
  LineItem.CreatedAt a <=? LineItem.CreatedAt b.

(** ** The rest of the older store functions ([store.go])

    The ids these functions draw from [uuid.New()] are arguments here. *)

(** [INSERT INTO bills (id, status, currency, total_minor)
     VALUES ($1, $2, $3, 0) RETURNING ...]: without [ON CONFLICT] a taken
    id is an error, like a violated [CHECK]. *)
Definition insert_bill_returning (now : Time) (db : DB) (id status currency : string)
  : option (DB * Bill.t) :=
  let row := Bill.mk id status currency 0 now None in
  if negb (bills_check row) then None
  else
    match select_bill db id with
    | Some _ => None
    | None => Some (mkDB (bills db ++ [row]) (bill_line_items db), row)
    end.

(** [INSERT INTO bill_line_items (id, bill_id, description, amount_minor)
     VALUES ($1, $2, $3, $4) RETURNING ...]: a taken id or a [bill_id]
    that references no bill is an error. *)
Definition insert_line_item_returning (now : Time) (db : DB)
  (id bill_id description : string) (amount_minor : Z) : option (DB * LineItem.t) :=
  let row := LineItem.mk id bill_id description amount_minor now in
  if negb (bill_line_items_check row) then None
  else
    match select_line_item db id with
    | Some _ => None
    | None =>
        if existsb (has_bill_id bill_id) (bills db)
        then Some (mkDB (bills db) (bill_line_items db ++ [row]), row)
        else None
    end.

Definition createBill (now : Time) (id : string) (db : DB) (currency : Currency)
  : DB * Result Bill.t :=
  if negb (Currency_Valid currency)
  then (db, Err (errs.B errs.InvalidArgument "unsupported currency"))
  else
    match insert_bill_returning now db id StatusOpen currency with
    | None => (db, Err (errs.B errs.Internal "insert bill"))
    | Some (db', b) => (db', Ok b)
    end.

(** [status == nil] lists every bill. *)
Definition listBills (db : DB) (status : option BillStatus) : Result (list Bill.t) :=
  match status with
  | None => Ok (order_by bills_created_desc (bills db))
  | Some st =>
      Ok (order_by bills_created_desc
            (filter (fun b => String.eqb (Bill.Status b) st) (bills db)))
  end.

Definition insertLineItem (now : Time) (id : string) (db : DB) (bill : Bill.t)
  (description : string) (amountMinor : Z) : DB * Result LineItem.t :=
  if negb (String.eqb (Bill.Status bill) StatusOpen)
  then (db, Err (errs.B errs.FailedPrecondition "cannot add line item to closed bill"))
  else if amountMinor <=? 0
  then (db, Err (errs.B errs.InvalidArgument "line item amount must be positive"))
  else
    match insert_line_item_returning now db id (Bill.ID bill) description amountMinor with
    | None => (db, Err (errs.B errs.Internal "insert line item"))
    | Some (db', li) => (db', Ok li)
    end.

Definition in_bill (billID : string) (li : LineItem.t) : bool :=
  String.eqb (LineItem.BillID li) billID.

Definition listLineItems (db : DB) (billID : string) : Result (list LineItem.t) :=
  Ok (order_by line_items_created_asc (filter (in_bill billID) (bill_line_items db))).

(** ** The helpers ([helpers.go]) *)

Definition workflowIDForBill (billID : string) : string :=
  String.append "bill-" billID.

Definition getBillStatusAndCurrency (db : DB) (billID : string)
  : Result (BillStatus * Currency) :=
  match select_bill db billID with
  | None => Err (errs.B errs.NotFound "bill not found")
  | Some row => Ok (Bill.Status row, Bill.Currency row)
  end.

(** A row of [bills b LEFT JOIN bill_line_items li ON li.bill_id = b.id]:
    the columns of the bill and, NULL together when the bill has no item,
    those of one of its items. *)
Definition JoinRow : Type := Bill.t * option LineItem.t.

Definition left_join (db : DB) (b : Bill.t) : list JoinRow :=
  match filter (in_bill (Bill.ID b)) (bill_line_items db) with
  | [] => [(b, None)]
  | matched => map (fun li => (b, Some li)) matched
  end.

(** [ORDER BY li.created_at ASC]: ascending, NULL last. *)
Definition join_created_asc (r1 r2 : JoinRow) : bool :=
  match snd r1, snd r2 with
  | Some li1, Some li2 => line_items_created_asc li1 li2
  | Some _, None => true
  | None, Some _ => false
  | None, None => true
  end.

(** [... WHERE b.id = $1 ORDER BY li.created_at ASC] *)
Definition query_bill_join (db : DB) (billID : string) : list JoinRow :=
  order_by join_created_asc
    (flat_map (left_join db) (filter (has_bill_id billID) (bills db))).

(** The [for rows.Next()] of [getBillWithItemsJoin]: [bill] is set from the
    first row, an item is appended for every row whose [li.id] is not NULL,
    with the [BillID] taken from the bill columns. *)
Fixpoint scanBillJoin (rows : list JoinRow) (bill : option Bill.t)
  (items : list LineItem.t) : option Bill.t * list LineItem.t :=
  match rows with
  | [] => (bill, items)
  | (b, li) :: rest =>
      let bill' := match bill with None => Some b | Some _ => bill end in
      let items' :=
        match li with
        | Some l =>
            items ++ [LineItem.mk (LineItem.ID l) (Bill.ID b) (LineItem.Description l)
                        (LineItem.AmountMinor l) (LineItem.CreatedAt l)]
        | None => items
        end in
      scanBillJoin rest bill' items'
  end.

Definition getBillWithItemsJoin (db : DB) (billID : string)
  : Result (Bill.t * list LineItem.t) :=
  match scanBillJoin (query_bill_join db billID) None [] with
  | (None, _) => Err (errs.B errs.NotFound "bill not found")
  | (Some bill, items) => Ok (bill, items)
  end.

(** ** The Temporal client

    The client is outside the model.  A handler is given the outcome of
    each call it makes to the client and gives back, besides the database
    and its Go result, the calls it made, in order. *)
Inductive ClientCall :=
| ExecuteWorkflow (workflowID : string) (params : BillWorkflowParams.t)
| SignalWorkflow (workflowID : string) (signalName : string) (signal : Delivery)
| GetWorkflowResult (workflowID : string).

(** [signalAddLineItem] and [signalCloseBill] of [workflow.go]. *)
Definition signalAddLineItem : string := "add-line-item".
Definition signalCloseBill : string := "close-bill".

(** ** Response shapes and mappers ([helpers.go]) *)

Module MoneyDTO.
Record t := mk { AmountMinor : Z; Currency : Currency }.
End MoneyDTO.

Module BillDTO.
Record t := mk
  { ID : string;
    Status : BillStatus;
    Currency : Currency;
    Total : MoneyDTO.t;
    CreatedAt : string;
    ClosedAt : option string }.
End BillDTO.

Module LineItemDTO.
Record t := mk
  { ID : string;
    BillID : string;
    Description : string;
    AmountMinor : Z;
    CreatedAt : string }.
End LineItemDTO.

Section Mappers.

(** [t.UTC().Format(time.RFC3339Nano)] *)
Variable formatTime : Time -> string.

Definition billToDTO (b : Bill.t) : BillDTO.t :=
  BillDTO.mk (Bill.ID b) (Bill.Status b) (Bill.Currency b)
    (MoneyDTO.mk (Bill.TotalMinor b) (Bill.Currency b))
    (formatTime (Bill.CreatedAt b))
    (match Bill.ClosedAt b with
     | Some closedAt => Some (formatTime closedAt)
     | None => None
     end).

Definition lineItemsToDTOs (items : list LineItem.t) : list LineItemDTO.t :=
  map (fun li =>
         LineItemDTO.mk (LineItem.ID li) (LineItem.BillID li) (LineItem.Description li)
           (LineItem.AmountMinor li) (formatTime (LineItem.CreatedAt li)))
    items.

End Mappers.

(** ** The handlers that signal the workflow ([api.go]) *)

Module Api.

Module AddLineItemRequest.
Record t := mk { Description : string; AmountMinor : Z; Currency : Currency }.
End AddLineItemRequest.

Module AddLineItemResponse.
Record t := mk { LineItemID : string }.
End AddLineItemResponse.

(** [POST /bills/:id/line-items]: [lineItemID] is the [uuid.New()] of the
    handler, [signalled] tells whether [SignalWorkflow] returned nil. *)
Definition AddLineItem (lineItemID : string) (signalled : bool) (db : DB) (id : string)
  (req : AddLineItemRequest.t) : Result AddLineItemResponse.t * list ClientCall :=
  if negb (Currency_Valid (AddLineItemRequest.Currency req))
  then (Err (errs.B errs.InvalidArgument "unsupported currency"), [])
  else
    match getBillStatusAndCurrency db id with
    | Err e => (Err e, [])
    | Ok (status, billCurrency) =>
        if negb (String.eqb status StatusOpen)
        then (Err (errs.B errs.FailedPrecondition "bill is closed"), [])
        else if negb (String.eqb billCurrency (AddLineItemRequest.Currency req))
        then (Err (errs.B errs.FailedPrecondition "currency mismatch"), [])
        else
          let sig :=
            AddLineItemSignal.mk lineItemID (AddLineItemRequest.AmountMinor req)
              (AddLineItemRequest.Description req) (AddLineItemRequest.Currency req) in
          let calls :=
            [SignalWorkflow (workflowIDForBill id) signalAddLineItem (OnAddLineItem sig)] in
          if negb signalled
          then (Err (errs.B errs.FailedPrecondition "bill is closed"), calls)
          else (Ok (AddLineItemResponse.mk lineItemID), calls)
    end.

Module GetBillWithItemsResponse.
Record t := mk { Bill : BillDTO.t; Items : list LineItemDTO.t }.
End GetBillWithItemsResponse.

(** [GET /bills/:id] *)
Definition GetBillWithItems (formatTime : Time -> string) (db : DB) (id : string)
  : Result GetBillWithItemsResponse.t :=
  match getBillWithItemsJoin db id with
  | Err e => Err e
  | Ok (b, items) =>
      Ok (GetBillWithItemsResponse.mk (billToDTO formatTime b)
            (lineItemsToDTOs formatTime items))
  end.

End Api.

(** ** The handlers that write the store themselves (the older [api.go]) *)

Module OlderApi.

Module LineItemDTO.
Record t := mk { ID : string; Description : string; AmountMinor : Z; CreatedAt : string }.
End LineItemDTO.

(** [Items] is left nil where a handler passes no items; a nil and an
    empty slice are the same list here. *)
Module BillDTO.
Record t := mk
  { ID : string;
    Status : BillStatus;
    Currency : Currency;
    Total : MoneyDTO.t;
    CreatedAt : string;
    ClosedAt : option string;
    Items : list LineItemDTO.t }.
End BillDTO.

Module CreateBillResponse.
Record t := mk { Bill : BillDTO.t }.
End CreateBillResponse.

Module AddLineItemRequest.
Record t := mk { Description : string; AmountMinor : Z; Currency : Currency }.
End AddLineItemRequest.

Module AddLineItemResponse.
Record t := mk { Bill : BillDTO.t; LineItem : LineItemDTO.t }.
End AddLineItemResponse.

Module CloseBillResponse.
Record t := mk { Bill : BillDTO.t }.
End CloseBillResponse.

Module GetBillResponse.
Record t := mk { Bill : BillDTO.t }.
End GetBillResponse.

Module ListBillsResponse.
Record t := mk { Bills : list BillDTO.t }.
End ListBillsResponse.

Section Handlers.

Variable formatTime : Time -> string.

Definition lineItemToDTO (li : LineItem.t) : LineItemDTO.t :=
  LineItemDTO.mk (LineItem.ID li) (LineItem.Description li) (LineItem.AmountMinor li)
    (formatTime (LineItem.CreatedAt li)).

Definition billToDTO (b : Bill.t) (items : list LineItem.t) : BillDTO.t :=
  BillDTO.mk (Bill.ID b) (Bill.Status b) (Bill.Currency b)
    (MoneyDTO.mk (Bill.TotalMinor b) (Bill.Currency b))
    (formatTime (Bill.CreatedAt b))
    (match Bill.ClosedAt b with
     | Some closedAt => Some (formatTime closedAt)
     | None => None
     end)
    (map lineItemToDTO items).

(** [POST /bills]: [id] is the [uuid.New()] of [createBill], [started]
    tells whether [ExecuteWorkflow] returned nil. *)
Definition CreateBill (now : Time) (id : string) (started : bool) (db : DB)
  (currency : Currency) : DB * Result CreateBillResponse.t * list ClientCall :=
  if negb (Currency_Valid currency)
  then (db, Err (errs.B errs.InvalidArgument "unsupported currency"), [])
  else
    match createBill now id db currency with
    | (db', Err e) => (db', Err e, [])
    | (db', Ok b) =>
        let calls :=
          [ExecuteWorkflow (workflowIDForBill (Bill.ID b))
             (BillWorkflowParams.mk (Bill.ID b) (Bill.Currency b))] in
        if negb started
        then (db', Err (errs.B errs.Internal "start bill workflow"), calls)
        else (db', Ok (CreateBillResponse.mk (billToDTO b [])), calls)
    end.

(** [POST /bills/:id/line-items]: [lineItemID] is the [uuid.New()] of
    [insertLineItem]. *)
Definition AddLineItem (now : Time) (lineItemID : string) (signalled : bool) (db : DB)
  (id : string) (req : AddLineItemRequest.t)
  : DB * Result AddLineItemResponse.t * list ClientCall :=
  match getBill db id with
  | Err e => (db, Err e, [])
  | Ok b =>
      if negb (String.eqb (Bill.Status b) StatusOpen)
      then (db, Err (errs.B errs.FailedPrecondition "cannot add to closed bill"), [])
      else if negb (String.eqb (AddLineItemRequest.Currency req) (Bill.Currency b))
      then (db,
            Err (errs.B errs.FailedPrecondition "line item currency must match bill currency"),
            [])
      else
        match insertLineItem now lineItemID db b (AddLineItemRequest.Description req)
                (AddLineItemRequest.AmountMinor req) with
        | (db', Err e) => (db', Err e, [])
        | (db', Ok li) =>
            let sig :=
              AddLineItemSignal.mk (LineItem.ID li) (LineItem.AmountMinor li)
                (LineItem.Description li) (AddLineItemRequest.Currency req) in
            let calls :=
              [SignalWorkflow (workflowIDForBill (Bill.ID b)) signalAddLineItem
                 (OnAddLineItem sig)] in
            if negb signalled
            then (db', Err (errs.B errs.Internal "signal add-line-item"), calls)
            else
              match listLineItems db' (Bill.ID b) with
              | Err e => (db', Err e, calls)
              | Ok items =>
                  (db', Ok (AddLineItemResponse.mk (billToDTO b items) (lineItemToDTO li)),
                   calls)
              end
        end
  end.

(** [POST /bills/:id/close]: [got] is what [run.Get] decoded, or [None]
    when it failed. *)
Definition CloseBill (now : Time) (signalled : bool) (got : option BillResult.t) (db : DB)
  (id : string) : DB * Result CloseBillResponse.t * list ClientCall :=
  match getBill db id with
  | Err e => (db, Err e, [])
  | Ok b =>
      if negb (String.eqb (Bill.Status b) StatusOpen)
      then (db, Err (errs.B errs.FailedPrecondition "bill already closed"), [])
      else
        let signal :=
          SignalWorkflow (workflowIDForBill (Bill.ID b)) signalCloseBill
            (OnCloseBill CloseBillSignal.mk) in
        if negb signalled
        then (db, Err (errs.B errs.Internal "signal close-bill"), [signal])
        else
          let calls := [signal; GetWorkflowResult (workflowIDForBill (Bill.ID b))] in
          match got with
          | None => (db, Err (errs.B errs.Internal "get workflow result"), calls)
          | Some result =>
              match closeBill now db b (BillResult.TotalMinor result) with
              | (db', Err e) => (db', Err e, calls)
              | (db', Ok updated) =>
                  match listLineItems db' (Bill.ID b) with
                  | Err e => (db', Err e, calls)
                  | Ok items =>
                      (db', Ok (CloseBillResponse.mk (billToDTO updated items)), calls)
                  end
              end
          end
  end.

(** [GET /bills/:id] *)
Definition GetBill (db : DB) (id : string) : Result GetBillResponse.t :=
  match getBill db id with
  | Err e => Err e
  | Ok b =>
      match listLineItems db (Bill.ID b) with
      | Err e => Err e
      | Ok items => Ok (GetBillResponse.mk (billToDTO b items))
      end
  end.

(** [GET /bills]: [status] is the query parameter, empty when absent. *)
Definition ListBills (db : DB) (status : string) : Result ListBillsResponse.t :=
  let parsed : Result (option BillStatus) :=
    if String.eqb status ""
    then Ok None
    else if String.eqb status StatusOpen || String.eqb status StatusClosed
    then Ok (Some status)
    else Err (errs.B errs.InvalidArgument "invalid status") in
  match parsed with
  | Err e => Err e
  | Ok st =>
      match listBills db st with
      | Err e => Err e
      | Ok bills => Ok (ListBillsResponse.mk (map (fun b => billToDTO b []) bills))
      end
  end.

End Handlers.

End OlderApi.

(** ** The constraints of the schema, as a property of a database

    The primary keys, the [CHECK] clauses of [bills], and the foreign key
    of [bill_line_items.bill_id]. *)
Definition SchemaHolds (db : DB) : Prop :=
  PrimaryKeys db
  /\ Forall (fun b => bills_check b = true) (bills db)
  /\ Forall (fun li => existsb (has_bill_id (LineItem.BillID li)) (bills db) = true)
       (bill_line_items db).

(** ** Serving a bill's add requests in turn

    The older handlers chained for one bill, as a sequence of
    [POST /bills/:id/line-items] requests handled one after the other, each
    with the clock reading and the [uuid.New()] of its handling, where the
    client delivers every signal: the store the requests leave and the
    signals sent to the bill's workflow, in the order sent. *)

Module Arrival.
Record t := mk
  { Now : Time;
    LineItemID : string;
    Request : OlderApi.AddLineItemRequest.t }.
End Arrival.

Definition deliveriesOf (calls : list ClientCall) : list Delivery :=
  flat_map (fun call =>
              match call with
              | SignalWorkflow _ _ signal => [signal]
              | _ => []
              end)
    calls.

Fixpoint serveAddLineItems (formatTime : Time -> string) (db : DB) (id : string)
  (arrivals : list Arrival.t) : DB * list Delivery :=
  match arrivals with
  | [] => (db, [])
  | a :: rest =>
      match OlderApi.AddLineItem formatTime (Arrival.Now a) (Arrival.LineItemID a) true
              db id (Arrival.Request a) with
      | (db', _, calls) =>
          let (db'', sent) := serveAddLineItems formatTime db' id rest in
          (db'', deliveriesOf calls ++ sent)
      end
  end.

(** The signal [OlderApi.AddLineItem] sends for the row it stored. *)
Definition signalOf (currency : Currency) (li : LineItem.t) : AddLineItemSignal.t :=
  AddLineItemSignal.mk (LineItem.ID li) (LineItem.AmountMinor li) (LineItem.Description li)
    currency.

(** The sum of a list of amounts over the integers. *)
Definition sumZ (amounts : list Z) : Z := fold_right Z.add 0 amounts.

(** ** Three sentences of the specification, as they are worded *)

(** The running total equals the sum of [AmountMinor] over the items, the
    sum being the sum of integers. *)
Definition TotalIsSum (state : BillResult.t) : Prop :=
  BillResult.TotalMinor state = exactSum (BillResult.Items state).

(** The insert step fails with [InvalidArgument] whenever the amount is not
    positive, with [FailedPrecondition] whenever the target bill is closed
    or of another currency, and otherwise succeeds. *)
Definition AddLineItemOutcomesAsWorded (now : Time) (db : DB)
  (input : AddLineItemInput.t) : Prop :=
  let refused :=
    exists row,
      select_bill db (AddLineItemInput.BillID input) = Some row
      /\ (Bill.Status row = StatusClosed
          \/ Bill.Currency row <> AddLineItemInput.Currency input) in
  (AddLineItemInput.AmountMinor input <= 0 ->
   exists msg,
     snd (AddLineItemActivity now db input) = Err (errs.B errs.InvalidArgument msg))
  /\ (0 < AddLineItemInput.AmountMinor input -> refused ->
      exists msg,
        snd (AddLineItemActivity now db input) = Err (errs.B errs.FailedPrecondition msg))
  /\ (0 < AddLineItemInput.AmountMinor input -> ~ refused ->
      exists li, snd (AddLineItemActivity now db input) = Ok li).

(** A second close of the same bill fails with [FailedPrecondition] and
    leaves the bill row as the first close left it; [close] is the step,
    [CloseBillActivity] or [closeBill], invoked for one bill. *)
Definition SecondCloseFails (close : Time -> DB -> Z -> DB * Result Bill.t)
  (billID : string) (now1 now2 : Time) (db : DB) (total1 total2 : Z) : Prop :=
  let db1 := fst (close now1 db total1) in
  (exists msg, snd (close now2 db1 total2) = Err (errs.B errs.FailedPrecondition msg))
  /\ select_bill (fst (close now2 db1 total2)) billID = select_bill db1 billID.

(** ** Invoking the activities one after another *)

Inductive ActivityCall :=
| InvokeCreateBillRow (now : Time) (input : CreateBillRowInput.t)
| InvokeAddLineItem (now : Time) (input : AddLineItemInput.t)
| InvokeCloseBill (now : Time) (input : CloseBillInput.t).

(** The database an invocation leaves. *)
Definition invoke (db : DB) (call : ActivityCall) : DB :=
  match call with
  | InvokeCreateBillRow now input => fst (CreateBillRowActivity now db input)
  | InvokeAddLineItem now input => fst (AddLineItemActivity now db input)
  | InvokeCloseBill now input => fst (CloseBillActivity now db input)
  end.

Definition invokeAll (db : DB) (calls : list ActivityCall) : DB :=
  fold_left invoke calls db.

(** ** Idempotence of the step, as the specification words it

    Invoking the step twice with the same [LineItemID] leaves exactly one
    stored row and adds the amount to the total exactly once. *)
Definition InsertedOnceAddedOnce (now1 now2 : Time) (db : DB) (state : BillResult.t)
  (sig : AddLineItemSignal.t) : Prop :=
  let once := insertLineItemStep now1 db state sig in
  let twice := insertLineItemStep now2 (fst once) (snd once) sig in
  countLineItems (fst twice) (AddLineItemSignal.LineItemID sig) = 1%nat
  /\ BillResult.TotalMinor (snd twice)
     = Int64.add (BillResult.TotalMinor state) (AddLineItemSignal.AmountMinor sig).

(** ** Sample data *)

Definition usdBill : BillWorkflowParams.t := BillWorkflowParams.mk "b-1" "USD".

Definition lunch : AddLineItemSignal.t := AddLineItemSignal.mk "li-1" 1250 "lunch" "USD".
Definition coffee : AddLineItemSignal.t := AddLineItemSignal.mk "li-2" 725 "coffee" "USD".
Definition khinkali : AddLineItemSignal.t := AddLineItemSignal.mk "li-3" 40 "khinkali" "GEL".
Definition refund : AddLineItemSignal.t := AddLineItemSignal.mk "li-4" (-30) "refund" "USD".

Definition closeSignal : Delivery := OnCloseBill CloseBillSignal.mk.

(** A database whose only row is the open bill ["b-1"], created at time 1. *)
Definition oneOpenBill : DB :=
  mkDB [Bill.mk "b-1" StatusOpen CurrencyUSD 0 1 None] [].

(** * Properties *)

(** ** [int64] arithmetic *)

Lemma wrap_in_range (z : Z) : Int64.in_range (Int64.wrap z).
Proof.
  unfold Int64.in_range, Int64.wrap, Int64.min_int, Int64.max_int.
  pose proof (Z.mod_pos_bound (z + 2 ^ 63) (2 ^ 64) ltac:(lia)). lia.
Qed.

Lemma wrap_small (z : Z) : Int64.in_range z -> Int64.wrap z = z.
Proof.
  unfold Int64.in_range, Int64.wrap, Int64.min_int, Int64.max_int. intros H.
  rewrite Z.mod_small; lia.
Qed.

Lemma wrap_add_wrap_l (a b : Z) : Int64.wrap (Int64.wrap a + b) = Int64.wrap (a + b).
Proof.
  unfold Int64.wrap.
  replace ((a + 2 ^ 63) mod 2 ^ 64 - 2 ^ 63 + b + 2 ^ 63)
    with ((a + 2 ^ 63) mod 2 ^ 64 + b) by lia.
  rewrite Zplus_mod_idemp_l. f_equal. f_equal. lia.
Qed.

Lemma add_small (a b : Z) : Int64.in_range (a + b) -> Int64.add a b = a + b.
Proof. apply wrap_small. Qed.

(** ** Sums over the item list *)

Lemma sumAmountMinor_snoc (items : list LineItemState.t) (it : LineItemState.t) :
  sumAmountMinor (items ++ [it])
  = Int64.add (sumAmountMinor items) (LineItemState.AmountMinor it).
Proof. unfold sumAmountMinor. rewrite fold_left_app. reflexivity. Qed.

Lemma exactSum_snoc (items : list LineItemState.t) (it : LineItemState.t) :
  exactSum (items ++ [it]) = exactSum items + LineItemState.AmountMinor it.
Proof.
  induction items as [|x items IH]; simpl.
  - lia.
  - fold (exactSum (items ++ [it])). fold (exactSum items). lia.
Qed.

(** The [int64] sum is the exact sum reduced to 64 bits. *)
Lemma sumAmountMinor_wraps_exactSum (items : list LineItemState.t) :
  sumAmountMinor items = Int64.wrap (exactSum items).
Proof.
  induction items as [|it items IH] using rev_ind.
  - reflexivity.
  - rewrite sumAmountMinor_snoc, exactSum_snoc, IH. apply wrap_add_wrap_l.
Qed.

(** ** The loop *)

Lemma receiveAddLineItem_mismatch (state : BillResult.t) (sig : AddLineItemSignal.t) :
  AddLineItemSignal.Currency sig <> BillResult.Currency state ->
  receiveAddLineItem state sig = state.
Proof.
  intros H. unfold receiveAddLineItem.
  destruct (String.eqb_spec (AddLineItemSignal.Currency sig) (BillResult.Currency state));
    [contradiction | reflexivity].
Qed.

Lemma receiveAddLineItem_match (state : BillResult.t) (sig : AddLineItemSignal.t) :
  AddLineItemSignal.Currency sig = BillResult.Currency state ->
  receiveAddLineItem state sig
  = BillResult.mk (BillResult.BillID state) (BillResult.Currency state)
      (Int64.add (BillResult.TotalMinor state) (AddLineItemSignal.AmountMinor sig))
      (BillResult.Items state ++ [lineItemStateOf sig]).
Proof.
  intros H. unfold receiveAddLineItem. rewrite H, String.eqb_refl. reflexivity.
Qed.

Lemma receiveAddLineItem_Currency (state : BillResult.t) (sig : AddLineItemSignal.t) :
  BillResult.Currency (receiveAddLineItem state sig) = BillResult.Currency state.
Proof. unfold receiveAddLineItem. destruct (negb _); reflexivity. Qed.

Lemma receiveAddLineItem_keeps_invariant (state : BillResult.t) (sig : AddLineItemSignal.t) :
  TotalMatchesItems state -> TotalMatchesItems (receiveAddLineItem state sig).
Proof.
  unfold TotalMatchesItems, receiveAddLineItem. intros H.
  destruct (negb _); [exact H|]. simpl.
  rewrite sumAmountMinor_snoc, H. reflexivity.
Qed.

Lemma iteration_keeps_invariant (state : BillResult.t) (d : Delivery) :
  TotalMatchesItems state -> TotalMatchesItems (fst (iteration state d)).
Proof.
  destruct d; simpl; [apply receiveAddLineItem_keeps_invariant | trivial].
Qed.

Lemma loopStates_keep_invariant (inbox : list Delivery) :
  forall state, TotalMatchesItems state -> Forall TotalMatchesItems (loopStates state inbox).
Proof.
  induction inbox as [|d rest IH]; intros state H; simpl.
  - constructor; [exact H | constructor].
  - constructor; [exact H|].
    pose proof (iteration_keeps_invariant state d H) as H'.
    destruct (iteration state d) as [state' shouldClose]; simpl in H'.
    destruct shouldClose; [repeat constructor; exact H' | apply IH; exact H'].
Qed.

Lemma last_cons_default {A : Type} (l : list A) :
  forall x d d', last (x :: l) d = last (x :: l) d'.
Proof.
  induction l as [|y l IH]; intros x d d'; [reflexivity|].
  change (last (y :: l) d = last (y :: l) d'). apply IH.
Qed.

Lemma loopStates_head (state : BillResult.t) (inbox : list Delivery) :
  exists tail, loopStates state inbox = state :: tail.
Proof. destruct inbox; simpl; eexists; reflexivity. Qed.

(** The last of the states listed is the one the run holds. *)
Lemma loopStates_last (inbox : list Delivery) :
  forall state, last (loopStates state inbox) state = stateOf (loop state inbox).
Proof.
  induction inbox as [|d rest IH]; intros state; [reflexivity|].
  cbn [loopStates loop].
  destruct (iteration state d) as [state' shouldClose].
  destruct shouldClose; [reflexivity|].
  rewrite <- (IH state').
  destruct (loopStates_head state' rest) as [tail ->].
  change (last (state' :: tail) state = last (state' :: tail) state').
  apply last_cons_default.
Qed.

(** The state a run holds is the initial state with the applied signals
    folded in, in order. *)
Lemma appliedSignals_fold (inbox : list Delivery) :
  forall state,
    stateOf (loop state inbox)
    = fold_left receiveAddLineItem (appliedSignals (BillResult.Currency state) inbox) state.
Proof.
  induction inbox as [|d rest IH]; intros state; [reflexivity|].
  destruct d as [sig|sig]; cbn [loop iteration appliedSignals]; [|reflexivity].
  rewrite IH, receiveAddLineItem_Currency.
  destruct (String.eqb_spec (AddLineItemSignal.Currency sig) (BillResult.Currency state)) as [E|E].
  - reflexivity.
  - rewrite (receiveAddLineItem_mismatch _ _ E). reflexivity.
Qed.

(** ** Tables *)

Lemma DB_eta (db : DB) : mkDB (bills db) (bill_line_items db) = db.
Proof. destruct db; reflexivity. Qed.

Lemma find_snoc {A : Type} (f : A -> bool) (l : list A) (x : A) :
  find f (l ++ [x])
  = match find f l with
    | Some y => Some y
    | None => if f x then Some x else None
    end.
Proof.
  induction l as [|y l IH]; simpl; [reflexivity|].
  destruct (f y); [reflexivity | exact IH].
Qed.

Lemma find_none_filter {A : Type} (f : A -> bool) (l : list A) :
  find f l = None -> filter f l = [].
Proof.
  induction l as [|y l IH]; simpl; [reflexivity|].
  destruct (f y); [discriminate | exact IH].
Qed.

Lemma filter_nil_find {A : Type} (f : A -> bool) (l : list A) :
  filter f l = [] -> find f l = None.
Proof.
  induction l as [|y l IH]; simpl; [reflexivity|].
  destruct (f y); [discriminate | exact IH].
Qed.

Lemma find_some_existsb {A : Type} (f : A -> bool) (l : list A) (x : A) :
  find f l = Some x -> existsb f l = true.
Proof.
  intros H. apply find_some in H. apply existsb_exists. exists x. exact H.
Qed.

(** Under the primary key a lookup by id hits at most one row. *)
Lemma unique_line_item (rows : list LineItem.t) (id : string) :
  NoDup (map LineItem.ID rows) ->
  (List.length (filter (has_line_item_id id) rows) <= 1)%nat.
Proof.
  induction rows as [|li rows IH]; simpl; intros ND; [lia|].
  inversion ND as [|? ? Hnotin ND']; subst.
  unfold has_line_item_id at 1.
  destruct (String.eqb_spec (LineItem.ID li) id) as [E|E]; [|apply IH; exact ND'].
  assert (filter (has_line_item_id id) rows = []) as ->; [|simpl; lia].
  apply find_none_filter.
  destruct (find (has_line_item_id id) rows) as [li'|] eqn:F; [|reflexivity].
  apply find_some in F. destruct F as [Hin Hid].
  unfold has_line_item_id in Hid. apply String.eqb_eq in Hid.
  exfalso. apply Hnotin. rewrite E, <- Hid. apply in_map. exact Hin.
Qed.

Lemma countLineItems_found (db : DB) (id : string) (li : LineItem.t) :
  PrimaryKeys db -> select_line_item db id = Some li -> countLineItems db id = 1%nat.
Proof.
  intros [_ ND] F. unfold countLineItems, select_line_item in *.
  pose proof (unique_line_item _ id ND) as Hle.
  destruct (filter (has_line_item_id id) (bill_line_items db)) eqn:E.
  - apply filter_nil_find in E. congruence.
  - simpl in *. lia.
Qed.

(** ** The statements *)

Lemma insert_line_item_spec (now : Time) (db : DB) (id bill_id description : string)
  (amount_minor : Z) :
  insert_line_item now db id bill_id description amount_minor
  = match select_line_item db id with
    | Some _ => Some db
    | None =>
        if existsb (has_bill_id bill_id) (bills db)
        then Some (mkDB (bills db)
                     (bill_line_items db
                      ++ [LineItem.mk id bill_id description amount_minor now]))
        else None
    end.
Proof. reflexivity. Qed.

Lemma update_bills_no_hit (hit : Bill.t -> bool) (set : Bill.t -> Bill.t) (db : DB) :
  filter hit (bills db) = [] -> update_bills hit set db = (db, []).
Proof.
  assert (forall l, filter hit l = [] -> map (fun b => if hit b then set b else b) l = l) as M.
  { induction l as [|b l IH]; simpl; [reflexivity|].
    destruct (hit b); [discriminate|]. intros E. rewrite (IH E). reflexivity. }
  intros H. unfold update_bills. rewrite H, (M _ H), DB_eta. reflexivity.
Qed.

Lemma set_closed_not_open (id id' : string) (total : Z) (now : Time) (b : Bill.t) :
  is_open_bill id' (set_closed StatusClosed total now b) = false.
Proof. unfold is_open_bill, set_closed. simpl. apply andb_false_r. Qed.

(** Once [CloseBillActivity]'s update ran, no row of that id is open. *)
Lemma closed_rows_stay_closed (id : string) (total : Z) (now : Time) (db : DB) :
  filter (is_open_bill id)
    (bills (fst (update_bills (is_open_bill id) (set_closed StatusClosed total now) db)))
  = [].
Proof.
  unfold update_bills. simpl.
  induction (bills db) as [|b l IH]; simpl; [reflexivity|].
  destruct (is_open_bill id b) eqn:E.
  - rewrite (set_closed_not_open id id). exact IH.
  - rewrite E. exact IH.
Qed.

(** The first row of an id, when open, is the first row the closing update
    returns, and the row a later lookup finds is its closed version. *)
Lemma close_first_row (id : string) (set : Bill.t -> Bill.t) (rows : list Bill.t)
  (row : Bill.t) :
  (forall b, Bill.ID (set b) = Bill.ID b) ->
  find (has_bill_id id) rows = Some row ->
  Bill.Status row = StatusOpen ->
  (exists tail, map set (filter (is_open_bill id) rows) = set row :: tail)
  /\ find (has_bill_id id) (map (fun b => if is_open_bill id b then set b else b) rows)
     = Some (set row).
Proof.
  intros Hid F Hopen.
  induction rows as [|b rows IH]; simpl in *; [discriminate|].
  destruct (has_bill_id id b) eqn:E.
  - injection F as ->.
    assert (is_open_bill id row = true) as O.
    { unfold is_open_bill. rewrite E, Hopen. reflexivity. }
    rewrite O. simpl. unfold has_bill_id in *. rewrite Hid, E.
    split; [eexists; reflexivity | reflexivity].
  - assert (is_open_bill id b = false) as O.
    { unfold is_open_bill. rewrite E. reflexivity. }
    rewrite O. simpl. rewrite E. apply IH, F.
Qed.

(** ** The activities, case by case *)

Section AddLineItemActivity_cases.

Variables (now : Time) (db : DB) (input : AddLineItemInput.t).

Lemma AddLineItemActivity_amount :
  AddLineItemInput.AmountMinor input <= 0 ->
  AddLineItemActivity now db input
  = (db, Err (errs.B errs.InvalidArgument "amount must be positive")).
Proof.
  intros H. unfold AddLineItemActivity.
  destruct (Z.leb_spec (AddLineItemInput.AmountMinor input) 0); [reflexivity | lia].
Qed.

Lemma AddLineItemActivity_no_bill :
  0 < AddLineItemInput.AmountMinor input ->
  select_bill db (AddLineItemInput.BillID input) = None ->
  AddLineItemActivity now db input
  = (db, Err (errs.B errs.NotFound "bill not found")).
Proof.
  intros H F. unfold AddLineItemActivity. rewrite F.
  destruct (Z.leb_spec (AddLineItemInput.AmountMinor input) 0); [lia | reflexivity].
Qed.

Lemma AddLineItemActivity_closed (row : Bill.t) :
  0 < AddLineItemInput.AmountMinor input ->
  select_bill db (AddLineItemInput.BillID input) = Some row ->
  Bill.Status row <> StatusOpen ->
  AddLineItemActivity now db input
  = (db, Err (errs.B errs.FailedPrecondition "bill is closed")).
Proof.
  intros H F S. unfold AddLineItemActivity. rewrite F.
  destruct (Z.leb_spec (AddLineItemInput.AmountMinor input) 0); [lia|].
  destruct (String.eqb_spec (Bill.Status row) StatusOpen); [contradiction | reflexivity].
Qed.

Lemma AddLineItemActivity_currency (row : Bill.t) :
  0 < AddLineItemInput.AmountMinor input ->
  select_bill db (AddLineItemInput.BillID input) = Some row ->
  Bill.Status row = StatusOpen ->
  Bill.Currency row <> AddLineItemInput.Currency input ->
  AddLineItemActivity now db input
  = (db, Err (errs.B errs.FailedPrecondition "currency mismatch")).
Proof.
  intros H F S C. unfold AddLineItemActivity. rewrite F.
  destruct (Z.leb_spec (AddLineItemInput.AmountMinor input) 0); [lia|].
  rewrite S, String.eqb_refl. cbn [negb].
  destruct (String.eqb_spec (Bill.Currency row) (AddLineItemInput.Currency input));
    [contradiction | reflexivity].
Qed.

Lemma AddLineItemActivity_accepted (row : Bill.t) :
  0 < AddLineItemInput.AmountMinor input ->
  select_bill db (AddLineItemInput.BillID input) = Some row ->
  Bill.Status row = StatusOpen ->
  Bill.Currency row = AddLineItemInput.Currency input ->
  AddLineItemActivity now db input
  = match select_line_item db (AddLineItemInput.LineItemID input) with
    | Some li => (db, Ok li)
    | None =>
        (mkDB (bills db) (bill_line_items db ++ [lineItemRowOf now input]),
         Ok (lineItemRowOf now input))
    end.
Proof.
  intros H F S C. unfold AddLineItemActivity. rewrite F.
  destruct (Z.leb_spec (AddLineItemInput.AmountMinor input) 0); [lia|].
  rewrite S, C, !String.eqb_refl. cbn [negb].
  rewrite insert_line_item_spec.
  destruct (select_line_item db (AddLineItemInput.LineItemID input)) as [li|] eqn:L.
  - rewrite L. reflexivity.
  - rewrite (find_some_existsb _ _ _ F).
    unfold select_line_item. cbn [bill_line_items]. rewrite find_snoc.
    unfold select_line_item in L. rewrite L.
    unfold has_line_item_id. cbn [LineItem.ID]. rewrite String.eqb_refl. reflexivity.
Qed.

(** Whatever the outcome, a failed call leaves the database as it was and
    no call touches the [bills] table. *)
Lemma AddLineItemActivity_error_frame (db' : DB) (e : errs.Error) :
  AddLineItemActivity now db input = (db', Err e) -> db' = db.
Proof.
  destruct (Z.leb_spec (AddLineItemInput.AmountMinor input) 0) as [H|H].
  { rewrite (AddLineItemActivity_amount H). congruence. }
  destruct (select_bill db (AddLineItemInput.BillID input)) as [row|] eqn:F.
  2:{ rewrite (AddLineItemActivity_no_bill H F). congruence. }
  destruct (String.eqb_spec (Bill.Status row) StatusOpen) as [S|S].
  2:{ rewrite (AddLineItemActivity_closed row H F S). congruence. }
  destruct (String.eqb_spec (Bill.Currency row) (AddLineItemInput.Currency input)) as [C|C].
  2:{ rewrite (AddLineItemActivity_currency row H F S C). congruence. }
  rewrite (AddLineItemActivity_accepted row H F S C).
  destruct (select_line_item db _); congruence.
Qed.

Lemma AddLineItemActivity_bills :
  bills (fst (AddLineItemActivity now db input)) = bills db.
Proof.
  destruct (AddLineItemActivity now db input) as [db' [li|e]] eqn:A.
  2:{ apply AddLineItemActivity_error_frame in A. subst. reflexivity. }
  revert A. unfold AddLineItemActivity.
  repeat match goal with
         | |- context [if ?c then _ else _] => destruct c
         | |- context [match ?c with _ => _ end] => destruct c eqn:?
         end; try congruence.
  intros A. injection A as <- _. simpl.
  match goal with
  | I : insert_line_item _ _ _ _ _ _ = Some _ |- _ =>
      rewrite insert_line_item_spec in I;
      repeat match type of I with
             | context [match ?c with _ => _ end] => destruct c
             end; inversion I; reflexivity
  end.
Qed.

End AddLineItemActivity_cases.

(** ** The running total and the item list *)

Lemma last_keeps {A : Type} (P : A -> Prop) (l : list A) :
  forall x d, Forall P (x :: l) -> P (last (x :: l) d).
Proof.
  induction l as [|y l IH]; intros x d F.
  - inversion F; assumption.
  - change (P (last (y :: l) d)). apply IH. inversion F; assumption.
Qed.

Lemma total_is_sum_of_items_aux (params : BillWorkflowParams.t) (inbox : list Delivery) :
  TotalMatchesItems (stateOf (BillWorkflow params inbox)).
Proof.
  unfold BillWorkflow. rewrite <- loopStates_last.
  pose proof (loopStates_keep_invariant inbox (initialState params) eq_refl) as A.
  destruct (loopStates_head (initialState params) inbox) as [tail E].
  rewrite E in *. apply last_keeps, A.
Qed.

(** With the sum taken in [int64], as the total is, the equation holds
    without any condition: of the initial state, across both callbacks, and
    so of every state the loop goes through. *)
Lemma total_is_sum_of_items (params : BillWorkflowParams.t) (inbox : list Delivery) :
  (BillResult.TotalMinor (initialState params) = 0
   /\ BillResult.Items (initialState params) = []
   /\ TotalMatchesItems (initialState params))
  /\ (forall state sig,
        TotalMatchesItems state ->
        TotalMatchesItems (fst (iteration state (OnAddLineItem sig))))
  /\ (forall state sig,
        TotalMatchesItems state ->
        TotalMatchesItems (fst (iteration state (OnCloseBill sig))))
  /\ Forall TotalMatchesItems (loopStates (initialState params) inbox)
  /\ TotalMatchesItems (stateOf (BillWorkflow params inbox)).
Proof.
  assert (TotalMatchesItems (initialState params)) as I by reflexivity.
  pose proof (loopStates_keep_invariant inbox _ I) as A.
  repeat split; try reflexivity; try exact A.
  - intros state sig. apply (iteration_keeps_invariant state (OnAddLineItem sig)).
  - intros state sig. apply (iteration_keeps_invariant state (OnCloseBill sig)).
  - apply total_is_sum_of_items_aux.
Qed.

(** As long as the exact sum of the amounts fits in [int64], the total any
    run holds is that exact sum. *)
Lemma total_is_exact_sum (params : BillWorkflowParams.t) (inbox : list Delivery) :
  let state := stateOf (BillWorkflow params inbox) in
  Int64.in_range (exactSum (BillResult.Items state)) ->
  BillResult.TotalMinor state = exactSum (BillResult.Items state).
Proof.
  intros state H.
  pose proof (total_is_sum_of_items_aux params inbox) as E. fold state in E.
  unfold TotalMatchesItems in E.
  rewrite E, sumAmountMinor_wraps_exactSum. apply wrap_small, H.
Qed.

(** The total is an [int64]: past [max_int] it wraps around with the sum. *)
Lemma total_wraps_around :
  BillWorkflow usdBill
    [OnAddLineItem (AddLineItemSignal.mk "li-1" Int64.max_int "a" "USD");
     OnAddLineItem (AddLineItemSignal.mk "li-2" 1 "b" "USD");
     closeSignal]
  = Returned
      (BillResult.mk "b-1" "USD" Int64.min_int
         [LineItemState.mk "li-1" Int64.max_int "a"; LineItemState.mk "li-2" 1 "b"]).
Proof. reflexivity. Qed.

(** C1, as it is worded, fails: with the sum a sum of integers, the items
    [max_int] and 1 add up to [2 ^ 63] while the total has wrapped around to
    [min_int]. *)
Lemma total_is_not_the_sum_past_max_int :
  ~ TotalIsSum
      (stateOf
         (BillWorkflow usdBill
            [OnAddLineItem (AddLineItemSignal.mk "li-1" Int64.max_int "a" "USD");
             OnAddLineItem (AddLineItemSignal.mk "li-2" 1 "b" "USD");
             closeSignal])).
Proof. unfold TotalIsSum. vm_compute. discriminate. Qed.

Lemma receiveAddLineItem_keeps_sum (state : BillResult.t) (sig : AddLineItemSignal.t) :
  TotalIsSum state ->
  Int64.in_range (BillResult.TotalMinor state + AddLineItemSignal.AmountMinor sig) ->
  TotalIsSum (receiveAddLineItem state sig).
Proof.
  unfold TotalIsSum, receiveAddLineItem. intros H R.
  destruct (negb _); [exact H|].
  cbn [BillResult.TotalMinor BillResult.Items].
  rewrite exactSum_snoc, (add_small _ _ R), H. reflexivity.
Qed.

(** C1, as the code has it.  At every iteration of [BillWorkflow]'s loop,
    for every list of deliveries, [state.TotalMinor] is the sum of
    [AmountMinor] over [state.Items] reduced to [int64], and is that sum
    itself whenever the sum lies in the range of [int64]: the initial state
    has total 0 and no item, the add-line-item callback preserves the
    equation as long as its addition does not overflow, and the close
    callback preserves it always. *)
Theorem total_is_sum_while_in_range (params : BillWorkflowParams.t)
  (inbox : list Delivery) :
  (BillResult.TotalMinor (initialState params) = 0
   /\ BillResult.Items (initialState params) = []
   /\ TotalIsSum (initialState params))
  /\ (forall state sig,
        TotalIsSum state ->
        Int64.in_range (BillResult.TotalMinor state + AddLineItemSignal.AmountMinor sig) ->
        TotalIsSum (fst (iteration state (OnAddLineItem sig))))
  /\ (forall state sig,
        TotalIsSum state -> TotalIsSum (fst (iteration state (OnCloseBill sig))))
  /\ Forall
       (fun state =>
          BillResult.TotalMinor state = Int64.wrap (exactSum (BillResult.Items state))
          /\ (Int64.in_range (exactSum (BillResult.Items state)) -> TotalIsSum state))
       (loopStates (initialState params) inbox)
  /\ (Int64.in_range (exactSum (BillResult.Items (stateOf (BillWorkflow params inbox)))) ->
      TotalIsSum (stateOf (BillWorkflow params inbox))).
Proof.
  assert (forall state,
            TotalMatchesItems state ->
            BillResult.TotalMinor state = Int64.wrap (exactSum (BillResult.Items state))
            /\ (Int64.in_range (exactSum (BillResult.Items state)) -> TotalIsSum state))
    as Exact.
  { unfold TotalMatchesItems, TotalIsSum. intros state E.
    rewrite E, sumAmountMinor_wraps_exactSum. split; [reflexivity | apply wrap_small]. }
  split; [repeat split|]. split; [|split; [|split]].
  - intros state sig. apply receiveAddLineItem_keeps_sum.
  - intros state sig H. exact H.
  - eapply Forall_impl; [exact Exact|].
    apply loopStates_keep_invariant. reflexivity.
  - apply Exact, total_is_sum_of_items_aux.
Qed.

Lemma total_is_sum_while_in_range_witness :
  TotalIsSum
    (stateOf (BillWorkflow usdBill [OnAddLineItem lunch; OnAddLineItem coffee; closeSignal]))
  /\ BillResult.TotalMinor
       (stateOf
          (BillWorkflow usdBill [OnAddLineItem lunch; OnAddLineItem coffee; closeSignal]))
     = 1975.
Proof.
  split; [|reflexivity].
  apply (total_is_sum_while_in_range usdBill
           [OnAddLineItem lunch; OnAddLineItem coffee; closeSignal]).
  vm_compute. split; discriminate.
Defined.

(** ** Replay *)

Lemma loop_signals_then_close (sigs : list AddLineItemSignal.t) (c : CloseBillSignal.t) :
  forall state,
    loop state (map OnAddLineItem sigs ++ [OnCloseBill c])
    = Returned (fold_left receiveAddLineItem sigs state).
Proof.
  induction sigs as [|sig sigs IH]; intros state; [reflexivity|].
  simpl. apply IH.
Qed.

(** C6. [BillWorkflow] is deterministic in the commands it applies: two runs
    from the same parameters whose deliveries contain the same ordered
    sequence of applied add-line-item signals return the same [TotalMinor]
    and the same item list, whatever rejected signals or signals behind the
    close the deliveries differ in; and replaying just that applied sequence,
    then the close, returns the very same result. *)
Theorem replay_is_deterministic (params : BillWorkflowParams.t)
  (inbox1 inbox2 : list Delivery) (r1 r2 : BillResult.t) :
  BillWorkflow params inbox1 = Returned r1 ->
  BillWorkflow params inbox2 = Returned r2 ->
  appliedSignals (BillWorkflowParams.Currency params) inbox1
  = appliedSignals (BillWorkflowParams.Currency params) inbox2 ->
  BillResult.TotalMinor r1 = BillResult.TotalMinor r2
  /\ BillResult.Items r1 = BillResult.Items r2
  /\ BillWorkflow params
       (map OnAddLineItem (appliedSignals (BillWorkflowParams.Currency params) inbox1)
        ++ [closeSignal])
     = Returned r1.
Proof.
  intros R1 R2 E.
  pose proof (appliedSignals_fold inbox1 (initialState params)) as F1.
  pose proof (appliedSignals_fold inbox2 (initialState params)) as F2.
  unfold BillWorkflow in *. rewrite R1 in F1. rewrite R2 in F2.
  cbn [stateOf initialState BillResult.Currency] in F1, F2.
  rewrite <- E in F2.
  assert (r1 = r2) as -> by congruence.
  repeat split.
  unfold closeSignal. rewrite loop_signals_then_close. f_equal. symmetry. exact F1.
Qed.

Lemma replay_is_deterministic_witness :
  BillWorkflow usdBill [OnAddLineItem lunch; OnAddLineItem khinkali; closeSignal]
  = Returned (BillResult.mk "b-1" "USD" 1250 [lineItemStateOf lunch])
  /\ BillWorkflow usdBill [OnAddLineItem lunch; closeSignal; OnAddLineItem coffee]
     = Returned (BillResult.mk "b-1" "USD" 1250 [lineItemStateOf lunch])
  /\ BillWorkflow usdBill [OnAddLineItem lunch; closeSignal]
     = Returned (BillResult.mk "b-1" "USD" 1250 [lineItemStateOf lunch]).
Proof.
  split; [reflexivity|]. split; [reflexivity|].
  apply (replay_is_deterministic usdBill
           [OnAddLineItem lunch; OnAddLineItem khinkali; closeSignal]
           [OnAddLineItem lunch; closeSignal; OnAddLineItem coffee]
           (BillResult.mk "b-1" "USD" 1250 [lineItemStateOf lunch])
           (BillResult.mk "b-1" "USD" 1250 [lineItemStateOf lunch]));
    reflexivity.
Defined.

(** ** Closing a bill *)

Lemma CloseBillActivity_nothing_open (now : Time) (db : DB) (input : CloseBillInput.t) :
  filter (is_open_bill (CloseBillInput.BillID input)) (bills db) = [] ->
  CloseBillActivity now db input
  = (db, Err (errs.B errs.FailedPrecondition "bill already closed or not found")).
Proof.
  intros H. unfold CloseBillActivity. rewrite (update_bills_no_hit _ _ _ H). reflexivity.
Qed.

Lemma CloseBillActivity_open (now : Time) (db : DB) (input : CloseBillInput.t)
  (row : Bill.t) :
  select_bill db (CloseBillInput.BillID input) = Some row ->
  Bill.Status row = StatusOpen ->
  let closed := set_closed StatusClosed (CloseBillInput.TotalMinor input) now row in
  exists db',
    CloseBillActivity now db input = (db', Ok closed)
    /\ select_bill db' (CloseBillInput.BillID input) = Some closed
    /\ bill_line_items db' = bill_line_items db.
Proof.
  intros F S closed.
  destruct (close_first_row (CloseBillInput.BillID input)
              (set_closed StatusClosed (CloseBillInput.TotalMinor input) now)
              (bills db) row (fun b => eq_refl) F S) as [[tail R] L].
  eexists. unfold CloseBillActivity, update_bills. rewrite R.
  split; [reflexivity|]. split; [exact L | reflexivity].
Qed.

(** Invoking [CloseBillActivity] twice with the same [BillID] succeeds at
    most once: whatever the first invocation did, the second one fails with
    [FailedPrecondition] and leaves the database, the bill row included,
    exactly as the first left it, because the [UPDATE] only touches a row
    whose status is still ['OPEN']. *)
Lemma close_twice_fails_the_second_time (now1 now2 : Time) (db : DB)
  (input1 input2 : CloseBillInput.t) :
  CloseBillInput.BillID input2 = CloseBillInput.BillID input1 ->
  let db1 := fst (CloseBillActivity now1 db input1) in
  CloseBillActivity now2 db1 input2
  = (db1, Err (errs.B errs.FailedPrecondition "bill already closed or not found"))
  /\ select_bill (fst (CloseBillActivity now2 db1 input2)) (CloseBillInput.BillID input1)
     = select_bill db1 (CloseBillInput.BillID input1).
Proof.
  intros E db1.
  assert (CloseBillActivity now2 db1 input2
          = (db1, Err (errs.B errs.FailedPrecondition "bill already closed or not found")))
    as H.
  { apply CloseBillActivity_nothing_open. rewrite E. subst db1.
    unfold CloseBillActivity.
    pose proof (closed_rows_stay_closed (CloseBillInput.BillID input1)
                  (CloseBillInput.TotalMinor input1) now1 db) as C.
    destruct (update_bills _ _ db) as [db' returning]. simpl in C.
    destruct returning; exact C. }
  rewrite H. split; reflexivity.
Qed.

Lemma close_twice_fails_the_second_time_witness :
  CloseBillActivity 5 oneOpenBill (CloseBillInput.mk "b-1" 1975)
  = (mkDB [Bill.mk "b-1" StatusClosed CurrencyUSD 1975 1 (Some 5)] [],
     Ok (Bill.mk "b-1" StatusClosed CurrencyUSD 1975 1 (Some 5)))
  /\ CloseBillActivity 9
       (fst (CloseBillActivity 5 oneOpenBill (CloseBillInput.mk "b-1" 1975)))
       (CloseBillInput.mk "b-1" 0)
     = (mkDB [Bill.mk "b-1" StatusClosed CurrencyUSD 1975 1 (Some 5)] [],
        Err (errs.B errs.FailedPrecondition "bill already closed or not found")).
Proof.
  split; [reflexivity|].
  apply (close_twice_fails_the_second_time 5 9 oneOpenBill
           (CloseBillInput.mk "b-1" 1975) (CloseBillInput.mk "b-1" 0)).
  reflexivity.
Defined.

(** The older [closeBill] reaches the same outcome only through its caller:
    handed the row as re-read after a successful close it fails with
    [FailedPrecondition] and changes nothing. *)
Lemma closeBill_after_reread (now1 now2 : Time) (db db1 : DB) (bill closed reread : Bill.t)
  (total1 total2 : Z) :
  closeBill now1 db bill total1 = (db1, Ok closed) ->
  getBill db1 (Bill.ID bill) = Ok reread ->
  closeBill now2 db1 reread total2
  = (db1, Err (errs.B errs.FailedPrecondition "bill already closed")).
Proof.
  unfold closeBill, getBill, select_bill, update_bills. intros C G.
  destruct (negb (String.eqb (Bill.Status bill) StatusOpen)); [discriminate|].
  destruct (map _ (filter _ _)); [discriminate|].
  injection C as <- _. cbn [bills] in G.
  destruct (find _ _) as [b|] eqn:F; [|discriminate]. injection G as ->.
  apply find_some in F. destruct F as [Hin Hid].
  apply in_map_iff in Hin. destruct Hin as [b [Hb _]].
  destruct (has_bill_id (Bill.ID bill) b) eqn:E.
  - subst reread. reflexivity.
  - subst reread. congruence.
Qed.

(** C3, as it is worded, fails for [closeBill]: invoked twice for the bill
    ["b-1"] with the open [*Bill] read before the first close, it succeeds
    both times, its [UPDATE] being keyed by the id alone. *)
Lemma closeBill_twice_succeeds_twice :
  ~ SecondCloseFails
      (fun now db total =>
         closeBill now db (Bill.mk "b-1" StatusOpen CurrencyUSD 0 1 None) total)
      "b-1" 5 9 oneOpenBill 1975 0.
Proof.
  unfold SecondCloseFails. intros [[msg H] _]. vm_compute in H. discriminate.
Qed.

(** C3, as the code has it.  Invoking [CloseBillActivity] twice with the
    same [BillID] succeeds at most once: the second invocation fails with
    [FailedPrecondition] and leaves the store, the bill row included, as the
    first left it, because its [UPDATE] mutates the row only while the
    stored status is ['OPEN'].  The older [closeBill] tests the status of
    the [*Bill] it is handed instead: after a close that succeeded it fails
    with [FailedPrecondition] and changes nothing when handed the bill as
    re-read from the store. *)
Theorem second_close_fails_on_the_stored_status (now1 now2 : Time) (db : DB)
  (total1 total2 : Z) :
  (forall billID,
     let db1 := fst (CloseBillActivity now1 db (CloseBillInput.mk billID total1)) in
     CloseBillActivity now2 db1 (CloseBillInput.mk billID total2)
     = (db1, Err (errs.B errs.FailedPrecondition "bill already closed or not found"))
     /\ SecondCloseFails
          (fun now db total => CloseBillActivity now db (CloseBillInput.mk billID total))
          billID now1 now2 db total1 total2)
  /\ (forall bill closed reread db1,
        closeBill now1 db bill total1 = (db1, Ok closed) ->
        getBill db1 (Bill.ID bill) = Ok reread ->
        closeBill now2 db1 reread total2
        = (db1, Err (errs.B errs.FailedPrecondition "bill already closed"))).
Proof.
  split.
  - intros billID db1.
    destruct (close_twice_fails_the_second_time now1 now2 db
                (CloseBillInput.mk billID total1) (CloseBillInput.mk billID total2) eq_refl)
      as [E F]. fold db1 in E, F.
    split; [exact E|]. unfold SecondCloseFails. fold db1. rewrite E. cbn [fst snd].
    split; [eexists; reflexivity | reflexivity].
  - intros bill closed reread db1.
    apply (closeBill_after_reread now1 now2 db db1 bill closed reread total1 total2).
Qed.

Lemma second_close_fails_on_the_stored_status_witness :
  CloseBillActivity 9
    (fst (CloseBillActivity 5 oneOpenBill (CloseBillInput.mk "b-1" 1975)))
    (CloseBillInput.mk "b-1" 0)
  = (mkDB [Bill.mk "b-1" StatusClosed CurrencyUSD 1975 1 (Some 5)] [],
     Err (errs.B errs.FailedPrecondition "bill already closed or not found"))
  /\ closeBill 9 (mkDB [Bill.mk "b-1" StatusClosed CurrencyUSD 1975 1 (Some 5)] [])
       (Bill.mk "b-1" StatusClosed CurrencyUSD 1975 1 (Some 5)) 0
     = (mkDB [Bill.mk "b-1" StatusClosed CurrencyUSD 1975 1 (Some 5)] [],
        Err (errs.B errs.FailedPrecondition "bill already closed")).
Proof.
  destruct (second_close_fails_on_the_stored_status 5 9 oneOpenBill 1975 0) as [A C].
  split.
  - apply (A "b-1"%string).
  - apply (C (Bill.mk "b-1" StatusOpen CurrencyUSD 0 1 None)
             (Bill.mk "b-1" StatusClosed CurrencyUSD 1975 1 (Some 5))); reflexivity.
Defined.

Lemma unique_bill (rows : list Bill.t) (id : string) (row b : Bill.t) :
  NoDup (map Bill.ID rows) ->
  find (has_bill_id id) rows = Some row ->
  In b rows -> has_bill_id id b = true -> b = row.
Proof.
  induction rows as [|x rows IH]; simpl; intros ND F Hin Hid; [contradiction|].
  inversion ND as [|? ? Hnotin ND']; subst.
  assert (forall y, In y rows -> has_bill_id id y = true -> has_bill_id id x = true -> False)
    as Clash.
  { unfold has_bill_id. intros y Hy Ey Ex.
    apply String.eqb_eq in Ey, Ex. apply Hnotin. rewrite Ex, <- Ey. apply in_map, Hy. }
  destruct (has_bill_id id x) eqn:E.
  - injection F as <-. destruct Hin as [->|Hin]; [reflexivity|].
    exfalso. exact (Clash b Hin Hid eq_refl).
  - destruct Hin as [->|Hin]; [congruence|]. apply IH; assumption.
Qed.

Lemma CloseBillActivity_closed (now : Time) (db : DB) (input : CloseBillInput.t)
  (row : Bill.t) :
  PrimaryKeys db ->
  select_bill db (CloseBillInput.BillID input) = Some row ->
  Bill.Status row <> StatusOpen ->
  CloseBillActivity now db input
  = (db, Err (errs.B errs.FailedPrecondition "bill already closed or not found")).
Proof.
  intros [ND _] F S. apply CloseBillActivity_nothing_open.
  destruct (filter _ _) as [|b l] eqn:E; [reflexivity|].
  assert (In b (filter (is_open_bill (CloseBillInput.BillID input)) (bills db))) as Hin
      by (rewrite E; left; reflexivity).
  apply filter_In in Hin. destruct Hin as [Hin Ho].
  unfold is_open_bill in Ho. apply andb_prop in Ho. destruct Ho as [Hid Hopen].
  rewrite (unique_bill _ _ _ _ ND F Hin Hid) in Hopen.
  apply String.eqb_eq in Hopen. contradiction.
Qed.

(** C10. For a [BillID] with no row in [bills], [CloseBillActivity] fails
    with [FailedPrecondition] and the message "bill already closed or not
    found", never with [NotFound], and leaves the database alone; the result
    is the very error a bill that is already closed gets. *)
Theorem close_unknown_bill_is_failed_precondition (now : Time) (db : DB)
  (input : CloseBillInput.t) :
  select_bill db (CloseBillInput.BillID input) = None ->
  CloseBillActivity now db input
  = (db, Err (errs.B errs.FailedPrecondition "bill already closed or not found"))
  /\ (forall e, snd (CloseBillActivity now db input) = Err e ->
                errs.Code e <> errs.NotFound)
  /\ (forall now' db' input' row,
        PrimaryKeys db' ->
        select_bill db' (CloseBillInput.BillID input') = Some row ->
        Bill.Status row = StatusClosed ->
        snd (CloseBillActivity now' db' input') = snd (CloseBillActivity now db input)).
Proof.
  intros F.
  assert (CloseBillActivity now db input
          = (db, Err (errs.B errs.FailedPrecondition "bill already closed or not found")))
    as H.
  { apply CloseBillActivity_nothing_open.
    destruct (filter _ _) as [|b l] eqn:E; [reflexivity|].
    assert (In b (filter (is_open_bill (CloseBillInput.BillID input)) (bills db))) as Hin
        by (rewrite E; left; reflexivity).
    apply filter_In in Hin. destruct Hin as [Hin Ho].
    unfold is_open_bill in Ho. apply andb_prop in Ho. destruct Ho as [Hid _].
    pose proof (find_none _ _ F b Hin) as N. congruence. }
  rewrite H. split; [reflexivity|]. split.
  - intros e E. injection E as <-. discriminate.
  - intros now' db' input' row K F' S.
    rewrite (CloseBillActivity_closed now' db' input' row K F'); [reflexivity|].
    rewrite S. discriminate.
Qed.

Lemma close_unknown_bill_is_failed_precondition_witness :
  CloseBillActivity 7 oneOpenBill (CloseBillInput.mk "no-such-bill" 100)
  = (oneOpenBill, Err (errs.B errs.FailedPrecondition "bill already closed or not found")).
Proof.
  apply (close_unknown_bill_is_failed_precondition 7 oneOpenBill
           (CloseBillInput.mk "no-such-bill" 100)).
  reflexivity.
Defined.

Lemma add_line_item_stored (now : Time) (db : DB) (input : AddLineItemInput.t)
  (row : Bill.t) :
  0 < AddLineItemInput.AmountMinor input ->
  select_bill db (AddLineItemInput.BillID input) = Some row ->
  Bill.Status row = StatusOpen ->
  Bill.Currency row = AddLineItemInput.Currency input ->
  exists db' li,
    AddLineItemActivity now db input = (db', Ok li)
    /\ select_line_item db' (AddLineItemInput.LineItemID input) = Some li
    /\ bills db' = bills db.
Proof.
  intros H F S C.
  rewrite (AddLineItemActivity_accepted now db input row H F S C).
  destruct (select_line_item db (AddLineItemInput.LineItemID input)) as [li|] eqn:L.
  - exists db, li. repeat split; assumption.
  - eexists _, _. split; [reflexivity|]. split; [|reflexivity].
    unfold select_line_item in *. cbn [bill_line_items].
    rewrite find_snoc, L. unfold has_line_item_id, lineItemRowOf. cbn [LineItem.ID].
    rewrite String.eqb_refl. reflexivity.
Qed.

(** ** Inserting a line item *)

(** C5, as the code has it.  [AddLineItemActivity] checks in this order:
    it fails with [InvalidArgument] whenever [AmountMinor <= 0]; for a
    positive amount it fails with [NotFound] when no bill row has the
    [BillID], and with [FailedPrecondition] when the bill is closed
    (anything but open) or its currency differs from the supplied one; and
    otherwise, the bill being there, open and of that currency, it succeeds
    and returns the line item stored under [LineItemID].  No failure changes
    the database. *)
Theorem add_line_item_outcomes (now : Time) (db : DB) (input : AddLineItemInput.t) :
  (AddLineItemInput.AmountMinor input <= 0 ->
   AddLineItemActivity now db input
   = (db, Err (errs.B errs.InvalidArgument "amount must be positive")))
  /\ (0 < AddLineItemInput.AmountMinor input ->
      select_bill db (AddLineItemInput.BillID input) = None ->
      AddLineItemActivity now db input
      = (db, Err (errs.B errs.NotFound "bill not found")))
  /\ (forall row,
        0 < AddLineItemInput.AmountMinor input ->
        select_bill db (AddLineItemInput.BillID input) = Some row ->
        Bill.Status row <> StatusOpen
        \/ Bill.Currency row <> AddLineItemInput.Currency input ->
        exists msg,
          AddLineItemActivity now db input = (db, Err (errs.B errs.FailedPrecondition msg)))
  /\ (forall row,
        0 < AddLineItemInput.AmountMinor input ->
        select_bill db (AddLineItemInput.BillID input) = Some row ->
        Bill.Status row = StatusOpen ->
        Bill.Currency row = AddLineItemInput.Currency input ->
        exists db' li,
          AddLineItemActivity now db input = (db', Ok li)
          /\ select_line_item db' (AddLineItemInput.LineItemID input) = Some li
          /\ In li (bill_line_items db')
          /\ (select_line_item db (AddLineItemInput.LineItemID input) = None ->
              li
              = LineItem.mk (AddLineItemInput.LineItemID input)
                  (AddLineItemInput.BillID input) (AddLineItemInput.Description input)
                  (AddLineItemInput.AmountMinor input) now)).
Proof.
  split; [apply AddLineItemActivity_amount|].
  split; [apply AddLineItemActivity_no_bill|]. split.
  - intros row H F D.
    destruct (String.eqb_spec (Bill.Status row) StatusOpen) as [S|S].
    + destruct D as [D|D]; [contradiction|].
      eexists. apply (AddLineItemActivity_currency now db input row H F S D).
    + eexists. apply (AddLineItemActivity_closed now db input row H F S).
  - intros row H F S C.
    rewrite (AddLineItemActivity_accepted now db input row H F S C).
    destruct (select_line_item db (AddLineItemInput.LineItemID input)) as [li|] eqn:L.
    + exists db, li. repeat split; try assumption.
      * apply find_some in L. apply L.
      * discriminate.
    + eexists _, _. split; [reflexivity|].
      unfold select_line_item in *. cbn [bill_line_items].
      rewrite find_snoc, L. unfold has_line_item_id, lineItemRowOf. cbn [LineItem.ID].
      rewrite String.eqb_refl. repeat split.
      apply in_or_app. right. left. reflexivity.
Qed.

Lemma add_line_item_outcomes_witness :
  AddLineItemActivity 2 oneOpenBill (AddLineItemInput.mk "li-1" "b-1" "lunch" 1250 "USD"%string)
  = (mkDB (bills oneOpenBill) [LineItem.mk "li-1" "b-1" "lunch" 1250 2],
     Ok (LineItem.mk "li-1" "b-1" "lunch" 1250 2))
  /\ AddLineItemActivity 2 oneOpenBill
       (AddLineItemInput.mk "li-1" "b-9" "lunch" 1250 "USD"%string)
     = (oneOpenBill, Err (errs.B errs.NotFound "bill not found"))
  /\ (exists msg,
        AddLineItemActivity 2 oneOpenBill
          (AddLineItemInput.mk "li-1" "b-1" "lunch" 1250 "GEL"%string)
        = (oneOpenBill, Err (errs.B errs.FailedPrecondition msg))).
Proof.
  split; [reflexivity|]. split.
  - destruct (add_line_item_outcomes 2 oneOpenBill
                (AddLineItemInput.mk "li-1" "b-9" "lunch" 1250 "USD"%string))
      as [_ [Unknown _]].
    apply Unknown; reflexivity.
  - destruct (add_line_item_outcomes 2 oneOpenBill
                (AddLineItemInput.mk "li-1" "b-1" "lunch" 1250 "GEL"%string))
      as [_ [_ [Refused _]]].
    apply (Refused (Bill.mk "b-1" StatusOpen CurrencyUSD 0 1 None));
      [reflexivity | reflexivity | right; discriminate].
Defined.

(** C5, as it is worded, fails: a positive amount for a bill that has no
    row is neither of the two failures it names, yet the activity does not
    succeed; it answers [NotFound]. *)
Lemma add_line_item_to_unknown_bill_fails :
  ~ AddLineItemOutcomesAsWorded 2 (mkDB [] [])
      (AddLineItemInput.mk "li-1" "b-1" "lunch" 1250 "USD"%string).
Proof.
  unfold AddLineItemOutcomesAsWorded. intros [_ [_ H]].
  destruct H as [li E].
  - reflexivity.
  - intros [row [F _]]. discriminate.
  - vm_compute in E. discriminate.
Qed.

(** A bill that is not there is a fourth outcome, [NotFound]. *)
Lemma add_line_item_unknown_bill :
  AddLineItemActivity 2 (mkDB [] []) (AddLineItemInput.mk "li-1" "b-1" "lunch" 1250 "USD"%string)
  = (mkDB [] [], Err (errs.B errs.NotFound "bill not found")).
Proof. reflexivity. Qed.

Lemma insertLineItemStep_error (now : Time) (db : DB) (state : BillResult.t)
  (sig : AddLineItemSignal.t) (e : errs.Error) :
  AddLineItemActivity now db (addLineItemInputOf state sig) = (db, Err e) ->
  insertLineItemStep now db state sig = (db, state).
Proof. intros H. unfold insertLineItemStep. rewrite H. reflexivity. Qed.

(** C4. An add-line-item signal whose currency is not the bill's is dropped
    without a trace: the callback leaves [state] ([Items] and [TotalMinor]
    included) as it was, the loop goes on to the next delivery with
    [shouldClose] unset and no error, and the activity, run for such a
    signal against a store whose bill row carries the bill's currency,
    fails before its [INSERT] and leaves the store as it was. *)
Theorem wrong_currency_is_dropped (state : BillResult.t) (sig : AddLineItemSignal.t) :
  AddLineItemSignal.Currency sig <> BillResult.Currency state ->
  iteration state (OnAddLineItem sig) = (state, false)
  /\ (forall rest, loop state (OnAddLineItem sig :: rest) = loop state rest)
  /\ (forall now db,
        (forall row, select_bill db (BillResult.BillID state) = Some row ->
                     Bill.Currency row = BillResult.Currency state) ->
        (exists e,
           AddLineItemActivity now db (addLineItemInputOf state sig) = (db, Err e))
        /\ insertLineItemStep now db state sig = (db, state)).
Proof.
  intros D.
  assert (iteration state (OnAddLineItem sig) = (state, false)) as I.
  { simpl. rewrite (receiveAddLineItem_mismatch _ _ D). reflexivity. }
  split; [exact I|]. split.
  - intros rest. cbn [loop]. rewrite I. reflexivity.
  - intros now db Hrow.
    assert (exists e, AddLineItemActivity now db (addLineItemInputOf state sig) = (db, Err e))
      as [e E].
    { set (input := addLineItemInputOf state sig).
      destruct (Z.leb_spec (AddLineItemInput.AmountMinor input) 0) as [H|H].
      { eexists. apply (AddLineItemActivity_amount now db input H). }
      destruct (select_bill db (AddLineItemInput.BillID input)) as [row|] eqn:F.
      2:{ eexists. apply (AddLineItemActivity_no_bill now db input H F). }
      destruct (String.eqb_spec (Bill.Status row) StatusOpen) as [S|S].
      2:{ eexists. apply (AddLineItemActivity_closed now db input row H F S). }
      eexists. apply (AddLineItemActivity_currency now db input row H F S).
      rewrite (Hrow row F). intros C. apply D. symmetry. exact C. }
    split; [exists e; exact E | exact (insertLineItemStep_error _ _ _ _ _ E)].
Qed.

Lemma wrong_currency_is_dropped_witness :
  loop (initialState usdBill) [OnAddLineItem khinkali; closeSignal]
  = Returned (initialState usdBill)
  /\ insertLineItemStep 2 oneOpenBill (initialState usdBill) khinkali
     = (oneOpenBill, initialState usdBill).
Proof.
  destruct (wrong_currency_is_dropped (initialState usdBill) khinkali) as [_ [L S]].
  - discriminate.
  - split.
    + rewrite L. reflexivity.
    + apply (S 2 oneOpenBill). intros row F. injection F as <-. reflexivity.
Defined.

(** ** Invoking the insert twice *)

Lemma find_none_not_in (rows : list LineItem.t) (id : string) :
  find (has_line_item_id id) rows = None -> ~ In id (map LineItem.ID rows).
Proof.
  intros F Hin. apply in_map_iff in Hin. destruct Hin as [li [E Hin]].
  pose proof (find_none _ _ F li Hin) as N.
  unfold has_line_item_id in N. rewrite E, String.eqb_refl in N. discriminate.
Qed.

Lemma NoDup_snoc {A : Type} (l : list A) (x : A) :
  NoDup l -> ~ In x l -> NoDup (l ++ [x]).
Proof.
  induction l as [|a l IH]; simpl; intros ND N.
  - constructor; [intros [] | constructor].
  - inversion ND as [|? ? Ha ND']; subst. constructor.
    + intros Hin. apply in_app_or in Hin. destruct Hin as [Hin|[->|[]]].
      * exact (Ha Hin).
      * apply N. left. reflexivity.
    + apply IH; [exact ND'|]. intros Hin. apply N. right. exact Hin.
Qed.

(** What a call leaves in the table under its [LineItemID]: the primary
    keys still hold, there is at most one such row, and exactly one, the row
    returned, when the call succeeded. *)
Lemma AddLineItemActivity_one_row (now : Time) (db : DB) (input : AddLineItemInput.t) :
  PrimaryKeys db ->
  let after := AddLineItemActivity now db input in
  PrimaryKeys (fst after)
  /\ (countLineItems (fst after) (AddLineItemInput.LineItemID input) <= 1)%nat
  /\ (forall li, snd after = Ok li ->
        countLineItems (fst after) (AddLineItemInput.LineItemID input) = 1%nat
        /\ select_line_item (fst after) (AddLineItemInput.LineItemID input) = Some li).
Proof.
  intros K after.
  assert (forall e, after = (db, Err e) ->
            PrimaryKeys (fst after)
            /\ (countLineItems (fst after) (AddLineItemInput.LineItemID input) <= 1)%nat
            /\ (forall li, snd after = Ok li ->
                  countLineItems (fst after) (AddLineItemInput.LineItemID input) = 1%nat
                  /\ select_line_item (fst after) (AddLineItemInput.LineItemID input)
                     = Some li)) as Failed.
  { intros e ->. cbn [fst snd]. split; [exact K|]. split.
    - apply unique_line_item, K.
    - discriminate. }
  subst after.
  destruct (Z.leb_spec (AddLineItemInput.AmountMinor input) 0) as [H|H].
  { eapply Failed, AddLineItemActivity_amount, H. }
  destruct (select_bill db (AddLineItemInput.BillID input)) as [row|] eqn:F.
  2:{ eapply Failed, AddLineItemActivity_no_bill; eassumption. }
  destruct (String.eqb_spec (Bill.Status row) StatusOpen) as [S|S].
  2:{ eapply Failed, AddLineItemActivity_closed; eassumption. }
  destruct (String.eqb_spec (Bill.Currency row) (AddLineItemInput.Currency input)) as [C|C].
  2:{ eapply Failed, AddLineItemActivity_currency; eassumption. }
  clear Failed. rewrite (AddLineItemActivity_accepted now db input row H F S C).
  destruct (select_line_item db (AddLineItemInput.LineItemID input)) as [li|] eqn:L;
    cbn [fst snd].
  - pose proof (countLineItems_found db _ li K L) as One.
    split; [exact K|]. split; [lia|].
    intros li' E. injection E as <-. split; assumption.
  - assert (countLineItems
              (mkDB (bills db) (bill_line_items db ++ [lineItemRowOf now input]))
              (AddLineItemInput.LineItemID input) = 1%nat) as One.
    { unfold countLineItems. cbn [bill_line_items].
      rewrite filter_app, (find_none_filter _ _ L). simpl.
      unfold has_line_item_id, lineItemRowOf. cbn [LineItem.ID].
      rewrite String.eqb_refl. reflexivity. }
    split; [|split; [lia|]].
    + destruct K as [KB KL]. split; [exact KB|]. cbn [bill_line_items].
      rewrite map_app. apply NoDup_snoc; [exact KL|].
      apply find_none_not_in, L.
    + intros li' E. injection E as <-. split; [exact One|].
      unfold select_line_item in *. cbn [bill_line_items].
      rewrite find_snoc, L. unfold has_line_item_id, lineItemRowOf. cbn [LineItem.ID].
      rewrite String.eqb_refl. reflexivity.
Qed.

(** A second call with the same input, on an open bill of the right
    currency, is a no-op that returns the row the first call returned. *)
Lemma AddLineItemActivity_again (now1 now2 : Time) (db : DB) (input : AddLineItemInput.t)
  (row : Bill.t) :
  0 < AddLineItemInput.AmountMinor input ->
  select_bill db (AddLineItemInput.BillID input) = Some row ->
  Bill.Status row = StatusOpen ->
  Bill.Currency row = AddLineItemInput.Currency input ->
  exists db1 li,
    AddLineItemActivity now1 db input = (db1, Ok li)
    /\ AddLineItemActivity now2 db1 input = (db1, Ok li)
    /\ bills db1 = bills db.
Proof.
  intros H F S C.
  destruct (add_line_item_stored now1 db input row H F S C) as [db1 [li [A [L B]]]].
  exists db1, li. split; [exact A|]. split; [|exact B].
  assert (select_bill db1 (AddLineItemInput.BillID input) = Some row) as F1
      by (unfold select_bill; rewrite B; exact F).
  rewrite (AddLineItemActivity_accepted now2 db1 input row H F1 S C), L. reflexivity.
Qed.

Lemma receiveAddLineItem_BillID (state : BillResult.t) (sig : AddLineItemSignal.t) :
  BillResult.BillID (receiveAddLineItem state sig) = BillResult.BillID state.
Proof. unfold receiveAddLineItem. destruct (negb _); reflexivity. Qed.

(** Two matching signals in a row: both are appended, both are added. *)
Lemma receiveAddLineItem_twice (state : BillResult.t) (sig1 sig2 : AddLineItemSignal.t) :
  AddLineItemSignal.Currency sig1 = BillResult.Currency state ->
  AddLineItemSignal.Currency sig2 = BillResult.Currency state ->
  receiveAddLineItem (receiveAddLineItem state sig1) sig2
  = BillResult.mk (BillResult.BillID state) (BillResult.Currency state)
      (Int64.add
         (Int64.add (BillResult.TotalMinor state) (AddLineItemSignal.AmountMinor sig1))
         (AddLineItemSignal.AmountMinor sig2))
      (BillResult.Items state ++ [lineItemStateOf sig1; lineItemStateOf sig2]).
Proof.
  intros C1 C2.
  rewrite (receiveAddLineItem_match state sig1 C1).
  rewrite receiveAddLineItem_match by exact C2.
  cbn [BillResult.BillID BillResult.Currency BillResult.TotalMinor BillResult.Items].
  rewrite <- app_assoc. reflexivity.
Qed.

(** The two invocations of the step, spelled out. *)
Lemma insertLineItemStep_twice (now1 now2 : Time) (db : DB) (state : BillResult.t)
  (sig : AddLineItemSignal.t) (row : Bill.t) :
  0 < AddLineItemSignal.AmountMinor sig ->
  select_bill db (BillResult.BillID state) = Some row ->
  Bill.Status row = StatusOpen ->
  Bill.Currency row = AddLineItemSignal.Currency sig ->
  exists db1 li,
    AddLineItemActivity now1 db (addLineItemInputOf state sig) = (db1, Ok li)
    /\ bills db1 = bills db
    /\ insertLineItemStep now1 db state sig = (db1, receiveAddLineItem state sig)
    /\ insertLineItemStep now2 db1 (receiveAddLineItem state sig) sig
       = (db1, receiveAddLineItem (receiveAddLineItem state sig) sig).
Proof.
  intros H F S C.
  destruct (AddLineItemActivity_again now1 now2 db (addLineItemInputOf state sig) row
              H F S C) as [db1 [li [A1 [A2 B]]]].
  exists db1, li. split; [exact A1|]. split; [exact B|].
  unfold insertLineItemStep.
  replace (addLineItemInputOf (receiveAddLineItem state sig) sig)
    with (addLineItemInputOf state sig)
    by (unfold addLineItemInputOf; rewrite receiveAddLineItem_BillID; reflexivity).
  rewrite A1, A2. split; reflexivity.
Qed.

(** C2, as the code has it.  Invoking the insert-line-item step twice with
    the same signal (positive amount, bill open, currency the bill's) leaves
    exactly one row stored under the [LineItemID], the second invocation
    changing nothing in the store and neither touching the [bills] table;
    the in-memory apply runs on each invocation, so the item is appended
    twice and its amount added twice to [state.TotalMinor]. *)
Theorem insert_twice_one_row_two_applies (now1 now2 : Time) (db : DB)
  (state : BillResult.t) (sig : AddLineItemSignal.t) (row : Bill.t) :
  PrimaryKeys db ->
  0 < AddLineItemSignal.AmountMinor sig ->
  select_bill db (BillResult.BillID state) = Some row ->
  Bill.Status row = StatusOpen ->
  Bill.Currency row = AddLineItemSignal.Currency sig ->
  AddLineItemSignal.Currency sig = BillResult.Currency state ->
  let once := insertLineItemStep now1 db state sig in
  let twice := insertLineItemStep now2 (fst once) (snd once) sig in
  countLineItems (fst once) (AddLineItemSignal.LineItemID sig) = 1%nat
  /\ fst twice = fst once
  /\ countLineItems (fst twice) (AddLineItemSignal.LineItemID sig) = 1%nat
  /\ bills (fst twice) = bills db
  /\ BillResult.TotalMinor (snd twice)
     = Int64.add
         (Int64.add (BillResult.TotalMinor state) (AddLineItemSignal.AmountMinor sig))
         (AddLineItemSignal.AmountMinor sig)
  /\ BillResult.Items (snd twice)
     = BillResult.Items state ++ [lineItemStateOf sig; lineItemStateOf sig].
Proof.
  intros K H F S C M once twice.
  destruct (insertLineItemStep_twice now1 now2 db state sig row H F S C)
    as [db1 [li [A [B [S1 S2]]]]].
  pose proof (AddLineItemActivity_one_row now1 db (addLineItemInputOf state sig) K) as R.
  cbv zeta in R. rewrite A in R. cbn [fst snd] in R.
  destruct R as [_ [_ R]]. destruct (R li eq_refl) as [One _].
  subst once twice. rewrite S1. cbn [fst snd]. rewrite S2. cbn [fst snd].
  rewrite (receiveAddLineItem_twice state sig sig M M).
  repeat split; assumption.
Qed.

Lemma insert_twice_one_row_two_applies_witness :
  countLineItems
    (fst (insertLineItemStep 3
            (fst (insertLineItemStep 2 oneOpenBill (initialState usdBill) lunch))
            (snd (insertLineItemStep 2 oneOpenBill (initialState usdBill) lunch)) lunch))
    "li-1" = 1%nat
  /\ BillResult.TotalMinor
       (snd (insertLineItemStep 3
               (fst (insertLineItemStep 2 oneOpenBill (initialState usdBill) lunch))
               (snd (insertLineItemStep 2 oneOpenBill (initialState usdBill) lunch)) lunch))
     = 2500.
Proof.
  destruct (insert_twice_one_row_two_applies 2 3 oneOpenBill (initialState usdBill) lunch
              (Bill.mk "b-1" StatusOpen CurrencyUSD 0 1 None))
    as [_ [_ [One [_ [Total _]]]]].
  - split; repeat constructor; intros [].
  - reflexivity.
  - reflexivity.
  - reflexivity.
  - reflexivity.
  - reflexivity.
  - split; [exact One | rewrite Total; reflexivity].
Defined.

(** C2, as the specification words it, fails: on the open USD bill the
    signal [lunch] invoked twice leaves one row but a total of 2500, not
    1250. *)
Lemma insert_twice_adds_twice : ~ InsertedOnceAddedOnce 2 3 oneOpenBill (initialState usdBill) lunch.
Proof.
  unfold InsertedOnceAddedOnce. intros [_ Total].
  vm_compute in Total. discriminate.
Qed.

(** ** Redelivered and non-positive signals *)

(** C8. The loop does not deduplicate by [LineItemID]: two add signals
    carrying the same [LineItemID] and the bill's currency are both applied,
    so [state.Items] gains two entries and [state.TotalMinor] both amounts
    (the same amount twice for a redelivered signal), while the store, given
    the activity for each, keeps one row under that id. *)
Theorem duplicate_signals_are_counted_twice (state : BillResult.t)
  (sig1 sig2 : AddLineItemSignal.t) :
  AddLineItemSignal.LineItemID sig1 = AddLineItemSignal.LineItemID sig2 ->
  AddLineItemSignal.Currency sig1 = BillResult.Currency state ->
  AddLineItemSignal.Currency sig2 = BillResult.Currency state ->
  let state2 :=
    BillResult.mk (BillResult.BillID state) (BillResult.Currency state)
      (Int64.add
         (Int64.add (BillResult.TotalMinor state) (AddLineItemSignal.AmountMinor sig1))
         (AddLineItemSignal.AmountMinor sig2))
      (BillResult.Items state ++ [lineItemStateOf sig1; lineItemStateOf sig2]) in
  (forall rest,
     loop state (OnAddLineItem sig1 :: OnAddLineItem sig2 :: rest) = loop state2 rest)
  /\ (forall now1 now2 db,
        PrimaryKeys db ->
        let after1 := AddLineItemActivity now1 db (addLineItemInputOf state sig1) in
        let after2 := AddLineItemActivity now2 (fst after1) (addLineItemInputOf state sig2) in
        (countLineItems (fst after2) (AddLineItemSignal.LineItemID sig1) <= 1)%nat
        /\ (forall li, snd after1 = Ok li ->
              countLineItems (fst after2) (AddLineItemSignal.LineItemID sig1) = 1%nat)).
Proof.
  intros E C1 C2 state2. split.
  - intros rest. cbn [loop iteration].
    rewrite (receiveAddLineItem_twice state sig1 sig2 C1 C2). reflexivity.
  - intros now1 now2 db K after1 after2.
    destruct (AddLineItemActivity_one_row now1 db (addLineItemInputOf state sig1) K)
      as [K1 [_ Ok1]]. fold after1 in K1, Ok1.
    destruct (AddLineItemActivity_one_row now2 (fst after1)
                (addLineItemInputOf state sig2) K1) as [_ [Le _]]. fold after2 in Le.
    cbn [addLineItemInputOf AddLineItemInput.LineItemID] in Le, Ok1.
    rewrite <- E in Le. split; [exact Le|].
    intros li R. destruct (Ok1 li R) as [_ Sel].
    subst after2.
    destruct (AddLineItemActivity now2 (fst after1) (addLineItemInputOf state sig2))
      as [db2 [li2|e]] eqn:A2.
    + destruct (AddLineItemActivity_one_row now2 (fst after1)
                  (addLineItemInputOf state sig2) K1) as [_ [_ Ok2]].
      rewrite A2 in Ok2. cbn [fst snd] in *.
      cbn [addLineItemInputOf AddLineItemInput.LineItemID] in Ok2.
      rewrite E. apply (Ok2 li2 eq_refl).
    + apply AddLineItemActivity_error_frame in A2. subst db2. cbn [fst].
      apply (countLineItems_found _ _ li K1 Sel).
Qed.

Lemma duplicate_signals_are_counted_twice_witness :
  BillWorkflow usdBill [OnAddLineItem lunch; OnAddLineItem lunch; closeSignal]
  = Returned (BillResult.mk "b-1" "USD" 2500 [lineItemStateOf lunch; lineItemStateOf lunch])
  /\ countLineItems
       (fst (AddLineItemActivity 3
               (fst (AddLineItemActivity 2 oneOpenBill
                       (addLineItemInputOf (initialState usdBill) lunch)))
               (addLineItemInputOf (initialState usdBill) lunch)))
       "li-1" = 1%nat.
Proof.
  destruct (duplicate_signals_are_counted_twice (initialState usdBill) lunch lunch
              eq_refl eq_refl eq_refl) as [L S].
  split.
  - unfold BillWorkflow. rewrite L. reflexivity.
  - reflexivity.
Defined.

(** C9. The loop does not check that an amount is positive: an add signal of
    the bill's currency with [AmountMinor <= 0] is appended, as the entry
    with the signal's id, amount and description, and its amount added, so the running total does not grow and, short of wrapping
    around, shrinks by a negative amount; nor does the [bill_line_items]
    table refuse such an amount: its row passes the table's checks and the
    [INSERT] of a fresh id for an existing bill stores it. *)
Theorem nonpositive_amounts_are_applied (state : BillResult.t) (sig : AddLineItemSignal.t) :
  AddLineItemSignal.Currency sig = BillResult.Currency state ->
  AddLineItemSignal.AmountMinor sig <= 0 ->
  let state' :=
    BillResult.mk (BillResult.BillID state) (BillResult.Currency state)
      (Int64.add (BillResult.TotalMinor state) (AddLineItemSignal.AmountMinor sig))
      (BillResult.Items state
       ++ [LineItemState.mk (AddLineItemSignal.LineItemID sig)
             (AddLineItemSignal.AmountMinor sig) (AddLineItemSignal.Description sig)]) in
  iteration state (OnAddLineItem sig) = (state', false)
  /\ (Int64.in_range (BillResult.TotalMinor state + AddLineItemSignal.AmountMinor sig) ->
      BillResult.TotalMinor state'
      = BillResult.TotalMinor state + AddLineItemSignal.AmountMinor sig
      /\ BillResult.TotalMinor state' <= BillResult.TotalMinor state
      /\ (AddLineItemSignal.AmountMinor sig < 0 ->
          BillResult.TotalMinor state' < BillResult.TotalMinor state))
  /\ (forall now db id bill_id description,
        bill_line_items_check
          (LineItem.mk id bill_id description (AddLineItemSignal.AmountMinor sig) now)
        = true
        /\ (select_line_item db id = None ->
            existsb (has_bill_id bill_id) (bills db) = true ->
            insert_line_item now db id bill_id description (AddLineItemSignal.AmountMinor sig)
            = Some (mkDB (bills db)
                      (bill_line_items db
                       ++ [LineItem.mk id bill_id description
                             (AddLineItemSignal.AmountMinor sig) now])))).
Proof.
  intros C H state'. split; [|split].
  - cbn [iteration]. rewrite (receiveAddLineItem_match state sig C). reflexivity.
  - intros R. subst state'. cbn [BillResult.TotalMinor].
    rewrite (add_small _ _ R). lia.
  - intros now db id bill_id description. split; [reflexivity|].
    intros L B. rewrite insert_line_item_spec, L, B. reflexivity.
Qed.

Lemma nonpositive_amounts_are_applied_witness :
  BillWorkflow usdBill [OnAddLineItem lunch; OnAddLineItem refund; closeSignal]
  = Returned
      (BillResult.mk "b-1" "USD" 1220
         [LineItemState.mk "li-1" 1250 "lunch"; LineItemState.mk "li-4" (-30) "refund"])
  /\ insert_line_item 2 oneOpenBill "li-4" "b-1" "refund" (-30)
     = Some (mkDB (bills oneOpenBill) [LineItem.mk "li-4" "b-1" "refund" (-30) 2]).
Proof.
  destruct (nonpositive_amounts_are_applied
              (BillResult.mk "b-1" "USD" 1250 [LineItemState.mk "li-1" 1250 "lunch"]) refund)
    as [I [_ S]].
  - reflexivity.
  - simpl. lia.
  - split.
    + unfold BillWorkflow. cbn [loop]. change (iteration (initialState usdBill) (OnAddLineItem lunch))
        with (BillResult.mk "b-1" "USD" 1250 [LineItemState.mk "li-1" 1250 "lunch"], false).
      cbv iota beta. rewrite I. reflexivity.
    + destruct (S 2 oneOpenBill "li-4"%string "b-1"%string "refund"%string) as [_ Ins].
      apply Ins; reflexivity.
Defined.

(** ** Creating the bill row, and the whole scenario *)

Lemma CreateBillRowActivity_fresh (now : Time) (db : DB) (id : string) (currency : Currency) :
  Currency_Valid currency = true ->
  select_bill db id = None ->
  let row := Bill.mk id StatusOpen currency 0 now None in
  CreateBillRowActivity now db (CreateBillRowInput.mk id currency)
  = (mkDB (bills db ++ [row]) (bill_line_items db), Ok row)
  /\ select_bill (mkDB (bills db ++ [row]) (bill_line_items db)) id = Some row.
Proof.
  intros V F row.
  assert (select_bill (mkDB (bills db ++ [row]) (bill_line_items db)) id = Some row) as F'.
  { unfold select_bill in *. cbn [bills]. rewrite find_snoc, F.
    unfold has_bill_id. cbn [Bill.ID row]. rewrite String.eqb_refl. reflexivity. }
  split; [|exact F'].
  unfold CreateBillRowActivity. cbn [CreateBillRowInput.Currency CreateBillRowInput.BillID].
  rewrite V. cbn [negb]. unfold insert_bill.
  assert (bills_check (Bill.mk id StatusOpen currency 0 now None) = true) as ->.
  { unfold bills_check. cbn [Bill.Status Bill.Currency]. exact V. }
  cbn [negb]. rewrite F. fold row. rewrite F'. reflexivity.
Qed.

(** C7. On a freshly created USD bill, the deliveries add 1250 (USD), add
    725 (USD), close make [BillWorkflow] leave its loop and return a result
    with [TotalMinor = 1975] and two items, whatever is delivered behind the
    close; the close activity run with that total on the store, where the
    bill row was created and both items inserted, succeeds and leaves the
    bill row with status ['CLOSED'] and total 1975. *)
Theorem usd_bill_scenario (now0 now1 now2 now3 : Time) (db0 : DB)
  (billID id1 id2 description1 description2 : string) (rest : list Delivery) :
  select_bill db0 billID = None ->
  let params := BillWorkflowParams.mk billID "USD" in
  let add1 := AddLineItemSignal.mk id1 1250 description1 "USD" in
  let add2 := AddLineItemSignal.mk id2 725 description2 "USD" in
  let db1 := fst (CreateBillRowActivity now0 db0 (CreateBillRowInput.mk billID CurrencyUSD)) in
  let db2 := fst (AddLineItemActivity now1 db1 (addLineItemInputOf (initialState params) add1)) in
  let db3 := fst (AddLineItemActivity now2 db2 (addLineItemInputOf (initialState params) add2)) in
  exists result closed db4,
    BillWorkflow params (OnAddLineItem add1 :: OnAddLineItem add2 :: closeSignal :: rest)
    = Returned result
    /\ BillResult.TotalMinor result = 1975
    /\ List.length (BillResult.Items result) = 2%nat
    /\ CloseBillActivity now3 db3 (CloseBillInput.mk billID (BillResult.TotalMinor result))
       = (db4, Ok closed)
    /\ select_bill db4 billID = Some closed
    /\ Bill.Status closed = StatusClosed
    /\ Bill.TotalMinor closed = 1975.
Proof.
  intros F params add1 add2 db1 db2 db3.
  destruct (CreateBillRowActivity_fresh now0 db0 billID CurrencyUSD eq_refl F) as [C F1].
  assert (select_bill db3 billID = Some (Bill.mk billID StatusOpen CurrencyUSD 0 now0 None))
    as F3.
  { unfold select_bill in *. subst db3 db2.
    rewrite !AddLineItemActivity_bills. subst db1. rewrite C. exact F1. }
  destruct (CloseBillActivity_open now3 db3 (CloseBillInput.mk billID 1975) _ F3 eq_refl)
    as [db4 [Close [F4 _]]].
  eexists _, _, db4. split; [reflexivity|].
  split; [reflexivity|]. split; [reflexivity|].
  split; [exact Close|]. split; [exact F4|]. split; reflexivity.
Qed.

Lemma usd_bill_scenario_witness :
  exists result closed db4,
    BillWorkflow usdBill [OnAddLineItem lunch; OnAddLineItem coffee; closeSignal]
    = Returned result
    /\ BillResult.TotalMinor result = 1975
    /\ List.length (BillResult.Items result) = 2%nat
    /\ CloseBillActivity 5
         (fst (AddLineItemActivity 3
                 (fst (AddLineItemActivity 2
                         (fst (CreateBillRowActivity 1 (mkDB [] [])
                                 (CreateBillRowInput.mk "b-1" CurrencyUSD)))
                         (addLineItemInputOf (initialState usdBill) lunch)))
                 (addLineItemInputOf (initialState usdBill) coffee)))
         (CloseBillInput.mk "b-1" (BillResult.TotalMinor result))
       = (db4, Ok closed)
    /\ select_bill db4 "b-1" = Some closed
    /\ Bill.Status closed = StatusClosed
    /\ Bill.TotalMinor closed = 1975.
Proof.
  apply (usd_bill_scenario 1 2 3 5 (mkDB [] []) "b-1" "li-1" "li-2" "lunch" "coffee" []).
  reflexivity.
Defined.

(** * Further properties of the loop *)

Lemma appliedSignals_have_currency (currency : string) (inbox : list Delivery) :
  Forall (fun sig => AddLineItemSignal.Currency sig = currency)
    (appliedSignals currency inbox).
Proof.
  induction inbox as [|d rest IH]; [constructor|].
  destruct d as [sig|sig]; simpl; [|constructor].
  destruct (String.eqb_spec (AddLineItemSignal.Currency sig) currency);
    [constructor; assumption | assumption].
Qed.

Lemma fold_matching_signals (sigs : list AddLineItemSignal.t) :
  forall state,
    Forall (fun sig => AddLineItemSignal.Currency sig = BillResult.Currency state) sigs ->
    let state' := fold_left receiveAddLineItem sigs state in
    BillResult.BillID state' = BillResult.BillID state
    /\ BillResult.Currency state' = BillResult.Currency state
    /\ BillResult.Items state' = BillResult.Items state ++ map lineItemStateOf sigs.
Proof.
  induction sigs as [|sig sigs IH]; intros state F; simpl.
  - rewrite app_nil_r. repeat split.
  - inversion F as [|? ? C F']; subst.
    rewrite (receiveAddLineItem_match state sig C).
    destruct (IH (BillResult.mk (BillResult.BillID state) (BillResult.Currency state)
                    (Int64.add (BillResult.TotalMinor state)
                       (AddLineItemSignal.AmountMinor sig))
                    (BillResult.Items state ++ [lineItemStateOf sig])) F')
      as [B [C' I]].
    cbn [BillResult.BillID BillResult.Currency BillResult.Items] in B, C', I.
    split; [exact B|]. split; [exact C'|].
    rewrite I, <- app_assoc. reflexivity.
Qed.

Lemma items_are_the_applied_signals_aux (params : BillWorkflowParams.t)
  (inbox : list Delivery) :
  BillResult.Items (stateOf (BillWorkflow params inbox))
  = map lineItemStateOf (appliedSignals (BillWorkflowParams.Currency params) inbox).
Proof.
  unfold BillWorkflow. rewrite appliedSignals_fold.
  apply (fold_matching_signals _ (initialState params)).
  apply appliedSignals_have_currency.
Qed.

(** X1. Whatever is delivered, the state a run of [BillWorkflow] holds keeps
    the [BillID] and [Currency] of its parameters, and its item list is, in
    delivery order, one entry for each add signal of the bill's currency
    received before the first close: no such signal is lost and nothing
    else is ever listed. *)
Theorem items_are_the_applied_signals (params : BillWorkflowParams.t)
  (inbox : list Delivery) :
  let state := stateOf (BillWorkflow params inbox) in
  BillResult.BillID state = BillWorkflowParams.BillID params
  /\ BillResult.Currency state = BillWorkflowParams.Currency params
  /\ BillResult.Items state
     = map lineItemStateOf (appliedSignals (BillWorkflowParams.Currency params) inbox).
Proof.
  intros state. subst state. unfold BillWorkflow. rewrite appliedSignals_fold.
  apply (fold_matching_signals _ (initialState params)).
  apply appliedSignals_have_currency.
Qed.

Lemma loop_until_close (pre : list Delivery) (c : CloseBillSignal.t) (post : list Delivery) :
  forall state,
    loop state (pre ++ OnCloseBill c :: post) = Returned (stateOf (loop state pre)).
Proof.
  induction pre as [|d pre IH]; intros state; [reflexivity|].
  destruct d as [sig|sig]; cbn [app loop iteration]; [apply IH | reflexivity].
Qed.

(** X2. Once a close signal is delivered nothing behind it matters: the
    run returns what it held when the close came, so an add signal that
    arrives after the close never reaches the result. *)
Theorem deliveries_behind_close_are_ignored (params : BillWorkflowParams.t)
  (pre post : list Delivery) (c : CloseBillSignal.t) :
  BillWorkflow params (pre ++ OnCloseBill c :: post)
  = Returned (stateOf (BillWorkflow params pre))
  /\ BillWorkflow params (pre ++ OnCloseBill c :: post)
     = BillWorkflow params (pre ++ [OnCloseBill c]).
Proof.
  unfold BillWorkflow. rewrite !loop_until_close. split; reflexivity.
Qed.

Lemma deliveries_behind_close_are_ignored_witness :
  BillWorkflow usdBill
    ([OnAddLineItem lunch] ++ OnCloseBill CloseBillSignal.mk :: [OnAddLineItem coffee])
  = Returned (BillResult.mk "b-1" "USD" 1250 [lineItemStateOf lunch]).
Proof.
  destruct (deliveries_behind_close_are_ignored usdBill [OnAddLineItem lunch]
              [OnAddLineItem coffee] CloseBillSignal.mk) as [R _].
  rewrite R. reflexivity.
Defined.

(** X3. [BillWorkflow] returns exactly when a close signal is among its
    deliveries; fed add signals only, however many, it stays in its loop. *)
Theorem returns_iff_close_delivered (params : BillWorkflowParams.t)
  (inbox : list Delivery) :
  (exists result, BillWorkflow params inbox = Returned result)
  <-> (exists c, In (OnCloseBill c) inbox).
Proof.
  unfold BillWorkflow. generalize (initialState params).
  induction inbox as [|d rest IH]; intros state.
  - split; [intros [r H]; discriminate | intros [c []]].
  - destruct d as [sig|sig]; cbn [loop iteration].
    + rewrite IH. split; intros [c H]; exists c.
      * right. exact H.
      * destruct H as [H|H]; [discriminate | exact H].
    + split; [intros _; exists sig; left; reflexivity | intros _; eexists; reflexivity].
Qed.

Lemma appliedSignals_delivered (currency : string) (inbox : list Delivery)
  (sig : AddLineItemSignal.t) :
  In sig (appliedSignals currency inbox) -> In (OnAddLineItem sig) inbox.
Proof.
  induction inbox as [|d rest IH]; simpl; [trivial|].
  destruct d as [sig'|c]; [|intros []].
  destruct (String.eqb (AddLineItemSignal.Currency sig') currency).
  - intros [->|H]; [left; reflexivity | right; apply IH, H].
  - intros H. right. apply IH, H.
Qed.

Lemma appliedSignals_prefix (currency : string) (pre post : list Delivery) :
  exists more,
    appliedSignals currency (pre ++ post) = appliedSignals currency pre ++ more
    /\ forall sig, In sig more -> In (OnAddLineItem sig) post.
Proof.
  induction pre as [|d pre [more [E M]]].
  - exists (appliedSignals currency post). split; [reflexivity|].
    intros sig. apply appliedSignals_delivered.
  - destruct d as [sig|c]; simpl.
    + exists more. split; [|exact M].
      destruct (String.eqb (AddLineItemSignal.Currency sig) currency);
        rewrite E; reflexivity.
    + exists []. split; [reflexivity | intros sig []].
Qed.

Lemma exactSum_app (items more : list LineItemState.t) :
  exactSum (items ++ more) = exactSum items + exactSum more.
Proof.
  induction items as [|it items IH]; simpl; [reflexivity|].
  fold (exactSum (items ++ more)). fold (exactSum items). lia.
Qed.

Lemma exactSum_nonnegative (sigs : list AddLineItemSignal.t) :
  (forall sig, In sig sigs -> 0 <= AddLineItemSignal.AmountMinor sig) ->
  0 <= exactSum (map lineItemStateOf sigs).
Proof.
  induction sigs as [|sig sigs IH]; simpl; intros H; [lia|].
  fold (exactSum (map lineItemStateOf sigs)).
  pose proof (H sig (or_introl eq_refl)).
  pose proof (IH (fun s Hs => H s (or_intror Hs))). lia.
Qed.

Lemma total_wraps_exactSum (params : BillWorkflowParams.t) (inbox : list Delivery) :
  BillResult.TotalMinor (stateOf (BillWorkflow params inbox))
  = Int64.wrap (exactSum (map lineItemStateOf
                            (appliedSignals (BillWorkflowParams.Currency params) inbox))).
Proof.
  pose proof (total_is_sum_of_items_aux params inbox) as T. unfold TotalMatchesItems in T.
  pose proof (items_are_the_applied_signals_aux params inbox) as I.
  rewrite T, I. apply sumAmountMinor_wraps_exactSum.
Qed.

(** X4. While no delivered amount is negative and the exact sum of the
    items fits in [int64], the running total never decreases: the total
    held after any prefix of the deliveries is at most the total held after
    all of them, and so is the number of items. *)
Theorem total_never_decreases (params : BillWorkflowParams.t) (pre post : list Delivery) :
  (forall sig, In (OnAddLineItem sig) (pre ++ post) ->
               0 <= AddLineItemSignal.AmountMinor sig) ->
  Int64.in_range
    (exactSum (BillResult.Items (stateOf (BillWorkflow params (pre ++ post))))) ->
  BillResult.TotalMinor (stateOf (BillWorkflow params pre))
  <= BillResult.TotalMinor (stateOf (BillWorkflow params (pre ++ post)))
  /\ (List.length (BillResult.Items (stateOf (BillWorkflow params pre)))
      <= List.length (BillResult.Items (stateOf (BillWorkflow params (pre ++ post)))))%nat.
Proof.
  intros Pos Fit.
  rewrite !total_wraps_exactSum.
  rewrite !items_are_the_applied_signals_aux in *.
  destruct (appliedSignals_prefix (BillWorkflowParams.Currency params) pre post)
    as [more [E M]].
  rewrite E, map_app in *. rewrite exactSum_app in *. rewrite length_app.
  assert (0 <= exactSum (map lineItemStateOf
                           (appliedSignals (BillWorkflowParams.Currency params) pre))) as P1.
  { apply exactSum_nonnegative. intros sig H. apply Pos, in_or_app. left.
    apply (appliedSignals_delivered _ _ _ H). }
  assert (0 <= exactSum (map lineItemStateOf more)) as P2.
  { apply exactSum_nonnegative. intros sig H. apply Pos, in_or_app. right. apply M, H. }
  unfold Int64.in_range, Int64.min_int, Int64.max_int in Fit.
  rewrite !wrap_small by (unfold Int64.in_range, Int64.min_int, Int64.max_int; lia).
  split; lia.
Qed.

Lemma total_never_decreases_witness :
  BillResult.TotalMinor (stateOf (BillWorkflow usdBill [OnAddLineItem lunch]))
  <= BillResult.TotalMinor
       (stateOf (BillWorkflow usdBill
                   ([OnAddLineItem lunch] ++ [OnAddLineItem coffee; closeSignal]))).
Proof.
  apply (total_never_decreases usdBill [OnAddLineItem lunch]
           [OnAddLineItem coffee; closeSignal]).
  - intros sig [H|[H|[H|[]]]]; try discriminate; injection H as <-; simpl; lia.
  - vm_compute. split; discriminate.
Defined.

(** * Further properties of the activities *)

Lemma Currency_Valid_iff (c : Currency) :
  Currency_Valid c = true <-> c = CurrencyUSD \/ c = CurrencyGEL.
Proof.
  unfold Currency_Valid. rewrite orb_true_iff, !String.eqb_eq. reflexivity.
Qed.

Lemma bills_check_new (now : Time) (id : string) (c : Currency) :
  bills_check (Bill.mk id StatusOpen c 0 now None) = Currency_Valid c.
Proof. reflexivity. Qed.

Lemma CreateBillRowActivity_existing (now : Time) (db : DB) (id : string) (c : Currency)
  (row : Bill.t) :
  Currency_Valid c = true ->
  select_bill db id = Some row ->
  CreateBillRowActivity now db (CreateBillRowInput.mk id c) = (db, Ok row).
Proof.
  intros V F. unfold CreateBillRowActivity, insert_bill.
  cbn [CreateBillRowInput.Currency CreateBillRowInput.BillID].
  rewrite bills_check_new, V. cbn [negb]. rewrite F, F. reflexivity.
Qed.

(** X5. [CreateBillRowActivity] with a supported currency always succeeds
    and is idempotent by [BillID]: it returns the row stored under the id,
    which is a new open row with total 0 when the id was free and otherwise
    the existing row, left untouched whatever its status or currency; a
    second invocation returns the same row and changes nothing. *)
Theorem create_bill_row_is_idempotent (now1 now2 : Time) (db : DB) (id : string)
  (c1 c2 : Currency) :
  Currency_Valid c1 = true ->
  Currency_Valid c2 = true ->
  exists db1 b,
    CreateBillRowActivity now1 db (CreateBillRowInput.mk id c1) = (db1, Ok b)
    /\ select_bill db1 id = Some b
    /\ CreateBillRowActivity now2 db1 (CreateBillRowInput.mk id c2) = (db1, Ok b)
    /\ (select_bill db id = None -> b = Bill.mk id StatusOpen c1 0 now1 None)
    /\ (forall row, select_bill db id = Some row -> b = row /\ db1 = db).
Proof.
  intros V1 V2.
  destruct (select_bill db id) as [row|] eqn:F.
  - exists db, row. rewrite (CreateBillRowActivity_existing now1 db id c1 row V1 F).
    rewrite (CreateBillRowActivity_existing now2 db id c2 row V2 F).
    split; [reflexivity|]. split; [exact F|]. split; [reflexivity|].
    split; [discriminate|]. intros row' E. injection E as <-. split; reflexivity.
  - destruct (CreateBillRowActivity_fresh now1 db id c1 V1 F) as [C F1].
    eexists _, _. split; [exact C|]. split; [exact F1|].
    split; [apply (CreateBillRowActivity_existing now2 _ id c2 _ V2 F1)|].
    split; [reflexivity | discriminate].
Qed.

Lemma create_bill_row_is_idempotent_witness :
  exists db1 b,
    CreateBillRowActivity 1 (mkDB [] []) (CreateBillRowInput.mk "b-1" CurrencyUSD)
    = (db1, Ok b)
    /\ select_bill db1 "b-1" = Some b
    /\ CreateBillRowActivity 2 db1 (CreateBillRowInput.mk "b-1" CurrencyGEL) = (db1, Ok b)
    /\ b = Bill.mk "b-1" StatusOpen CurrencyUSD 0 1 None.
Proof.
  destruct (create_bill_row_is_idempotent 1 2 (mkDB [] []) "b-1" CurrencyUSD CurrencyGEL
              eq_refl eq_refl) as [db1 [b [C1 [F [C2 [New _]]]]]].
  exists db1, b. repeat split; try assumption. apply New. reflexivity.
Defined.

(** X6. [CreateBillRowActivity] refuses every currency other than USD and
    GEL with [InvalidArgument] and does not touch the database. *)
Theorem create_bill_row_rejects_currency (now : Time) (db : DB)
  (input : CreateBillRowInput.t) :
  CreateBillRowInput.Currency input <> CurrencyUSD ->
  CreateBillRowInput.Currency input <> CurrencyGEL ->
  CreateBillRowActivity now db input
  = (db, Err (errs.B errs.InvalidArgument "unsupported currency")).
Proof.
  intros U G. unfold CreateBillRowActivity.
  destruct (Currency_Valid (CreateBillRowInput.Currency input)) eqn:V; [|reflexivity].
  apply Currency_Valid_iff in V. tauto.
Qed.

Lemma create_bill_row_rejects_currency_witness :
  CreateBillRowActivity 1 oneOpenBill (CreateBillRowInput.mk "b-2" "usd"%string)
  = (oneOpenBill, Err (errs.B errs.InvalidArgument "unsupported currency")).
Proof.
  apply (create_bill_row_rejects_currency 1 oneOpenBill
           (CreateBillRowInput.mk "b-2" "usd"%string)); discriminate.
Defined.

(** ** The schema is kept *)

Lemma find_bill_none_not_in (rows : list Bill.t) (id : string) :
  find (has_bill_id id) rows = None -> ~ In id (map Bill.ID rows).
Proof.
  intros F Hin. apply in_map_iff in Hin. destruct Hin as [b [E Hin]].
  pose proof (find_none _ _ F b Hin) as N.
  unfold has_bill_id in N. rewrite E, String.eqb_refl in N. discriminate.
Qed.

Lemma SchemaHolds_new_bill (db : DB) (row : Bill.t) :
  SchemaHolds db ->
  select_bill db (Bill.ID row) = None ->
  bills_check row = true ->
  SchemaHolds (mkDB (bills db ++ [row]) (bill_line_items db)).
Proof.
  intros [[KB KL] [CK FK]] F C. unfold SchemaHolds, PrimaryKeys. cbn [bills bill_line_items].
  split; [split; [|exact KL] | split].
  - rewrite map_app. apply NoDup_snoc; [exact KB|]. apply find_bill_none_not_in, F.
  - apply Forall_app. split; [exact CK | constructor; [exact C | constructor]].
  - eapply Forall_impl; [|exact FK]. intros li H. cbn beta in *.
    rewrite existsb_app, H. reflexivity.
Qed.

Lemma SchemaHolds_new_line_item (db : DB) (row : LineItem.t) :
  SchemaHolds db ->
  select_line_item db (LineItem.ID row) = None ->
  existsb (has_bill_id (LineItem.BillID row)) (bills db) = true ->
  SchemaHolds (mkDB (bills db) (bill_line_items db ++ [row])).
Proof.
  intros [[KB KL] [CK FK]] F B. unfold SchemaHolds, PrimaryKeys. cbn [bills bill_line_items].
  split; [split; [exact KB|] | split; [exact CK|]].
  - rewrite map_app. apply NoDup_snoc; [exact KL|]. apply find_none_not_in, F.
  - apply Forall_app. split; [exact FK | constructor; [exact B | constructor]].
Qed.

Lemma SchemaHolds_update (db : DB) (hit : Bill.t -> bool) (total : Z) (now : Time) :
  SchemaHolds db ->
  SchemaHolds (fst (update_bills hit (set_closed StatusClosed total now) db)).
Proof.
  intros [[KB KL] [CK FK]]. unfold update_bills. cbn [fst].
  set (upd := fun b : Bill.t => if hit b then set_closed StatusClosed total now b else b).
  assert (forall b, Bill.ID (upd b) = Bill.ID b) as Hid
      by (intros b; unfold upd; destruct (hit b); reflexivity).
  assert (map Bill.ID (map upd (bills db)) = map Bill.ID (bills db)) as Ids.
  { rewrite map_map. apply map_ext. exact Hid. }
  unfold SchemaHolds, PrimaryKeys. cbn [bills bill_line_items].
  split; [split; [rewrite Ids; exact KB | exact KL] | split].
  - apply Forall_map. eapply Forall_impl; [|exact CK]. intros b C. cbn beta in *.
    unfold upd. destruct (hit b); [|exact C].
    unfold bills_check, set_closed in *. cbn [Bill.Status Bill.Currency] in *.
    apply andb_prop in C. destruct C as [_ C]. rewrite C. reflexivity.
  - eapply Forall_impl; [|exact FK]. intros li H. cbn beta in *.
    rewrite existsb_exists in *. destruct H as [b [Hin Hb]].
    exists (upd b). split; [apply in_map, Hin|].
    unfold has_bill_id in *. rewrite Hid. exact Hb.
Qed.

(** X7. The three activities keep the schema: from a database whose
    primary keys are unique, whose bills pass the [CHECK] clauses and whose
    line items all reference a bill, each activity leaves such a database
    again, whether it succeeds or fails. *)
Theorem activities_keep_the_schema (now : Time) (db : DB) :
  SchemaHolds db ->
  (forall input, SchemaHolds (fst (CreateBillRowActivity now db input)))
  /\ (forall input, SchemaHolds (fst (AddLineItemActivity now db input)))
  /\ (forall input, SchemaHolds (fst (CloseBillActivity now db input))).
Proof.
  intros S. split; [|split]; intros input.
  - unfold CreateBillRowActivity.
    destruct (negb _); [exact S|]. unfold insert_bill.
    destruct (negb (bills_check _)) eqn:C; [exact S|].
    apply negb_false_iff in C.
    destruct (select_bill db (CreateBillRowInput.BillID input)) as [row|] eqn:F.
    + rewrite F. exact S.
    + match goal with |- SchemaHolds (fst (match select_bill ?d _ with _ => _ end)) =>
        assert (SchemaHolds d) as S' by (apply SchemaHolds_new_bill; assumption);
        destruct (select_bill d _); exact S'
      end.
  - destruct (AddLineItemActivity now db input) as [db' [li|e]] eqn:A; cbn [fst].
    2:{ apply AddLineItemActivity_error_frame in A. subst. exact S. }
    revert A. unfold AddLineItemActivity.
    destruct (_ <=? 0); [discriminate|].
    destruct (select_bill db _) as [row|] eqn:F; [|discriminate].
    destruct (negb _); [discriminate|]. destruct (negb _); [discriminate|].
    rewrite insert_line_item_spec.
    destruct (select_line_item db _) eqn:L.
    + rewrite L. intros A. injection A as <- _. exact S.
    + rewrite (find_some_existsb _ _ _ F).
      match goal with |- (match select_line_item ?d _ with _ => _ end) = _ -> _ =>
        assert (SchemaHolds d) as S'
            by (apply SchemaHolds_new_line_item;
                [exact S | exact L | exact (find_some_existsb _ _ _ F)]);
        destruct (select_line_item d _); intros A; inversion A; subst; exact S'
      end.
  - unfold CloseBillActivity.
    pose proof (SchemaHolds_update db (is_open_bill (CloseBillInput.BillID input))
                  (CloseBillInput.TotalMinor input) now S) as U.
    destruct (update_bills _ _ db) as [db' returning]. cbn [fst] in U.
    destruct returning; exact U.
Qed.

Lemma activities_keep_the_schema_witness :
  SchemaHolds (fst (CloseBillActivity 5 oneOpenBill (CloseBillInput.mk "b-1" 1975))).
Proof.
  apply (activities_keep_the_schema 5 oneOpenBill).
  repeat split; repeat constructor; intros [].
Defined.

(** ** Updates, row by row *)

Lemma find_bill_map (id : string) (upd : Bill.t -> Bill.t) (rows : list Bill.t) :
  (forall b, Bill.ID (upd b) = Bill.ID b) ->
  find (has_bill_id id) (map upd rows) = option_map upd (find (has_bill_id id) rows).
Proof.
  intros Hid. induction rows as [|b rows IH]; simpl; [reflexivity|].
  unfold has_bill_id at 1 3. rewrite Hid.
  destruct (String.eqb (Bill.ID b) id); [reflexivity | exact IH].
Qed.

(** What [update_bills] does to the lookup of any id. *)
Lemma select_bill_update (hit : Bill.t -> bool) (total : Z) (now : Time) (db : DB)
  (id : string) :
  select_bill (fst (update_bills hit (set_closed StatusClosed total now) db)) id
  = option_map (fun b => if hit b then set_closed StatusClosed total now b else b)
      (select_bill db id).
Proof.
  unfold select_bill, update_bills. cbn [fst bills].
  apply find_bill_map. intros b. destruct (hit b); reflexivity.
Qed.

Lemma CloseBillActivity_db (now : Time) (db : DB) (input : CloseBillInput.t) :
  fst (CloseBillActivity now db input)
  = fst (update_bills (is_open_bill (CloseBillInput.BillID input))
           (set_closed StatusClosed (CloseBillInput.TotalMinor input) now) db).
Proof.
  unfold CloseBillActivity. destruct (update_bills _ _ db) as [db' returning].
  destruct returning; reflexivity.
Qed.

(** A bill that is stored and not open. *)
Lemma closed_after_close (now : Time) (db : DB) (input : CloseBillInput.t) (row : Bill.t) :
  select_bill db (CloseBillInput.BillID input) = Some row ->
  exists row',
    select_bill (fst (CloseBillActivity now db input)) (CloseBillInput.BillID input)
    = Some row'
    /\ Bill.Status row' <> StatusOpen.
Proof.
  intros F. rewrite CloseBillActivity_db, select_bill_update, F. cbn [option_map].
  eexists. split; [reflexivity|].
  apply find_some in F. destruct F as [_ Hid].
  unfold is_open_bill. rewrite Hid. cbn [andb].
  destruct (String.eqb_spec (Bill.Status row) "OPEN") as [E|E]; [discriminate | exact E].
Qed.

Lemma invoke_keeps_closed (db : DB) (call : ActivityCall) (id : string) (row : Bill.t) :
  select_bill db id = Some row ->
  Bill.Status row <> StatusOpen ->
  exists row',
    select_bill (invoke db call) id = Some row' /\ Bill.Status row' <> StatusOpen.
Proof.
  intros F S. destruct call as [now input|now input|now input]; cbn [invoke].
  - exists row. split; [|exact S].
    unfold CreateBillRowActivity. destruct (negb _); [exact F|].
    unfold insert_bill. destruct (negb (bills_check _)); [exact F|].
    destruct (select_bill db (CreateBillRowInput.BillID input)) as [b|] eqn:G.
    + rewrite G. exact F.
    + match goal with |- select_bill (fst (match select_bill ?d _ with _ => _ end)) _ = _ =>
        assert (select_bill d id = Some row) as F'
            by (unfold select_bill in *; cbn [bills]; rewrite find_snoc, F; reflexivity);
        destruct (select_bill d (CreateBillRowInput.BillID input)); exact F'
      end.
  - exists row. split; [|exact S].
    unfold select_bill. rewrite AddLineItemActivity_bills. exact F.
  - rewrite CloseBillActivity_db, select_bill_update, F. cbn [option_map].
    eexists. split; [reflexivity|].
    destruct (is_open_bill (CloseBillInput.BillID input) row); [discriminate | exact S].
Qed.

Lemma invokeAll_keeps_closed (calls : list ActivityCall) (id : string) :
  forall db row,
    select_bill db id = Some row ->
    Bill.Status row <> StatusOpen ->
    exists row',
      select_bill (invokeAll db calls) id = Some row' /\ Bill.Status row' <> StatusOpen.
Proof.
  induction calls as [|call calls IH]; intros db row F S.
  - exists row. split; assumption.
  - destruct (invoke_keeps_closed db call id row F S) as [row1 [F1 S1]].
    apply (IH (invoke db call) row1 F1 S1).
Qed.

(** X8. No line item after a close: once [CloseBillActivity] has been
    invoked for a bill that has a row, whatever it returned and whatever
    activities are invoked afterwards, in any number and order, every
    [AddLineItemActivity] for that [BillID] fails and stores nothing; for
    a positive amount the failure is [FailedPrecondition], "bill is
    closed". *)
Theorem no_line_item_after_close (now1 now2 : Time) (db : DB)
  (closing : CloseBillInput.t) (calls : list ActivityCall) (adding : AddLineItemInput.t)
  (row : Bill.t) :
  select_bill db (CloseBillInput.BillID closing) = Some row ->
  AddLineItemInput.BillID adding = CloseBillInput.BillID closing ->
  let db1 := invokeAll (fst (CloseBillActivity now1 db closing)) calls in
  (exists e, AddLineItemActivity now2 db1 adding = (db1, Err e))
  /\ (0 < AddLineItemInput.AmountMinor adding ->
      AddLineItemActivity now2 db1 adding
      = (db1, Err (errs.B errs.FailedPrecondition "bill is closed"))).
Proof.
  intros F E db1.
  destruct (closed_after_close now1 db closing row F) as [row0 [F0 S0]].
  destruct (invokeAll_keeps_closed calls _ _ row0 F0 S0) as [row1 [F1 S1]].
  fold db1 in F1. rewrite <- E in F1.
  assert (0 < AddLineItemInput.AmountMinor adding ->
          AddLineItemActivity now2 db1 adding
          = (db1, Err (errs.B errs.FailedPrecondition "bill is closed"))) as Closed.
  { intros H. apply (AddLineItemActivity_closed now2 db1 adding row1 H F1 S1). }
  split; [|exact Closed].
  destruct (Z.leb_spec (AddLineItemInput.AmountMinor adding) 0) as [H|H].
  - eexists. apply AddLineItemActivity_amount, H.
  - eexists. apply Closed, H.
Qed.

Lemma no_line_item_after_close_witness :
  AddLineItemActivity 9
    (invokeAll (fst (CloseBillActivity 5 oneOpenBill (CloseBillInput.mk "b-1" 0)))
       [InvokeCreateBillRow 6 (CreateBillRowInput.mk "b-1" CurrencyUSD);
        InvokeCreateBillRow 7 (CreateBillRowInput.mk "b-2" CurrencyUSD);
        InvokeAddLineItem 8 (AddLineItemInput.mk "li-2" "b-2" "coffee" 725 "USD"%string)])
    (AddLineItemInput.mk "li-1" "b-1" "lunch" 1250 "USD"%string)
  = (mkDB [Bill.mk "b-1" StatusClosed CurrencyUSD 0 1 (Some 5);
           Bill.mk "b-2" StatusOpen CurrencyUSD 0 7 None]
          [LineItem.mk "li-2" "b-2" "coffee" 725 8],
     Err (errs.B errs.FailedPrecondition "bill is closed")).
Proof.
  destruct (no_line_item_after_close 5 9 oneOpenBill (CloseBillInput.mk "b-1" 0)
              [InvokeCreateBillRow 6 (CreateBillRowInput.mk "b-1" CurrencyUSD);
               InvokeCreateBillRow 7 (CreateBillRowInput.mk "b-2" CurrencyUSD);
               InvokeAddLineItem 8
                 (AddLineItemInput.mk "li-2" "b-2" "coffee" 725 "USD"%string)]
              (AddLineItemInput.mk "li-1" "b-1" "lunch" 1250 "USD"%string)
              (Bill.mk "b-1" StatusOpen CurrencyUSD 0 1 None) eq_refl eq_refl)
    as [_ C].
  rewrite C; [reflexivity | reflexivity].
Defined.


(** X10. The id alone decides what [AddLineItemActivity] returns for an
    accepted input: when a row is already stored under [LineItemID], that
    row is returned and nothing is written, even if its bill, description
    or amount differ from the input's. *)
Theorem add_line_item_returns_the_stored_row (now : Time) (db : DB)
  (input : AddLineItemInput.t) (row : Bill.t) (li : LineItem.t) :
  0 < AddLineItemInput.AmountMinor input ->
  select_bill db (AddLineItemInput.BillID input) = Some row ->
  Bill.Status row = StatusOpen ->
  Bill.Currency row = AddLineItemInput.Currency input ->
  select_line_item db (AddLineItemInput.LineItemID input) = Some li ->
  AddLineItemActivity now db input = (db, Ok li).
Proof.
  intros H F S C L.
  rewrite (AddLineItemActivity_accepted now db input row H F S C), L. reflexivity.
Qed.

Lemma add_line_item_returns_the_stored_row_witness :
  AddLineItemActivity 9
    (mkDB [Bill.mk "b-1" StatusOpen CurrencyUSD 0 1 None;
           Bill.mk "b-2" StatusOpen CurrencyGEL 0 2 None]
          [LineItem.mk "li-1" "b-2" "khinkali" 40 3])
    (AddLineItemInput.mk "li-1" "b-1" "lunch" 1250 "USD"%string)
  = (mkDB [Bill.mk "b-1" StatusOpen CurrencyUSD 0 1 None;
           Bill.mk "b-2" StatusOpen CurrencyGEL 0 2 None]
          [LineItem.mk "li-1" "b-2" "khinkali" 40 3],
     Ok (LineItem.mk "li-1" "b-2" "khinkali" 40 3)).
Proof.
  apply (add_line_item_returns_the_stored_row 9 _ _
           (Bill.mk "b-1" StatusOpen CurrencyUSD 0 1 None)); reflexivity.
Defined.

(** * The older store functions *)

(** ** [ORDER BY] permutes and sorts *)

Section OrderBy.

Context {A : Type} (leb : A -> A -> bool).
Hypothesis leb_total : forall a b, leb a b = true \/ leb b a = true.

Lemma insert_row_permutation (x : A) (rows : list A) :
  Permutation (insert_row leb x rows) (x :: rows).
Proof.
  induction rows as [|y rows IH]; simpl; [reflexivity|].
  destruct (leb x y); [reflexivity|].
  rewrite IH. apply perm_swap.
Qed.

Lemma order_by_permutation (rows : list A) : Permutation (order_by leb rows) rows.
Proof.
  induction rows as [|x rows IH]; simpl; [constructor|].
  fold (order_by leb rows). rewrite insert_row_permutation. constructor. exact IH.
Qed.

Lemma insert_row_sorted (x : A) (rows : list A) :
  Sorted (fun a b => leb a b = true) rows ->
  Sorted (fun a b => leb a b = true) (insert_row leb x rows).
Proof.
  induction rows as [|y rows IH]; simpl; intros S.
  - repeat constructor.
  - destruct (leb x y) eqn:E.
    + constructor; [exact S | constructor; exact E].
    + inversion S as [|? ? S' H]; subst. constructor; [apply IH, S'|].
      assert (leb y x = true) as Eyx by (destruct (leb_total x y); congruence).
      destruct rows as [|z rows]; simpl.
      * constructor. exact Eyx.
      * destruct (leb x z); constructor; [exact Eyx|].
        inversion H; assumption.
Qed.

Lemma order_by_sorted (rows : list A) :
  Sorted (fun a b => leb a b = true) (order_by leb rows).
Proof.
  induction rows as [|x rows IH]; simpl; [constructor|].
  apply insert_row_sorted, IH.
Qed.

End OrderBy.

Lemma line_items_created_asc_total (a b : LineItem.t) :
  line_items_created_asc a b = true \/ line_items_created_asc b a = true.
Proof. unfold line_items_created_asc. rewrite !Z.leb_le. lia. Qed.

Lemma bills_created_desc_total (a b : Bill.t) :
  bills_created_desc a b = true \/ bills_created_desc b a = true.
Proof. unfold bills_created_desc. rewrite !Z.leb_le. lia. Qed.

(** X11. [listLineItems] never fails and returns the line items of the
    bill, all of them and no other, each once (a permutation of the bill's
    rows), oldest first; for a bill without items, or an unknown one, the
    list is empty. *)
Theorem listLineItems_lists_the_bill (db : DB) (billID : string) :
  exists items,
    listLineItems db billID = Ok items
    /\ Permutation items (filter (in_bill billID) (bill_line_items db))
    /\ Sorted (fun a b => LineItem.CreatedAt a <= LineItem.CreatedAt b) items
    /\ (forall li, In li items <-> In li (bill_line_items db) /\ LineItem.BillID li = billID)
    /\ ((forall li, In li (bill_line_items db) -> LineItem.BillID li <> billID) ->
        items = []).
Proof.
  eexists. split; [reflexivity|].
  pose proof (order_by_permutation line_items_created_asc
                (filter (in_bill billID) (bill_line_items db))) as P.
  split; [exact P|]. split; [|split].
  - pose proof (order_by_sorted line_items_created_asc line_items_created_asc_total
                  (filter (in_bill billID) (bill_line_items db))) as S.
    eapply Sorted_ind with (P := fun l => Sorted _ l); [constructor | | exact S].
    intros a l _ IH H. constructor; [exact IH|].
    destruct H; constructor. unfold line_items_created_asc in *. apply Z.leb_le. assumption.
  - intros li. split.
    + intros H. apply (Permutation_in _ P), filter_In in H.
      unfold in_bill in H. rewrite String.eqb_eq in H. exact H.
    + intros [H E]. apply (Permutation_in _ (Permutation_sym P)), filter_In.
      unfold in_bill. rewrite String.eqb_eq. split; assumption.
  - intros None.
    assert (filter (in_bill billID) (bill_line_items db) = []) as ->; [|reflexivity].
    destruct (filter _ _) as [|li l] eqn:E; [reflexivity|].
    assert (In li (filter (in_bill billID) (bill_line_items db))) as H
        by (rewrite E; left; reflexivity).
    apply filter_In in H. unfold in_bill in H. rewrite String.eqb_eq in H.
    destruct H as [H Hid]. exfalso. exact (None li H Hid).
Qed.

(** X12. [listBills] never fails; with a status it returns exactly the
    bills of that status, without one it returns every bill, each once, and
    in both cases the most recently created first. *)
Theorem listBills_filters_and_sorts (db : DB) (status : option BillStatus) :
  exists out,
    listBills db status = Ok out
    /\ Sorted (fun a b => Bill.CreatedAt b <= Bill.CreatedAt a) out
    /\ match status with
       | None => Permutation out (bills db)
       | Some st =>
           Permutation out (filter (fun b => String.eqb (Bill.Status b) st) (bills db))
           /\ forall b, In b out <-> In b (bills db) /\ Bill.Status b = st
       end.
Proof.
  assert (forall rows,
            Sorted (fun a b => Bill.CreatedAt b <= Bill.CreatedAt a)
              (order_by bills_created_desc rows)) as S.
  { intros rows.
    pose proof (order_by_sorted bills_created_desc bills_created_desc_total rows) as S.
    eapply Sorted_ind with (P := fun l => Sorted _ l); [constructor | | exact S].
    intros a l _ IH H. constructor; [exact IH|].
    destruct H; constructor. unfold bills_created_desc in *. apply Z.leb_le. assumption. }
  destruct status as [st|]; eexists; (split; [reflexivity|]); (split; [apply S|]).
  - pose proof (order_by_permutation bills_created_desc
                  (filter (fun b => String.eqb (Bill.Status b) st) (bills db))) as P.
    split; [exact P|]. intros b. split.
    + intros H. apply (Permutation_in _ P), filter_In in H.
      rewrite String.eqb_eq in H. exact H.
    + intros [H E]. apply (Permutation_in _ (Permutation_sym P)), filter_In.
      rewrite String.eqb_eq. split; assumption.
  - apply order_by_permutation.
Qed.

(** ** [closeBill], [insertLineItem] and [createBill] *)

Lemma filter_first_hit (id : string) (rows : list Bill.t) (row : Bill.t) :
  find (has_bill_id id) rows = Some row ->
  exists tail, filter (has_bill_id id) rows = row :: tail.
Proof.
  induction rows as [|b rows IH]; simpl; [discriminate|].
  destruct (has_bill_id id b) eqn:E.
  - intros F. injection F as ->. eexists. reflexivity.
  - exact IH.
Qed.

Lemma closeBill_closes_the_row (now : Time) (db : DB) (bill row : Bill.t)
  (totalMinor : Z) :
  Bill.Status bill = StatusOpen ->
  select_bill db (Bill.ID bill) = Some row ->
  let updated :=
    Bill.mk (Bill.ID row) StatusClosed (Bill.Currency row) totalMinor (Bill.CreatedAt row)
      (Some now) in
  exists db',
    closeBill now db bill totalMinor = (db', Ok updated)
    /\ select_bill db' (Bill.ID bill) = Some updated
    /\ bill_line_items db' = bill_line_items db.
Proof.
  intros S F updated.
  destruct (filter_first_hit _ _ _ F) as [tail Hits].
  eexists. unfold closeBill. rewrite S. cbn [String.eqb negb].
  change (negb (String.eqb StatusOpen StatusOpen)) with false. cbv iota.
  unfold update_bills. rewrite Hits. cbn [map].
  split; [reflexivity|]. split; [|reflexivity].
  unfold select_bill in *. cbn [bills].
  rewrite find_bill_map by (intros b; destruct (has_bill_id _ b); reflexivity).
  rewrite F. cbn [option_map].
  apply find_some in F. destruct F as [_ Hid]. rewrite Hid. reflexivity.
Qed.

(** X13. [closeBill] trusts the [*Bill] it is handed: given a snapshot
    whose status is open, it closes the stored row of that id whatever the
    row's own status, so on a bill that is already closed it succeeds again
    and overwrites the stored total and close time. *)
Theorem closeBill_trusts_its_snapshot (now : Time) (db : DB) (bill row : Bill.t)
  (totalMinor : Z) :
  Bill.Status bill = StatusOpen ->
  select_bill db (Bill.ID bill) = Some row ->
  let updated :=
    Bill.mk (Bill.ID row) StatusClosed (Bill.Currency row) totalMinor (Bill.CreatedAt row)
      (Some now) in
  exists db',
    closeBill now db bill totalMinor = (db', Ok updated)
    /\ select_bill db' (Bill.ID bill) = Some updated
    /\ bill_line_items db' = bill_line_items db.
Proof. exact (closeBill_closes_the_row now db bill row totalMinor). Qed.

Lemma closeBill_trusts_its_snapshot_witness :
  snd (closeBill 9 (mkDB [Bill.mk "b-1" StatusClosed CurrencyUSD 1975 1 (Some 5)] [])
         (Bill.mk "b-1" StatusOpen CurrencyUSD 0 1 None) 0)
  = Ok (Bill.mk "b-1" StatusClosed CurrencyUSD 0 1 (Some 9)).
Proof.
  destruct (closeBill_trusts_its_snapshot 9
              (mkDB [Bill.mk "b-1" StatusClosed CurrencyUSD 1975 1 (Some 5)] [])
              (Bill.mk "b-1" StatusOpen CurrencyUSD 0 1 None)
              (Bill.mk "b-1" StatusClosed CurrencyUSD 1975 1 (Some 5)) 0
              eq_refl eq_refl) as [db' [C _]].
  rewrite C. reflexivity.
Defined.

(** X14. Handed an open snapshot of a bill that has no row, [closeBill]
    fails with [Internal] ("update bill"), not with [NotFound], and changes
    nothing; handed a snapshot that is not open it fails with
    [FailedPrecondition] before any statement runs. *)
Theorem closeBill_failures (now : Time) (db : DB) (bill : Bill.t) (totalMinor : Z) :
  (Bill.Status bill <> StatusOpen ->
   closeBill now db bill totalMinor
   = (db, Err (errs.B errs.FailedPrecondition "bill already closed")))
  /\ (Bill.Status bill = StatusOpen ->
      select_bill db (Bill.ID bill) = None ->
      closeBill now db bill totalMinor = (db, Err (errs.B errs.Internal "update bill"))).
Proof.
  split.
  - intros N. unfold closeBill.
    destruct (String.eqb_spec (Bill.Status bill) StatusOpen); [contradiction | reflexivity].
  - intros S F. unfold closeBill. rewrite S.
    change (negb (String.eqb StatusOpen StatusOpen)) with false. cbv iota.
    rewrite update_bills_no_hit; [reflexivity|].
    apply find_none_filter, F.
Qed.

(** X15. [insertLineItem] trusts its snapshot too and knows no currency:
    given an open snapshot, a positive amount and a free id, it stores the
    row for any bill that has a row, closed in the store or not.  A snapshot
    that is not open is refused with [FailedPrecondition] before the amount
    is looked at. *)
Theorem insertLineItem_trusts_its_snapshot (now : Time) (id : string) (db : DB)
  (bill : Bill.t) (description : string) (amountMinor : Z) :
  (Bill.Status bill <> StatusOpen ->
   insertLineItem now id db bill description amountMinor
   = (db, Err (errs.B errs.FailedPrecondition "cannot add line item to closed bill")))
  /\ (Bill.Status bill = StatusOpen ->
      amountMinor <= 0 ->
      insertLineItem now id db bill description amountMinor
      = (db, Err (errs.B errs.InvalidArgument "line item amount must be positive")))
  /\ (forall row,
        Bill.Status bill = StatusOpen ->
        0 < amountMinor ->
        select_line_item db id = None ->
        select_bill db (Bill.ID bill) = Some row ->
        let li := LineItem.mk id (Bill.ID bill) description amountMinor now in
        insertLineItem now id db bill description amountMinor
        = (mkDB (bills db) (bill_line_items db ++ [li]), Ok li)).
Proof.
  split; [|split].
  - intros N. unfold insertLineItem.
    destruct (String.eqb_spec (Bill.Status bill) StatusOpen); [contradiction | reflexivity].
  - intros S H. unfold insertLineItem. rewrite S.
    change (negb (String.eqb StatusOpen StatusOpen)) with false. cbv iota.
    destruct (Z.leb_spec amountMinor 0); [reflexivity | lia].
  - intros row S H L F li. unfold insertLineItem. rewrite S.
    change (negb (String.eqb StatusOpen StatusOpen)) with false. cbv iota.
    destruct (Z.leb_spec amountMinor 0); [lia|].
    unfold insert_line_item_returning. cbn [bill_line_items_check negb].
    rewrite L, (find_some_existsb _ _ _ F). reflexivity.
Qed.

Lemma insertLineItem_trusts_its_snapshot_witness :
  insertLineItem 9 "li-9" (mkDB [Bill.mk "b-1" StatusClosed CurrencyUSD 1975 1 (Some 5)] [])
    (Bill.mk "b-1" StatusOpen CurrencyUSD 0 1 None) "late" 100
  = (mkDB [Bill.mk "b-1" StatusClosed CurrencyUSD 1975 1 (Some 5)]
          [LineItem.mk "li-9" "b-1" "late" 100 9],
     Ok (LineItem.mk "li-9" "b-1" "late" 100 9)).
Proof.
  destruct (insertLineItem_trusts_its_snapshot 9 "li-9"
              (mkDB [Bill.mk "b-1" StatusClosed CurrencyUSD 1975 1 (Some 5)] [])
              (Bill.mk "b-1" StatusOpen CurrencyUSD 0 1 None) "late" 100) as [_ [_ I]].
  apply (I (Bill.mk "b-1" StatusClosed CurrencyUSD 1975 1 (Some 5))); reflexivity.
Defined.

(** X16. [createBill] and [getBill] round-trip: for a supported currency
    and a free id, [createBill] stores and returns an open bill of that
    currency with total 0 and no close time, which [getBill] then returns
    under the id; no other id's lookup changes.  An id that is taken makes
    [createBill] fail with [Internal] and change nothing. *)
Theorem createBill_then_getBill (now : Time) (id : string) (db : DB) (currency : Currency) :
  Currency_Valid currency = true ->
  (select_bill db id = None ->
   let b := Bill.mk id StatusOpen currency 0 now None in
   exists db',
     createBill now id db currency = (db', Ok b)
     /\ getBill db' id = Ok b
     /\ (forall other, other <> id -> getBill db' other = getBill db other))
  /\ (forall row,
        select_bill db id = Some row ->
        createBill now id db currency = (db, Err (errs.B errs.Internal "insert bill"))).
Proof.
  intros V. split.
  - intros F b. eexists. unfold createBill, insert_bill_returning.
    rewrite bills_check_new, V, F. cbn [negb]. split; [reflexivity|].
    unfold getBill, select_bill in *. cbn [bills]. split.
    + rewrite find_snoc, F. unfold has_bill_id. cbn [Bill.ID b].
      rewrite String.eqb_refl. reflexivity.
    + intros other N. rewrite find_snoc.
      destruct (find (has_bill_id other) (bills db)); [reflexivity|].
      unfold has_bill_id. cbn [Bill.ID].
      destruct (String.eqb_spec id other); [congruence | reflexivity].
  - intros row F. unfold createBill, insert_bill_returning.
    rewrite bills_check_new, V, F. reflexivity.
Qed.

Lemma createBill_then_getBill_witness :
  exists db',
    createBill 4 "b-2" oneOpenBill CurrencyGEL
    = (db', Ok (Bill.mk "b-2" StatusOpen CurrencyGEL 0 4 None))
    /\ getBill db' "b-2" = Ok (Bill.mk "b-2" StatusOpen CurrencyGEL 0 4 None).
Proof.
  destruct (createBill_then_getBill 4 "b-2" oneOpenBill CurrencyGEL eq_refl) as [C _].
  destruct (C eq_refl) as [db' [E [G _]]].
  exists db'. split; assumption.
Defined.

(** * The helpers *)

(** X17. [workflowIDForBill] is injective: two bills never share a
    workflow id. *)
Theorem workflowIDForBill_is_injective (billID1 billID2 : string) :
  workflowIDForBill billID1 = workflowIDForBill billID2 -> billID1 = billID2.
Proof. unfold workflowIDForBill. simpl. intros H. inversion H. reflexivity. Qed.

Lemma workflowIDForBill_is_injective_witness :
  workflowIDForBill "b-1" = "bill-b-1"%string /\ "b-1"%string = "b-1"%string.
Proof.
  split; [reflexivity|].
  apply (workflowIDForBill_is_injective "b-1" "b-1"). reflexivity.
Defined.

(** ** The join-based read *)

Lemma unique_bill_filter (rows : list Bill.t) (id : string) (row : Bill.t) :
  NoDup (map Bill.ID rows) ->
  find (has_bill_id id) rows = Some row ->
  filter (has_bill_id id) rows = [row].
Proof.
  induction rows as [|b rows IH]; simpl; intros ND F; [discriminate|].
  inversion ND as [|? ? Hnotin ND']; subst.
  destruct (has_bill_id id b) eqn:E.
  - injection F as ->. f_equal. apply find_none_filter.
    destruct (find (has_bill_id id) rows) as [x|] eqn:G; [|reflexivity].
    apply find_some in G. destruct G as [Hin Hx].
    unfold has_bill_id in *. apply String.eqb_eq in E, Hx.
    exfalso. apply Hnotin. rewrite E, <- Hx. apply in_map, Hin.
  - apply IH; assumption.
Qed.

Lemma order_by_map {A B : Type} (f : A -> B) (lebA : A -> A -> bool)
  (lebB : B -> B -> bool) (rows : list A) :
  (forall a b, lebB (f a) (f b) = lebA a b) ->
  order_by lebB (map f rows) = map f (order_by lebA rows).
Proof.
  intros H.
  assert (forall x l, insert_row lebB (f x) (map f l) = map f (insert_row lebA x l)) as I.
  { intros x l. induction l as [|y l IH]; simpl; [reflexivity|].
    rewrite H. destruct (lebA x y); simpl; [reflexivity | rewrite IH; reflexivity]. }
  induction rows as [|x rows IH]; simpl; [reflexivity|].
  fold (order_by lebB (map f rows)). fold (order_by lebA rows).
  rewrite IH. apply I.
Qed.

Lemma scanBillJoin_items (row : Bill.t) (lis : list LineItem.t) :
  Forall (fun li => LineItem.BillID li = Bill.ID row) lis ->
  forall items,
    scanBillJoin (map (fun li => (row, Some li)) lis) (Some row) items
    = (Some row, items ++ lis).
Proof.
  induction 1 as [|li lis E _ IH]; intros items; simpl.
  - rewrite app_nil_r. reflexivity.
  - rewrite IH, <- app_assoc, <- E. destruct li; reflexivity.
Qed.

Lemma created_asc_sorted (lis : list LineItem.t) :
  Sorted (fun a b => LineItem.CreatedAt a <= LineItem.CreatedAt b)
    (order_by line_items_created_asc lis).
Proof.
  pose proof (order_by_sorted line_items_created_asc line_items_created_asc_total lis) as S.
  eapply Sorted_ind with (P := fun l => Sorted _ l); [constructor | | exact S].
  intros a l _ IH H. constructor; [exact IH|].
  destruct H; constructor. unfold line_items_created_asc in *. apply Z.leb_le. assumption.
Qed.

Lemma getBillWithItemsJoin_found (db : DB) (billID : string) (row : Bill.t) :
  PrimaryKeys db ->
  select_bill db billID = Some row ->
  getBillWithItemsJoin db billID
  = Ok (row, order_by line_items_created_asc
               (filter (in_bill billID) (bill_line_items db))).
Proof.
  intros [KB _] F. unfold getBillWithItemsJoin, query_bill_join.
  rewrite (unique_bill_filter _ _ _ KB F). cbn [flat_map]. rewrite app_nil_r.
  assert (Bill.ID row = billID) as Hid.
  { apply find_some in F. destruct F as [_ H]. apply String.eqb_eq, H. }
  unfold left_join. rewrite Hid.
  set (matched := filter (in_bill billID) (bill_line_items db)).
  assert (Forall (fun li => LineItem.BillID li = Bill.ID row)
            (order_by line_items_created_asc matched)) as InBill.
  { apply Forall_forall. intros li H.
    apply (Permutation_in _ (order_by_permutation line_items_created_asc matched)) in H.
    apply filter_In in H. destruct H as [_ H]. unfold in_bill in H.
    apply String.eqb_eq in H. congruence. }
  destruct matched as [|li0 rest] eqn:M; [reflexivity|].
  rewrite <- M in *.
  rewrite (order_by_map (fun li => (row, Some li)) line_items_created_asc join_created_asc)
    by reflexivity.
  destruct (order_by line_items_created_asc matched) as [|li lis] eqn:O.
  - exfalso.
    pose proof (order_by_permutation line_items_created_asc matched) as P.
    rewrite O, M in P. apply Permutation_nil in P. discriminate.
  - inversion InBill as [|? ? E InBill']; subst. cbn [map scanBillJoin app].
    rewrite (scanBillJoin_items row lis InBill'), <- E. destruct li; reflexivity.
Qed.

(** X18. [getBillWithItemsJoin] fails with [NotFound] exactly for an id
    that has no bill row; otherwise, the primary keys holding, it returns
    the stored bill together with that bill's line items, all of them and
    no other, each once, oldest first (an empty list for a bill without
    items). *)
Theorem getBillWithItemsJoin_reads_the_bill (db : DB) (billID : string) :
  PrimaryKeys db ->
  (select_bill db billID = None ->
   getBillWithItemsJoin db billID = Err (errs.B errs.NotFound "bill not found"))
  /\ (forall row,
        select_bill db billID = Some row ->
        exists items,
          getBillWithItemsJoin db billID = Ok (row, items)
          /\ Permutation items (filter (in_bill billID) (bill_line_items db))
          /\ Sorted (fun a b => LineItem.CreatedAt a <= LineItem.CreatedAt b) items).
Proof.
  intros K. split.
  - intros F. unfold getBillWithItemsJoin, query_bill_join.
    unfold select_bill in F. rewrite (find_none_filter _ _ F). reflexivity.
  - intros row F. eexists. split; [apply (getBillWithItemsJoin_found db billID row K F)|].
    split; [apply order_by_permutation | apply created_asc_sorted].
Qed.

Lemma getBillWithItemsJoin_reads_the_bill_witness :
  getBillWithItemsJoin
    (mkDB [Bill.mk "b-1" StatusOpen CurrencyUSD 0 1 None]
          [LineItem.mk "li-2" "b-1" "coffee" 725 8; LineItem.mk "li-1" "b-1" "lunch" 1250 3])
    "b-1"
  = Ok (Bill.mk "b-1" StatusOpen CurrencyUSD 0 1 None,
        [LineItem.mk "li-1" "b-1" "lunch" 1250 3; LineItem.mk "li-2" "b-1" "coffee" 725 8])
  /\ getBillWithItemsJoin oneOpenBill "b-7" = Err (errs.B errs.NotFound "bill not found").
Proof.
  split; [reflexivity|].
  apply (getBillWithItemsJoin_reads_the_bill oneOpenBill "b-7").
  - split; repeat constructor; intros [].
  - reflexivity.
Defined.

(** * The handlers *)

(** ** The handler that signals the workflow *)

(** X19. [Api.AddLineItem] signals the workflow only for a bill that is
    stored, open and of the request's (supported) currency: every call it
    makes is the one add-line-item signal to that bill's workflow, carrying
    the handler's fresh id and the request's fields; a request rejected by
    these checks sends nothing. *)
Theorem AddLineItem_signals_only_open_bills (lineItemID : string) (signalled : bool)
  (db : DB) (id : string) (req : Api.AddLineItemRequest.t) (call : ClientCall) :
  In call (snd (Api.AddLineItem lineItemID signalled db id req)) ->
  exists row,
    select_bill db id = Some row
    /\ Bill.Status row = StatusOpen
    /\ Bill.Currency row = Api.AddLineItemRequest.Currency req
    /\ Currency_Valid (Bill.Currency row) = true
    /\ call
       = SignalWorkflow (workflowIDForBill id) "add-line-item"
           (OnAddLineItem
              (AddLineItemSignal.mk lineItemID (Api.AddLineItemRequest.AmountMinor req)
                 (Api.AddLineItemRequest.Description req)
                 (Api.AddLineItemRequest.Currency req))).
Proof.
  unfold Api.AddLineItem, getBillStatusAndCurrency.
  destruct (Currency_Valid (Api.AddLineItemRequest.Currency req)) eqn:V; [|intros []].
  cbn [negb]. destruct (select_bill db id) as [row|]; [|intros []].
  destruct (String.eqb_spec (Bill.Status row) StatusOpen) as [S|S]; [|intros []].
  destruct (String.eqb_spec (Bill.Currency row) (Api.AddLineItemRequest.Currency req))
    as [C|C]; [|intros []].
  cbn [negb]. intros H. exists row.
  repeat split; try assumption; try congruence.
  destruct signalled; destruct H as [<-|[]]; reflexivity.
Qed.

Lemma AddLineItem_signals_only_open_bills_witness :
  exists row,
    select_bill oneOpenBill "b-1" = Some row
    /\ Bill.Status row = StatusOpen
    /\ Bill.Currency row = CurrencyUSD.
Proof.
  destruct (AddLineItem_signals_only_open_bills "li-1" true oneOpenBill "b-1"
              (Api.AddLineItemRequest.mk "lunch" 1250 CurrencyUSD)
              (SignalWorkflow "bill-b-1" "add-line-item" (OnAddLineItem lunch)))
    as [row [F [S [C _]]]].
  - left. reflexivity.
  - exists row. repeat split; assumption.
Defined.

(** X20. [Api.AddLineItem] does not look at the amount: for a stored open
    bill of the request's currency it sends the signal with whatever
    [AmountMinor] the request carries, zero and negative included, and
    answers with the fresh id; if the client fails to signal it answers
    [FailedPrecondition], "bill is closed", for a bill that is open. *)
Theorem AddLineItem_accepts_any_amount (lineItemID : string) (signalled : bool)
  (db : DB) (id : string) (req : Api.AddLineItemRequest.t) (row : Bill.t) :
  Currency_Valid (Api.AddLineItemRequest.Currency req) = true ->
  select_bill db id = Some row ->
  Bill.Status row = StatusOpen ->
  Bill.Currency row = Api.AddLineItemRequest.Currency req ->
  Api.AddLineItem lineItemID signalled db id req
  = (if signalled
     then Ok (Api.AddLineItemResponse.mk lineItemID)
     else Err (errs.B errs.FailedPrecondition "bill is closed"),
     [SignalWorkflow (workflowIDForBill id) "add-line-item"
        (OnAddLineItem
           (AddLineItemSignal.mk lineItemID (Api.AddLineItemRequest.AmountMinor req)
              (Api.AddLineItemRequest.Description req)
              (Api.AddLineItemRequest.Currency req)))]).
Proof.
  intros V F S C. unfold Api.AddLineItem, getBillStatusAndCurrency.
  rewrite V, F, S, C, !String.eqb_refl. destruct signalled; reflexivity.
Qed.

Lemma AddLineItem_accepts_any_amount_witness :
  Api.AddLineItem "li-4" true oneOpenBill "b-1"
    (Api.AddLineItemRequest.mk "refund" (-30) CurrencyUSD)
  = (Ok (Api.AddLineItemResponse.mk "li-4"),
     [SignalWorkflow "bill-b-1" "add-line-item" (OnAddLineItem refund)]).
Proof.
  apply (AddLineItem_accepts_any_amount "li-4" true oneOpenBill "b-1"
           (Api.AddLineItemRequest.mk "refund" (-30) CurrencyUSD)
           (Bill.mk "b-1" StatusOpen CurrencyUSD 0 1 None)); reflexivity.
Defined.

(** ** The handlers that write the store themselves *)

Section OlderHandlers.

Variable formatTime : Time -> string.

(** X21. [OlderApi.AddLineItem] writes before it signals: for a stored
    open bill of the request's currency, a positive amount and a free id,
    the line item is inserted and then the signal sent, so when the client
    fails to signal the handler answers [Internal] while the row stays in
    the store. *)
Theorem older_AddLineItem_writes_before_signalling (now : Time) (lineItemID : string)
  (db : DB) (id : string) (req : OlderApi.AddLineItemRequest.t) (b : Bill.t) :
  select_bill db id = Some b ->
  Bill.Status b = StatusOpen ->
  OlderApi.AddLineItemRequest.Currency req = Bill.Currency b ->
  0 < OlderApi.AddLineItemRequest.AmountMinor req ->
  select_line_item db lineItemID = None ->
  let li :=
    LineItem.mk lineItemID id (OlderApi.AddLineItemRequest.Description req)
      (OlderApi.AddLineItemRequest.AmountMinor req) now in
  OlderApi.AddLineItem formatTime now lineItemID false db id req
  = (mkDB (bills db) (bill_line_items db ++ [li]),
     Err (errs.B errs.Internal "signal add-line-item"),
     [SignalWorkflow (workflowIDForBill id) "add-line-item"
        (OnAddLineItem
           (AddLineItemSignal.mk lineItemID (OlderApi.AddLineItemRequest.AmountMinor req)
              (OlderApi.AddLineItemRequest.Description req)
              (OlderApi.AddLineItemRequest.Currency req)))])
  /\ select_line_item (mkDB (bills db) (bill_line_items db ++ [li])) lineItemID = Some li.
Proof.
  intros F S C H L li.
  assert (Bill.ID b = id) as Hid.
  { apply find_some in F. destruct F as [_ E]. apply String.eqb_eq, E. }
  split.
  - unfold OlderApi.AddLineItem, getBill. rewrite F, S, C, !String.eqb_refl. cbn [negb].
    unfold insertLineItem. rewrite S, String.eqb_refl. cbn [negb].
    destruct (Z.leb_spec (OlderApi.AddLineItemRequest.AmountMinor req) 0); [lia|].
    unfold insert_line_item_returning. cbn [bill_line_items_check negb].
    rewrite L, Hid, (find_some_existsb _ _ _ F). reflexivity.
  - unfold select_line_item in *. cbn [bill_line_items]. rewrite find_snoc, L.
    unfold has_line_item_id. cbn [LineItem.ID li]. rewrite String.eqb_refl. reflexivity.
Qed.

(** X22. [OlderApi.CloseBill], for a stored open bill, signals the close,
    reads the workflow's result and persists its [TotalMinor]: the stored
    row becomes ['CLOSED'] with exactly the total the workflow returned,
    and the response shows that row; nothing but the bill row changes. *)
Theorem older_CloseBill_persists_the_workflow_total (now : Time) (result : BillResult.t)
  (db : DB) (id : string) (b : Bill.t) :
  select_bill db id = Some b ->
  Bill.Status b = StatusOpen ->
  let updated :=
    Bill.mk id StatusClosed (Bill.Currency b) (BillResult.TotalMinor result)
      (Bill.CreatedAt b) (Some now) in
  exists db' items,
    OlderApi.CloseBill formatTime now true (Some result) db id
    = (db', Ok (OlderApi.CloseBillResponse.mk (OlderApi.billToDTO formatTime updated items)),
       [SignalWorkflow (workflowIDForBill id) "close-bill" closeSignal;
        GetWorkflowResult (workflowIDForBill id)])
    /\ select_bill db' id = Some updated
    /\ bill_line_items db' = bill_line_items db
    /\ listLineItems db id = Ok items.
Proof.
  intros F S updated.
  assert (Bill.ID b = id) as Hid.
  { apply find_some in F. destruct F as [_ E]. apply String.eqb_eq, E. }
  assert (select_bill db (Bill.ID b) = Some b) as F' by (rewrite Hid; exact F).
  destruct (closeBill_closes_the_row now db b b (BillResult.TotalMinor result) S F')
    as [db' [C [F1 I]]].
  exists db'. eexists. unfold OlderApi.CloseBill, getBill.
  rewrite F, S, String.eqb_refl. cbn [negb]. rewrite C.
  unfold listLineItems. rewrite I, Hid in *.
  split; [reflexivity|]. split; [exact F1|]. split; reflexivity.
Qed.

(** X23. [OlderApi.CloseBill] re-reads the bill, so it is safe to repeat:
    after a close that succeeded, a second request for the same bill is
    refused with [FailedPrecondition] before any signal is sent, and the
    store keeps the total and close time of the first. *)
Theorem older_CloseBill_refuses_a_second_close (now1 now2 : Time) (result : BillResult.t)
  (signalled : bool) (got : option BillResult.t) (db : DB) (id : string) (b : Bill.t) :
  select_bill db id = Some b ->
  Bill.Status b = StatusOpen ->
  let db1 := fst (fst (OlderApi.CloseBill formatTime now1 true (Some result) db id)) in
  OlderApi.CloseBill formatTime now2 signalled got db1 id
  = (db1, Err (errs.B errs.FailedPrecondition "bill already closed"), []).
Proof.
  intros F S db1.
  assert (Bill.ID b = id) as Hid.
  { apply find_some in F. destruct F as [_ E]. apply String.eqb_eq, E. }
  assert (select_bill db (Bill.ID b) = Some b) as F' by (rewrite Hid; exact F).
  destruct (closeBill_closes_the_row now1 db b b (BillResult.TotalMinor result) S F')
    as [db' [C [F1 _]]].
  assert (db1 = db') as ->.
  { subst db1. unfold OlderApi.CloseBill, getBill.
    rewrite F, S, String.eqb_refl. cbn [negb]. rewrite C. reflexivity. }
  unfold OlderApi.CloseBill, getBill. rewrite Hid in F1. rewrite F1. reflexivity.
Qed.

(** X24. [OlderApi.ListBills] accepts as status only the empty string,
    ["OPEN"] and ["CLOSED"], exactly as spelled: anything else, lower case
    included, is [InvalidArgument]; with a status every bill listed has it,
    and the list has one entry per stored bill of that status. *)
Theorem older_ListBills_checks_the_status (db : DB) (status : string) :
  (status <> ""%string -> status <> StatusOpen -> status <> StatusClosed ->
   OlderApi.ListBills formatTime db status
   = Err (errs.B errs.InvalidArgument "invalid status"))
  /\ (forall resp,
        OlderApi.ListBills formatTime db status = Ok resp ->
        status <> ""%string ->
        Forall (fun dto => OlderApi.BillDTO.Status dto = status)
          (OlderApi.ListBillsResponse.Bills resp)
        /\ List.length (OlderApi.ListBillsResponse.Bills resp)
           = List.length (filter (fun b => String.eqb (Bill.Status b) status) (bills db)))
  /\ (forall resp,
        OlderApi.ListBills formatTime db "" = Ok resp ->
        List.length (OlderApi.ListBillsResponse.Bills resp) = List.length (bills db)).
Proof.
  split; [|split].
  - intros N1 N2 N3. unfold OlderApi.ListBills.
    destruct (String.eqb_spec status ""); [contradiction|].
    destruct (String.eqb_spec status StatusOpen); [contradiction|].
    destruct (String.eqb_spec status StatusClosed); [contradiction|]. reflexivity.
  - intros resp R N. unfold OlderApi.ListBills in R.
    destruct (String.eqb_spec status ""); [contradiction|].
    destruct (String.eqb status StatusOpen || String.eqb status StatusClosed);
      [|discriminate].
    cbn [listBills] in R. injection R as <-. cbn [OlderApi.ListBillsResponse.Bills].
    pose proof (order_by_permutation bills_created_desc
                  (filter (fun b => String.eqb (Bill.Status b) status) (bills db))) as P.
    split.
    + apply Forall_map, Forall_forall. intros b H. cbn [OlderApi.billToDTO OlderApi.BillDTO.Status].
      apply (Permutation_in _ P), filter_In in H. destruct H as [_ H].
      apply String.eqb_eq, H.
    + rewrite length_map. apply Permutation_length, P.
  - intros resp R. cbn in R. injection R as <-. cbn [OlderApi.ListBillsResponse.Bills].
    rewrite length_map. apply Permutation_length, order_by_permutation.
Qed.

(** X25. [OlderApi.CreateBill] stores the bill before it starts the
    workflow: for a supported currency and a free id the open bill row is
    written and the workflow started with the bill's id and currency; when
    the start fails the handler answers [Internal] and the row stays, a
    bill without a workflow. *)
Theorem older_CreateBill_stores_before_starting (now : Time) (id : string)
  (started : bool) (db : DB) (currency : Currency) :
  Currency_Valid currency = true ->
  select_bill db id = None ->
  let b := Bill.mk id StatusOpen currency 0 now None in
  OlderApi.CreateBill formatTime now id started db currency
  = (mkDB (bills db ++ [b]) (bill_line_items db),
     if started
     then Ok (OlderApi.CreateBillResponse.mk (OlderApi.billToDTO formatTime b []))
     else Err (errs.B errs.Internal "start bill workflow"),
     [ExecuteWorkflow (workflowIDForBill id) (BillWorkflowParams.mk id currency)])
  /\ select_bill (mkDB (bills db ++ [b]) (bill_line_items db)) id = Some b.
Proof.
  intros V F b. split.
  - unfold OlderApi.CreateBill, createBill, insert_bill_returning.
    rewrite bills_check_new, V, F. cbn [negb]. destruct started; reflexivity.
  - unfold select_bill in *. cbn [bills]. rewrite find_snoc, F.
    unfold has_bill_id. cbn [Bill.ID b]. rewrite String.eqb_refl. reflexivity.
Qed.

End OlderHandlers.

Lemma older_AddLineItem_writes_before_signalling_witness :
  OlderApi.AddLineItem (fun _ => ""%string) 3 "li-1" false oneOpenBill "b-1"
    (OlderApi.AddLineItemRequest.mk "lunch" 1250 CurrencyUSD)
  = (mkDB (bills oneOpenBill) [LineItem.mk "li-1" "b-1" "lunch" 1250 3],
     Err (errs.B errs.Internal "signal add-line-item"),
     [SignalWorkflow "bill-b-1" "add-line-item" (OnAddLineItem lunch)]).
Proof.
  apply (older_AddLineItem_writes_before_signalling (fun _ => ""%string) 3 "li-1"
           oneOpenBill "b-1" (OlderApi.AddLineItemRequest.mk "lunch" 1250 CurrencyUSD)
           (Bill.mk "b-1" StatusOpen CurrencyUSD 0 1 None)); reflexivity || (simpl; lia).
Defined.

Lemma older_CloseBill_persists_the_workflow_total_witness :
  exists db' items,
    OlderApi.CloseBill (fun _ => ""%string) 5 true
      (Some (BillResult.mk "b-1" "USD" 1975 [lineItemStateOf lunch; lineItemStateOf coffee]))
      oneOpenBill "b-1"
    = (db',
       Ok (OlderApi.CloseBillResponse.mk
             (OlderApi.billToDTO (fun _ => ""%string)
                (Bill.mk "b-1" StatusClosed CurrencyUSD 1975 1 (Some 5)) items)),
       [SignalWorkflow "bill-b-1" "close-bill" closeSignal; GetWorkflowResult "bill-b-1"])
    /\ select_bill db' "b-1" = Some (Bill.mk "b-1" StatusClosed CurrencyUSD 1975 1 (Some 5)).
Proof.
  destruct (older_CloseBill_persists_the_workflow_total (fun _ => ""%string) 5
              (BillResult.mk "b-1" "USD" 1975 [lineItemStateOf lunch; lineItemStateOf coffee])
              oneOpenBill "b-1" (Bill.mk "b-1" StatusOpen CurrencyUSD 0 1 None)
              eq_refl eq_refl) as [db' [items [C [F _]]]].
  exists db', items. split; assumption.
Defined.

Lemma older_CloseBill_refuses_a_second_close_witness :
  OlderApi.CloseBill (fun _ => ""%string) 9 true (Some (initialState usdBill))
    (mkDB [Bill.mk "b-1" StatusClosed CurrencyUSD 1975 1 (Some 5)] []) "b-1"
  = (mkDB [Bill.mk "b-1" StatusClosed CurrencyUSD 1975 1 (Some 5)] [],
     Err (errs.B errs.FailedPrecondition "bill already closed"), []).
Proof.
  apply (older_CloseBill_refuses_a_second_close (fun _ => ""%string) 5 9
           (BillResult.mk "b-1" "USD" 1975 []) true (Some (initialState usdBill))
           oneOpenBill "b-1" (Bill.mk "b-1" StatusOpen CurrencyUSD 0 1 None));
    reflexivity.
Defined.

Lemma older_CreateBill_stores_before_starting_witness :
  OlderApi.CreateBill (fun _ => ""%string) 4 "b-2" false oneOpenBill CurrencyGEL
  = (mkDB (bills oneOpenBill ++ [Bill.mk "b-2" StatusOpen CurrencyGEL 0 4 None]) [],
     Err (errs.B errs.Internal "start bill workflow"),
     [ExecuteWorkflow "bill-b-2" (BillWorkflowParams.mk "b-2" CurrencyGEL)]).
Proof.
  apply (older_CreateBill_stores_before_starting (fun _ => ""%string) 4 "b-2" false
           oneOpenBill CurrencyGEL); reflexivity.
Defined.

(** ** The older flow, end to end *)

Section OlderFlow.

Variable formatTime : Time -> string.

Lemma older_AddLineItem_step (now : Time) (lineItemID : string) (db : DB) (id : string)
  (req : OlderApi.AddLineItemRequest.t) (b : Bill.t) :
  select_bill db id = Some b ->
  Bill.Status b = StatusOpen ->
  exists news,
    fst (fst (OlderApi.AddLineItem formatTime now lineItemID true db id req))
    = mkDB (bills db) (bill_line_items db ++ news)
    /\ Forall (fun li => LineItem.BillID li = id) news
    /\ deliveriesOf (snd (OlderApi.AddLineItem formatTime now lineItemID true db id req))
       = map (fun li => OnAddLineItem (signalOf (Bill.Currency b) li)) news.
Proof.
  intros F S.
  assert (Bill.ID b = id) as Hid.
  { apply find_some in F. destruct F as [_ E]. apply String.eqb_eq, E. }
  assert (exists news : list LineItem.t,
            db = mkDB (bills db) (bill_line_items db ++ news)
            /\ Forall (fun li => LineItem.BillID li = id) news
            /\ @nil Delivery
               = map (fun li => OnAddLineItem (signalOf (Bill.Currency b) li)) news)
    as Nothing.
  { exists []. rewrite app_nil_r, DB_eta. repeat split. constructor. }
  unfold OlderApi.AddLineItem, getBill. rewrite F, S, String.eqb_refl. cbn [negb].
  destruct (String.eqb_spec (OlderApi.AddLineItemRequest.Currency req) (Bill.Currency b))
    as [C|C]; cbn [negb fst snd deliveriesOf flat_map]; [|exact Nothing].
  unfold insertLineItem. rewrite S, String.eqb_refl. cbn [negb].
  destruct (_ <=? 0); cbn [fst snd deliveriesOf flat_map]; [exact Nothing|].
  unfold insert_line_item_returning. cbn [bill_line_items_check negb].
  destruct (select_line_item db lineItemID);
    cbn [fst snd deliveriesOf flat_map]; [exact Nothing|].
  rewrite Hid, (find_some_existsb _ _ _ F). cbn [listLineItems fst snd deliveriesOf flat_map].
  eexists [_]. split; [reflexivity|]. split; [repeat constructor|].
  unfold signalOf. cbn. rewrite C. reflexivity.
Qed.

Lemma serveAddLineItems_spec (id : string) (b : Bill.t) (arrivals : list Arrival.t) :
  forall db,
    select_bill db id = Some b ->
    Bill.Status b = StatusOpen ->
    exists news,
      fst (serveAddLineItems formatTime db id arrivals)
      = mkDB (bills db) (bill_line_items db ++ news)
      /\ Forall (fun li => LineItem.BillID li = id) news
      /\ snd (serveAddLineItems formatTime db id arrivals)
         = map (fun li => OnAddLineItem (signalOf (Bill.Currency b) li)) news.
Proof.
  induction arrivals as [|a rest IH]; intros db F S.
  - exists []. cbn. rewrite app_nil_r, DB_eta. repeat split. constructor.
  - destruct (older_AddLineItem_step (Arrival.Now a) (Arrival.LineItemID a) db id
                (Arrival.Request a) b F S) as [news1 [D1 [B1 C1]]].
    cbn [serveAddLineItems].
    destruct (OlderApi.AddLineItem formatTime (Arrival.Now a) (Arrival.LineItemID a) true
                db id (Arrival.Request a)) as [[db1 r] calls].
    cbn [fst snd] in D1, C1. subst db1.
    destruct (IH (mkDB (bills db) (bill_line_items db ++ news1)) F S)
      as [news2 [D2 [B2 C2]]].
    destruct (serveAddLineItems formatTime _ id rest) as [db2 sent].
    cbn [fst snd bills bill_line_items] in *. subst db2 sent.
    exists (news1 ++ news2). rewrite C1, map_app, app_assoc.
    split; [reflexivity|]. split; [apply Forall_app; split; assumption | reflexivity].
Qed.

Lemma appliedSignals_all (currency : string) (lis : list LineItem.t) :
  appliedSignals currency
    (map (fun li => OnAddLineItem (signalOf currency li)) lis ++ [closeSignal])
  = map (signalOf currency) lis.
Proof.
  induction lis as [|li lis IH]; [reflexivity|].
  cbn [map app appliedSignals signalOf AddLineItemSignal.Currency].
  rewrite String.eqb_refl. f_equal. exact IH.
Qed.

Lemma exactSum_signals (currency : string) (lis : list LineItem.t) :
  exactSum (map lineItemStateOf (map (signalOf currency) lis))
  = sumZ (map LineItem.AmountMinor lis).
Proof.
  induction lis as [|li lis IH]; [reflexivity|].
  cbn [map exactSum fold_right sumZ]. fold (exactSum (map lineItemStateOf
                                                         (map (signalOf currency) lis))).
  fold (sumZ (map LineItem.AmountMinor lis)). rewrite IH. reflexivity.
Qed.

Lemma sumZ_permutation (l l' : list Z) : Permutation l l' -> sumZ l = sumZ l'.
Proof.
  unfold sumZ. induction 1; simpl; lia.
Qed.

Lemma filter_all {A : Type} (f : A -> bool) (l : list A) :
  Forall (fun x => f x = true) l -> filter f l = l.
Proof.
  induction 1 as [|x l H _ IH]; simpl; [reflexivity|]. rewrite H, IH. reflexivity.
Qed.

Lemma filter_none {A : Type} (f : A -> bool) (l : list A) :
  Forall (fun x => f x = false) l -> filter f l = [].
Proof.
  induction 1 as [|x l H _ IH]; simpl; [reflexivity|]. rewrite H. exact IH.
Qed.

(** X26. The older flow keeps total and items together.  Take a stored
    open bill that has no line item yet and whose workflow was started with
    the bill's currency; serve any sequence of add requests through
    [OlderApi.AddLineItem], every signal being delivered in the order sent;
    then close through [OlderApi.CloseBill] with the result [BillWorkflow]
    returns for those signals and the close.  The close succeeds, and the
    total it persists and shows is the [int64] sum of the amounts of the
    line items it shows, which are the items the store holds for the
    bill. *)
Theorem older_flow_total_matches_items (now : Time) (db : DB) (id : string) (b : Bill.t)
  (arrivals : list Arrival.t) :
  select_bill db id = Some b ->
  Bill.Status b = StatusOpen ->
  (forall li, In li (bill_line_items db) -> LineItem.BillID li <> id) ->
  let served := serveAddLineItems formatTime db id arrivals in
  let result :=
    stateOf (BillWorkflow (BillWorkflowParams.mk id (Bill.Currency b))
               (snd served ++ [closeSignal])) in
  exists db' dto updated items,
    fst (OlderApi.CloseBill formatTime now true (Some result) (fst served) id)
    = (db', Ok (OlderApi.CloseBillResponse.mk dto))
    /\ dto = OlderApi.billToDTO formatTime updated items
    /\ select_bill db' id = Some updated
    /\ listLineItems db' id = Ok items
    /\ Bill.Status updated = StatusClosed
    /\ Bill.TotalMinor updated = Int64.wrap (sumZ (map LineItem.AmountMinor items))
    /\ MoneyDTO.AmountMinor (OlderApi.BillDTO.Total dto)
       = Int64.wrap (sumZ (map OlderApi.LineItemDTO.AmountMinor (OlderApi.BillDTO.Items dto))).
Proof.
  intros F S Fresh served result.
  destruct (serveAddLineItems_spec id b arrivals db F S) as [news [D [B C]]].
  fold served in D, C.
  assert (BillResult.TotalMinor result = Int64.wrap (sumZ (map LineItem.AmountMinor news)))
    as Total.
  { subst result. rewrite total_wraps_exactSum. cbn [BillWorkflowParams.Currency].
    rewrite C, appliedSignals_all, exactSum_signals. reflexivity. }
  assert (select_bill (fst served) id = Some b) as F1 by (rewrite D; exact F).
  assert (Bill.ID b = id) as Hid.
  { apply find_some in F. destruct F as [_ E]. apply String.eqb_eq, E. }
  assert (select_bill (fst served) (Bill.ID b) = Some b) as F1' by (rewrite Hid; exact F1).
  destruct (closeBill_closes_the_row now (fst served) b b (BillResult.TotalMinor result)
              S F1') as [db' [Close [F2 I]]].
  assert (filter (in_bill id) (bill_line_items db') = news) as Matched.
  { rewrite I, D. cbn [bill_line_items]. rewrite filter_app.
    rewrite filter_none, filter_all; [reflexivity | |].
    - eapply Forall_impl; [|exact B]. intros li E. unfold in_bill. cbn beta.
      rewrite E. apply String.eqb_refl.
    - apply Forall_forall. intros li H. unfold in_bill.
      destruct (String.eqb_spec (LineItem.BillID li) id) as [E|_]; [|reflexivity].
      exfalso. exact (Fresh li H E). }
  pose proof (order_by_permutation line_items_created_asc news) as P.
  exists db'. eexists. eexists. exists (order_by line_items_created_asc news).
  unfold OlderApi.CloseBill, getBill. rewrite F1, S, String.eqb_refl. cbn [negb].
  rewrite Close. unfold listLineItems at 1. rewrite Hid, Matched. cbn [fst].
  split; [reflexivity|]. split; [reflexivity|]. rewrite Hid in F2.
  split; [exact F2|]. split; [unfold listLineItems; rewrite Matched; reflexivity|].
  split; [reflexivity|].
  assert (sumZ (map LineItem.AmountMinor (order_by line_items_created_asc news))
          = sumZ (map LineItem.AmountMinor news)) as Same
      by (apply sumZ_permutation, Permutation_map, P).
  split.
  - cbn [Bill.TotalMinor]. rewrite Total, Same. reflexivity.
  - cbn [OlderApi.billToDTO OlderApi.BillDTO.Total OlderApi.BillDTO.Items
           MoneyDTO.AmountMinor Bill.TotalMinor].
    rewrite map_map. cbn [OlderApi.lineItemToDTO OlderApi.LineItemDTO.AmountMinor].
    rewrite Total. f_equal. symmetry. exact Same.
Qed.

End OlderFlow.

Lemma older_flow_total_matches_items_witness :
  exists db' dto updated items,
    fst (OlderApi.CloseBill (fun _ => ""%string) 9 true
           (Some (stateOf
                    (BillWorkflow (BillWorkflowParams.mk "b-1" CurrencyUSD)
                       (snd (serveAddLineItems (fun _ => ""%string) oneOpenBill "b-1"
                               [Arrival.mk 3 "li-1"
                                  (OlderApi.AddLineItemRequest.mk "lunch" 1250 CurrencyUSD);
                                Arrival.mk 4 "li-3"
                                  (OlderApi.AddLineItemRequest.mk "khinkali" 40 CurrencyGEL);
                                Arrival.mk 5 "li-2"
                                  (OlderApi.AddLineItemRequest.mk "coffee" 725 CurrencyUSD)])
                        ++ [closeSignal]))))
           (fst (serveAddLineItems (fun _ => ""%string) oneOpenBill "b-1"
                   [Arrival.mk 3 "li-1"
                      (OlderApi.AddLineItemRequest.mk "lunch" 1250 CurrencyUSD);
                    Arrival.mk 4 "li-3"
                      (OlderApi.AddLineItemRequest.mk "khinkali" 40 CurrencyGEL);
                    Arrival.mk 5 "li-2"
                      (OlderApi.AddLineItemRequest.mk "coffee" 725 CurrencyUSD)]))
           "b-1")
    = (db', Ok (OlderApi.CloseBillResponse.mk dto))
    /\ dto = OlderApi.billToDTO (fun _ => ""%string) updated items
    /\ select_bill db' "b-1" = Some updated
    /\ listLineItems db' "b-1" = Ok items
    /\ Bill.Status updated = StatusClosed
    /\ Bill.TotalMinor updated = Int64.wrap (sumZ (map LineItem.AmountMinor items))
    /\ MoneyDTO.AmountMinor (OlderApi.BillDTO.Total dto)
       = Int64.wrap (sumZ (map OlderApi.LineItemDTO.AmountMinor (OlderApi.BillDTO.Items dto))).
Proof.
  apply (older_flow_total_matches_items (fun _ => ""%string) 9 oneOpenBill "b-1"
           (Bill.mk "b-1" StatusOpen CurrencyUSD 0 1 None)).
  - reflexivity.
  - reflexivity.
  - intros li [].
Defined.

(** The same run, computed: two items stored and shown, 1975 persisted. *)
Lemma older_flow_sample :
  fst (OlderApi.CloseBill (fun _ => ""%string) 9 true
         (Some (stateOf
                  (BillWorkflow (BillWorkflowParams.mk "b-1" CurrencyUSD)
                     (snd (serveAddLineItems (fun _ => ""%string) oneOpenBill "b-1"
                             [Arrival.mk 3 "li-1"
                                (OlderApi.AddLineItemRequest.mk "lunch" 1250 CurrencyUSD);
                              Arrival.mk 4 "li-3"
                                (OlderApi.AddLineItemRequest.mk "khinkali" 40 CurrencyGEL);
                              Arrival.mk 5 "li-2"
                                (OlderApi.AddLineItemRequest.mk "coffee" 725 CurrencyUSD)])
                      ++ [closeSignal]))))
         (fst (serveAddLineItems (fun _ => ""%string) oneOpenBill "b-1"
                 [Arrival.mk 3 "li-1"
                    (OlderApi.AddLineItemRequest.mk "lunch" 1250 CurrencyUSD);
                  Arrival.mk 4 "li-3"
                    (OlderApi.AddLineItemRequest.mk "khinkali" 40 CurrencyGEL);
                  Arrival.mk 5 "li-2"
                    (OlderApi.AddLineItemRequest.mk "coffee" 725 CurrencyUSD)]))
         "b-1")
  = (mkDB [Bill.mk "b-1" StatusClosed CurrencyUSD 1975 1 (Some 9)]
          [LineItem.mk "li-1" "b-1" "lunch" 1250 3; LineItem.mk "li-2" "b-1" "coffee" 725 5],
     Ok (OlderApi.CloseBillResponse.mk
           (OlderApi.BillDTO.mk "b-1" StatusClosed CurrencyUSD (MoneyDTO.mk 1975 CurrencyUSD)
              "" (Some ""%string)
              [OlderApi.LineItemDTO.mk "li-1" "lunch" 1250 "";
               OlderApi.LineItemDTO.mk "li-2" "coffee" 725 ""]))).
Proof. vm_compute. reflexivity. Qed.

(** ** The join-based handler *)

(** X27. [Api.GetBillWithItems], the primary keys holding, answers
    [NotFound] for an id without a bill row and otherwise shows the stored
    bill field by field (id, status, currency, the stored total under the
    bill's currency, the two times formatted) and one item per line item of
    the bill, oldest first, each with the stored id, bill id, description
    and amount and its creation time formatted. *)
Theorem GetBillWithItems_shows_the_bill (formatTime : Time -> string) (db : DB)
  (id : string) :
  PrimaryKeys db ->
  (select_bill db id = None ->
   Api.GetBillWithItems formatTime db id = Err (errs.B errs.NotFound "bill not found"))
  /\ (forall row,
        select_bill db id = Some row ->
        exists items,
          Api.GetBillWithItems formatTime db id
          = Ok (Api.GetBillWithItemsResponse.mk
                  (BillDTO.mk (Bill.ID row) (Bill.Status row) (Bill.Currency row)
                     (MoneyDTO.mk (Bill.TotalMinor row) (Bill.Currency row))
                     (formatTime (Bill.CreatedAt row))
                     (match Bill.ClosedAt row with
                      | Some closedAt => Some (formatTime closedAt)
                      | None => None
                      end))
                  (map (fun li =>
                          LineItemDTO.mk (LineItem.ID li) (LineItem.BillID li)
                            (LineItem.Description li) (LineItem.AmountMinor li)
                            (formatTime (LineItem.CreatedAt li)))
                     items))
          /\ Permutation items (filter (in_bill id) (bill_line_items db))
          /\ Sorted (fun a b => LineItem.CreatedAt a <= LineItem.CreatedAt b) items).
Proof.
  intros K. split.
  - intros F. unfold Api.GetBillWithItems, getBillWithItemsJoin, query_bill_join.
    unfold select_bill in F. rewrite (find_none_filter _ _ F). reflexivity.
  - intros row F. unfold Api.GetBillWithItems.
    rewrite (getBillWithItemsJoin_found db id row K F).
    eexists. split; [reflexivity|].
    split; [apply order_by_permutation | apply created_asc_sorted].
Qed.

Lemma GetBillWithItems_shows_the_bill_witness :
  (exists items,
     Api.GetBillWithItems (fun _ => "t"%string)
       (mkDB [Bill.mk "b-1" StatusClosed CurrencyUSD 1975 1 (Some 9)]
             [LineItem.mk "li-2" "b-1" "coffee" 725 8;
              LineItem.mk "li-1" "b-1" "lunch" 1250 3])
       "b-1"
     = Ok (Api.GetBillWithItemsResponse.mk
             (BillDTO.mk "b-1" StatusClosed CurrencyUSD (MoneyDTO.mk 1975 CurrencyUSD) "t"
                (Some "t"%string))
             (map (fun li =>
                     LineItemDTO.mk (LineItem.ID li) (LineItem.BillID li)
                       (LineItem.Description li) (LineItem.AmountMinor li) "t")
                items))
     /\ Permutation items
          [LineItem.mk "li-2" "b-1" "coffee" 725 8; LineItem.mk "li-1" "b-1" "lunch" 1250 3])
  /\ Api.GetBillWithItems (fun _ => "t"%string)
       (mkDB [Bill.mk "b-1" StatusClosed CurrencyUSD 1975 1 (Some 9)]
             [LineItem.mk "li-2" "b-1" "coffee" 725 8;
              LineItem.mk "li-1" "b-1" "lunch" 1250 3])
       "b-1"
     = Ok (Api.GetBillWithItemsResponse.mk
             (BillDTO.mk "b-1" StatusClosed CurrencyUSD (MoneyDTO.mk 1975 CurrencyUSD) "t"
                (Some "t"%string))
             [LineItemDTO.mk "li-1" "b-1" "lunch" 1250 "t";
              LineItemDTO.mk "li-2" "b-1" "coffee" 725 "t"]).
Proof.
  split; [|reflexivity].
  destruct (GetBillWithItems_shows_the_bill (fun _ => "t"%string)
              (mkDB [Bill.mk "b-1" StatusClosed CurrencyUSD 1975 1 (Some 9)]
                    [LineItem.mk "li-2" "b-1" "coffee" 725 8;
                     LineItem.mk "li-1" "b-1" "lunch" 1250 3])
              "b-1") as [_ Found].
  - split; repeat constructor; simpl; intuition discriminate.
  - destruct (Found (Bill.mk "b-1" StatusClosed CurrencyUSD 1975 1 (Some 9)) eq_refl)
      as [items [E [P _]]].
    exists items. split; [exact E | exact P].
Defined.
